(** * Signal-generation core of the stateless Forex pipeline

    A shallow embedding of the n8n code nodes of the repository: the
    strategy scorers (Scorer_Trend, Scorer_Breakout, Scorer_Mean_Reversion,
    Scorer_Structure, Scorer_Liquidity, Scorer_VWAP) with the indicator
    helpers each of them carries, and the Confluence_Stateless node.

    JavaScript numbers are IEEE-754 binary64 values; they are modelled by
    Rocq's primitive floats, so that every definition evaluates on concrete
    candles exactly as the node does.  [null] and [undefined] are both
    rendered as [None]; string templates are kept as lists of fragments. *)

From Stdlib Require Import Bool List String Ascii ZArith Lia Permutation.
From Stdlib Require Import Floats.
From Stdlib Require Uint63.
Import ListNotations.
Set Warnings "-inexact-float".
Open Scope string_scope.
Open Scope list_scope.

(* ================================================================== *)
(** ** JavaScript primitives used by the nodes *)
(* ================================================================== *)

Module JS.

Open Scope float_scope.

Definition isNaN (x : float) : bool := negb (x =? x).

(** ToBoolean on a number: [0], [-0] and [NaN] are falsy. *)
Definition truthy (x : float) : bool := (x =? x) && negb (x =? 0).

(** ToBoolean on a possibly missing number. *)
Definition truthyO (o : option float) : bool :=
  match o with Some x => truthy x | None => false end.

(** [o || d] on numbers. *)
Definition or_else (o : option float) (d : float) : float :=
  match o with
  | Some x => if truthy x then x else d
  | None => d
  end.

(** [o || null]. *)
Definition or_null (o : option float) : option float :=
  match o with
  | Some x => if truthy x then Some x else None
  | None => None
  end.

(** The number read from a field once a guard has established that it is
    there; a missing value coerces to [NaN] in arithmetic. *)
Definition num (o : option float) : float :=
  match o with Some x => x | None => nan end.

Definition is_neg_zero (x : float) : bool :=
  match classify x with NZero => true | _ => false end.

Definition Math_min (a b : float) : float :=
  if isNaN a || isNaN b then nan
  else if a <? b then a
  else if b <? a then b
  else if is_neg_zero a then a else b.

Definition Math_max (a b : float) : float :=
  if isNaN a || isNaN b then nan
  else if a <? b then b
  else if b <? a then a
  else if is_neg_zero a then b else a.

Definition Math_max3 (a b c : float) : float := Math_max (Math_max a b) c.

(** [Math.min(...xs)] and [Math.max(...xs)]. *)
Definition Math_min_list (xs : list float) : float :=
  fold_left Math_min xs infinity.
Definition Math_max_list (xs : list float) : float :=
  fold_left Math_max xs neg_infinity.

Definition Math_abs (x : float) : float := PrimFloat.abs x.
Definition Math_sqrt (x : float) : float := PrimFloat.sqrt x.

(** The float of a non-negative integer (array lengths, periods). *)
Definition of_nat (n : nat) : float := of_uint63 (Uint63.of_Z (Z.of_nat n)).

Definition of_Z_exact (n : Z) : float :=
  let a := of_uint63 (Uint63.of_Z (Z.abs n)) in
  if (n <? 0)%Z then - a else a.

(** [Math.round]: the nearest integer, ties towards +infinity. *)
Definition Math_round (x : float) : float :=
  match Prim2SF x with
  | S754_finite s m e =>
      if (0 <=? e)%Z then x
      else
        let unit := (2 ^ (- e))%Z in
        let twice := (if s then - (2 * Zpos m) else 2 * Zpos m)%Z in
        let n := ((twice + unit) / (2 * unit))%Z in
        if (n =? 0)%Z then (if s then (-0) else 0) else of_Z_exact n
  | _ => x
  end.

(** [for (let i = from; i < to; i++) s = body(i, s)]. *)
Definition for_loop {S : Type} (from to : nat) (body : nat -> S -> S) (s : S) : S :=
  fold_left (fun acc i => body i acc) (seq from (to - from)) s.

(** [xs[xs.length - 1]]. *)
Definition last_value (xs : list float) : option float :=
  nth_error xs (List.length xs - 1).

(** [xs.slice(from, to)]. *)
Definition slice {A : Type} (from to : nat) (xs : list A) : list A :=
  firstn (to - from) (skipn from xs).

(** [xs.reduce((a, b) => a + b, 0)]. *)
Definition sum (xs : list float) : float := fold_left add xs 0.

(** [xs.sort(cmp)]: a stable sort; [x] goes before [y] when [cmp x y] is
    negative, and a NaN comparison counts as a tie. *)
Fixpoint insert_by {A : Type} (cmp : A -> A -> float) (x : A) (l : list A) : list A :=
  match l with
  | [] => [x]
  | y :: l' => if cmp x y <? 0 then x :: y :: l' else y :: insert_by cmp x l'
  end.

Definition sort_by {A : Type} (cmp : A -> A -> float) (l : list A) : list A :=
  fold_left (fun acc x => insert_by cmp x acc) l [].

(** [xs.findIndex(p)], with [None] for -1. *)
Fixpoint findIndex {A : Type} (p : A -> bool) (l : list A) : option nat :=
  match l with
  | [] => None
  | x :: l' => if p x then Some O
               else match findIndex p l' with Some i => Some (S i) | None => None end
  end.

(** [s.includes(sub)]. *)
Fixpoint includes (s sub : string) : bool :=
  if String.prefix sub s then true
  else match s with
       | EmptyString => false
       | String _ s' => includes s' sub
       end.

(** [new Date(time * 1000).getUTCHours()] for a whole number of seconds;
    a missing time or one outside the Date range gives NaN, here [None]. *)
Definition getUTCHours (time : option Z) : option Z :=
  match time with
  | Some t =>
      let ms := (t * 1000)%Z in
      if (Z.abs ms <=? 8640000000000000)%Z
      then Some ((ms / 3600000) mod 24)%Z
      else None
  | None => None
  end.

End JS.

(* ================================================================== *)
(** ** Data model *)
(* ================================================================== *)

(** A leaf value of a JSON record whose dynamic type the code inspects. *)
Inductive jsval : Type :=
| JUndefined
| JNull
| JBool (b : bool)
| JNum (x : float)
| JStr (s : string).

(** An object used as a key-value map. *)
Definition object : Type := list (string * jsval).

Fixpoint get (o : object) (key : string) : jsval :=
  match o with
  | [] => JUndefined
  | (k, v) :: o' => if String.eqb key k then v else get o' key
  end.

Fixpoint set (o : object) (key : string) (v : jsval) : object :=
  match o with
  | [] => [(key, v)]
  | (k, w) :: o' => if String.eqb key k then (k, v) :: o' else (k, w) :: set o' key v
  end.

Definition of_opt (o : option float) : jsval :=
  match o with Some x => JNum x | None => JNull end.

(** ToBoolean, [v == null] and the number a value stands for in
    arithmetic (strings do not occur where the nodes do arithmetic). *)
Definition truthy_val (v : jsval) : bool :=
  match v with
  | JUndefined | JNull => false
  | JBool b => b
  | JNum x => JS.truthy x
  | JStr s => negb (String.eqb s "")
  end.

Definition nullish (v : jsval) : bool :=
  match v with JUndefined | JNull => true | _ => false end.

Definition to_number (v : jsval) : float :=
  match v with
  | JNum x => x
  | JBool true => 1%float
  | JBool false | JNull => 0%float
  | JUndefined | JStr _ => nan
  end.

(** A piece of a template string: literal text, an interpolated number,
    a number printed by [toFixed(d)], or an interpolated boolean. *)
Inductive frag : Type :=
| Lit (s : string)
| Num (x : float)
| Fixed (x : float) (digits : nat)
| Flag (b : bool).

Definition Reason : Type := list frag.

Record Candle : Type := mkCandle {
  time : option Z;
  open : float;
  high : float;
  low : float;
  close : float;
  volume : option float;
  typical : option float
}.

Record Meta : Type := mkMeta {
  pip_size : option float
}.

Record CandleData : Type := mkCandleData {
  cd_symbol : string;
  data_5m : list Candle;
  data_15m : list Candle;
  data_1h : list Candle;
  data_4h : list Candle;
  data_daily : list Candle;
  hist_atr_4h : option (list float);
  cd_meta : Meta
}.

(** The pivot object, read by key: [pivots.s1], [pivots.R1], ... *)
Definition Pivots : Type := list (string * float).

Fixpoint pivot (p : Pivots) (key : string) : option float :=
  match p with
  | [] => None
  | (k, v) :: p' => if String.eqb key k then Some v else pivot p' key
  end.

Record SrData : Type := mkSrData {
  pivots : option Pivots;
  pdh : option float;
  pdl : option float;
  pdc : option float
}.

(** The record a scorer returns in [json], which is also what the
    confluence node receives.  A field the record does not carry is [None];
    [symbol] and [signal] are [""] when missing. *)
Record Signal : Type := mkSignal {
  symbol : string;
  signal : string;
  confidence : option float;
  price : option float;
  recommendedSLPips : option float;
  recommendedTPPips : option float;
  recommendedSLPrice : option float;
  recommendedTPPrice : option float;
  reason : Reason;
  signalType : option string;
  indicators : option object;
  market_data : option string;
  sr_data : option SrData;
  meta : option Meta
}.

Definition candle0 : Candle := mkCandle None nan nan nan nan None None.

(** [data[i]] for an index the surrounding guards keep in range. *)
Definition at_ (data : list Candle) (i : nat) : Candle := nth i data candle0.

Record RsiResult : Type := { rsi : option float; rsi_values : list float }.
Record AtrResult : Type := { atr : option float; atr_values : list float }.
Record EmaResult : Type := { ema : option float; ema_values : list float }.
Record BBResult : Type := { upper : option float; middle : option float; lower : option float }.
Record StochResult : Type := { k : option float; d : option float }.
Record AdxResult : Type := { adx : option float; plusDI : option float; minusDI : option float }.

(* ================================================================== *)
(** ** Scorer_Trend (v4.7): momentum / pullback *)
(* ================================================================== *)

Module Trend.

Import JS.
Open Scope float_scope.

Definition VOLATILITY_SPIKE_MULT : float := 3.0.
Definition SR_ZONE_ATR_MULT : float := 0.25.

Definition calculateRSI (data : list Candle) (period : nat) : RsiResult :=
  if Nat.ltb (List.length data) (period + 1) then {| rsi := Some 50; rsi_values := [] |} else
  let prices := rev (map close data) in
  if Nat.ltb (List.length prices) (period + 1) then {| rsi := Some 50; rsi_values := [] |} else
  let p := of_nat period in
  let '(gains, losses) :=
    for_loop 1 (period + 1)
      (fun i '(gains, losses) =>
         let change := nth i prices nan - nth (i - 1) prices nan in
         if 0 <? change then (gains + change, losses) else (gains, losses - change))
      (0, 0) in
  let avgGain := gains / p in
  let avgLoss := losses / p in
  let rsiValues :=
    [if avgLoss =? 0 then 100 else 100 - (100 / (1 + (avgGain / avgLoss)))] in
  let '(_, _, rsiValues) :=
    for_loop (period + 1) (List.length prices)
      (fun i '(avgGain, avgLoss, rsiValues) =>
         let change := nth i prices nan - nth (i - 1) prices nan in
         let gain := if 0 <? change then change else 0 in
         let loss := if change <? 0 then - change else 0 in
         let avgGain := ((avgGain * of_nat (period - 1)) + gain) / p in
         let avgLoss := ((avgLoss * of_nat (period - 1)) + loss) / p in
         (avgGain, avgLoss,
          rsiValues ++
            [if avgLoss =? 0 then 100 else 100 - (100 / (1 + (avgGain / avgLoss)))]))
      (avgGain, avgLoss, rsiValues) in
  {| rsi := last_value rsiValues; rsi_values := rsiValues |}.

Definition calculateATR (data : list Candle) (period : nat) : AtrResult :=
  if Nat.ltb (List.length data) (period + 1) then {| atr := None; atr_values := [] |} else
  let candles := rev data in
  let trValues := [high (at_ candles 0) - low (at_ candles 0)] in
  let trValues :=
    for_loop 1 (List.length candles)
      (fun i trValues =>
         let h := high (at_ candles i) in
         let l := low (at_ candles i) in
         let prevClose := close (at_ candles (i - 1)) in
         trValues ++ [Math_max3 (h - l) (Math_abs (h - prevClose)) (Math_abs (l - prevClose))])
      trValues in
  let p := of_nat period in
  let sum := for_loop 0 period (fun i sum => sum + nth i trValues nan) 0 in
  let firstAtr := sum / p in
  let atrValues := [firstAtr] in
  let '(_, atrValues) :=
    for_loop period (List.length trValues)
      (fun i '(prevAtr, atrValues) =>
         let currentAtr := ((prevAtr * of_nat (period - 1)) + nth i trValues nan) / p in
         (currentAtr, atrValues ++ [currentAtr]))
      (firstAtr, atrValues) in
  {| atr := last_value atrValues; atr_values := atrValues |}.

Definition calculateEMA (data : list Candle) (period : nat) : EmaResult :=
  if Nat.ltb (List.length data) period then {| ema := None; ema_values := [] |} else
  let prices := rev (map close data) in
  let k := 2 / of_nat (period + 1) in
  let sum := for_loop 0 period (fun i sum => sum + nth i prices nan) 0 in
  let prevEma := sum / of_nat period in
  let emaValues := [prevEma] in
  let '(_, emaValues) :=
    for_loop period (List.length prices)
      (fun i '(prevEma, emaValues) =>
         let ema := (nth i prices nan * k) + (prevEma * (1 - k)) in
         (ema, emaValues ++ [ema]))
      (prevEma, emaValues) in
  {| ema := last_value emaValues; ema_values := emaValues |}.

Definition market_data_log : string :=
  "Spread filter disabled. Quote node not providing bid/ask.".

(** The flat record every veto of this node returns. *)
Definition flat (symbol : string) (reason : Reason) (srData : SrData) : Signal :=
  {| symbol := symbol; signal := "flat"; confidence := Some 0; price := None;
     recommendedSLPips := None; recommendedTPPips := None;
     recommendedSLPrice := None; recommendedTPPrice := None;
     reason := reason; signalType := None; indicators := None;
     market_data := Some market_data_log; sr_data := Some srData; meta := None |}.

(** [xs.filter(Boolean)] on a list of levels, some of them missing. *)
Definition filter_Boolean (xs : list (option float)) : list float :=
  flat_map (fun o => match o with
                     | Some x => if truthy x then [x] else []
                     | None => []
                     end) xs.

Definition inZone (price zone level : float) : bool :=
  truthy level && (level - zone <? price) && (price <? level + zone).

(** Step 5: the 15-minute entry.  Returns the direction, whether an entry
    was found, the strategy tag, the reason and the base confidence. *)
Definition entry (htf_bias : string)
    (last_price_15m last_ema_15m last_rsi_15m last_rsi_4h : float)
  : string * bool * string * Reason * float :=
  let baseConfidence := 0.5 in
  if String.eqb htf_bias "long" then
    if (last_ema_15m <? last_price_15m) && (55 <? last_rsi_15m) then
      let baseConfidence := baseConfidence + 0.15 in
      let baseConfidence := if 60 <? last_rsi_4h then baseConfidence + 0.15 else baseConfidence in
      let baseConfidence := if 65 <? last_rsi_15m then baseConfidence + 0.10 else baseConfidence in
      ("buy", true, "momentum", [Lit "4H Trend Up, 15m Momentum (RSI > 55)"], baseConfidence)
    else if last_rsi_15m <? 35 then
      let baseConfidence := if 60 <? last_rsi_4h then baseConfidence + 0.10 else baseConfidence in
      let baseConfidence := if last_rsi_15m <? 25 then baseConfidence + 0.20 else baseConfidence in
      ("buy", true, "reversion", [Lit "4H Trend Up, 15m Pullback (RSI < 35)"], baseConfidence)
    else if (last_price_15m <=? last_ema_15m) && (40 <? last_rsi_15m) then
      let baseConfidence := 0.6 in
      let baseConfidence := if 60 <? last_rsi_4h then baseConfidence + 0.15 else baseConfidence in
      ("buy", true, "shallow_pullback", [Lit "4H Trend Up, 15m Pullback to 21-EMA"], baseConfidence)
    else ("flat", false, "none", [Lit "No signal"], baseConfidence)
  else if String.eqb htf_bias "short" then
    if (last_price_15m <? last_ema_15m) && (last_rsi_15m <? 45) then
      let baseConfidence := baseConfidence + 0.15 in
      let baseConfidence := if last_rsi_4h <? 40 then baseConfidence + 0.15 else baseConfidence in
      let baseConfidence := if last_rsi_15m <? 35 then baseConfidence + 0.10 else baseConfidence in
      ("sell", true, "momentum", [Lit "4H Trend Down, 15m Momentum (RSI < 45)"], baseConfidence)
    else if 65 <? last_rsi_15m then
      let baseConfidence := if last_rsi_4h <? 40 then baseConfidence + 0.10 else baseConfidence in
      let baseConfidence := if 75 <? last_rsi_15m then baseConfidence + 0.20 else baseConfidence in
      ("sell", true, "reversion", [Lit "4H Trend Down, 15m Pullback (RSI > 65)"], baseConfidence)
    else if (last_ema_15m <=? last_price_15m) && (last_rsi_15m <? 60) then
      let baseConfidence := 0.6 in
      let baseConfidence := if last_rsi_4h <? 40 then baseConfidence + 0.15 else baseConfidence in
      ("sell", true, "shallow_pullback", [Lit "4H Trend Down, 15m Pullback to 21-EMA"], baseConfidence)
    else ("flat", false, "none", [Lit "No signal"], baseConfidence)
  else ("flat", false, "none", [Lit "No signal"], baseConfidence).

(** FILTER 2, first half: the candidate levels, before and after
    [filter(Boolean)]. *)
Definition rawSupportLevels (srData : SrData) (htf_bias : string) (last_ema_4h : float)
  : list (option float) :=
  (match pivots srData with
   | Some pv => [pivot pv "s1"; pivot pv "s2"; pivot pv "s3"; pdl srData; pivot pv "p"]
   | None => []
   end) ++ (if String.eqb htf_bias "long" then [Some last_ema_4h] else []).

Definition rawResistanceLevels (srData : SrData) (htf_bias : string) (last_ema_4h : float)
  : list (option float) :=
  (match pivots srData with
   | Some pv => [pivot pv "r1"; pivot pv "r2"; pivot pv "r3"; pdh srData; pivot pv "p"]
   | None => []
   end) ++ (if String.eqb htf_bias "long" then []
            else if String.eqb htf_bias "short" then [Some last_ema_4h] else []).

(** FILTER 2, second half: the scan of the two lists.  Returns the
    adjusted base confidence and the extended reason. *)
Definition srContext (signal : string) (last_price_15m sr_zone_amount : float)
    (supportLevels resistanceLevels : list float)
    (baseConfidence : float) (reason : Reason) : float * Reason :=
  if String.eqb signal "buy" then
    match find (inZone last_price_15m sr_zone_amount) resistanceLevels with
    | Some r =>
        (baseConfidence - 0.3,
         reason ++ [Lit " (Penalty: At Resistance "; Fixed r 2; Lit ")"])
    | None =>
        match find (inZone last_price_15m sr_zone_amount) supportLevels with
        | Some s =>
            (baseConfidence + 0.2,
             reason ++ [Lit " (Bonus: At Support "; Fixed s 2; Lit ")"])
        | None => (baseConfidence, reason)
        end
    end
  else if String.eqb signal "sell" then
    match find (inZone last_price_15m sr_zone_amount) supportLevels with
    | Some s =>
        (baseConfidence - 0.3,
         reason ++ [Lit " (Penalty: At Support "; Fixed s 2; Lit ")"])
    | None =>
        match find (inZone last_price_15m sr_zone_amount) resistanceLevels with
        | Some r =>
            (baseConfidence + 0.2,
             reason ++ [Lit " (Bonus: At Resistance "; Fixed r 2; Lit ")"])
        | None => (baseConfidence, reason)
        end
    end
  else (baseConfidence, reason).

(** Step 8: stop-loss and take-profit distances in pips. *)
Definition targets (signal : string) (currentPrice sr_zone_amount pipSize last_atr_1h : float)
    (supportLevels resistanceLevels : list float) : float * float :=
  let slPipsFromATR := (last_atr_1h * 1.5) / pipSize in
  let recommendedSLPips := Math_max 20 (Math_round slPipsFromATR) in
  let recommendedTPPips := 60 in
  let recommendedTPPips :=
    if String.eqb signal "buy" then
      let targets := filter (fun r => currentPrice <? r) resistanceLevels in
      if Nat.ltb 0 (List.length targets) then
        let nearestTarget := Math_min_list targets in
        let targetPrice := nearestTarget - (sr_zone_amount / 2) in
        (targetPrice - currentPrice) / pipSize
      else recommendedTPPips
    else if String.eqb signal "sell" then
      let targets := filter (fun s => s <? currentPrice) supportLevels in
      if Nat.ltb 0 (List.length targets) then
        let nearestTarget := Math_max_list targets in
        let targetPrice := nearestTarget + (sr_zone_amount / 2) in
        (currentPrice - targetPrice) / pipSize
      else recommendedTPPips
    else recommendedTPPips in
  let recommendedTPPips :=
    if negb (truthy recommendedTPPips) || (recommendedTPPips <? recommendedSLPips)
    then Math_round (recommendedSLPips * 1.5)
    else Math_round recommendedTPPips in
  (recommendedSLPips, recommendedTPPips).

(** The node's main body, on the candle bundle ([items[0].json]) and the
    pivot set ([items[1].json]); the arity guard that aborts the run when
    fewer than three items were merged sits before it. *)
Definition Scorer_Trend (candleData : CandleData) (srData : SrData) : Signal :=
  let symbol := cd_symbol candleData in
  let data_15m := data_15m candleData in
  let data_1h := data_1h candleData in
  let data_4h := data_4h candleData in
  let meta := cd_meta candleData in
  let pipSize := or_else (pip_size meta) 0.01 in
  (* 2. minimum candle data *)
  if Nat.ltb (List.length data_4h) 55 || Nat.ltb (List.length data_15m) 30 || Nat.ltb (List.length data_1h) 30
  then flat symbol [Lit "Not enough data for EMAs/RSI"] srData else
  (* 3. indicators *)
  let rsi_4h := calculateRSI data_4h 14 in
  let ema_4h := calculateEMA data_4h 50 in
  let rsi_15m := calculateRSI data_15m 14 in
  let ema_15m := calculateEMA data_15m 21 in
  let atr_1h := calculateATR data_1h 14 in
  let atr_15m := calculateATR data_15m 14 in
  if negb (truthyO (rsi rsi_4h)) || negb (truthyO (ema ema_4h))
     || negb (truthyO (rsi rsi_15m)) || negb (truthyO (ema ema_15m))
     || negb (truthyO (atr atr_1h)) || negb (truthyO (atr atr_15m))
  then flat symbol [Lit "Indicator calculation failed, not enough data."] srData else
  let last_rsi_4h := num (rsi rsi_4h) in
  let last_ema_4h := num (ema ema_4h) in
  let last_price_4h := close (at_ data_4h 0) in
  let last_rsi_15m := num (rsi rsi_15m) in
  let last_ema_15m := num (ema ema_15m) in
  let last_price_15m := close (at_ data_15m 0) in
  let last_atr_1h := num (atr atr_1h) in
  let last_atr_15m := num (atr atr_15m) in
  (* FILTER 1: volatility *)
  let current_15m_candle := at_ data_15m 0 in
  let current_15m_range := high current_15m_candle - low current_15m_candle in
  let avg_15m_range := last_atr_15m in
  if avg_15m_range * VOLATILITY_SPIKE_MULT <? current_15m_range
  then flat symbol
         [Lit "VETO: Volatility spike detected. 15m range ("; Fixed current_15m_range 2;
          Lit ") > "; Num VOLATILITY_SPIKE_MULT; Lit "x ATR ("; Fixed avg_15m_range 2;
          Lit "). Market unsafe."] srData else
  (* 4. trend bias; [continue] is the rest of the body once the bias is set *)
  let continue := fun htf_bias : string =>
  (* 5. entry *)
  let '(signal, entrySignal, signalType, reason, baseConfidence) :=
    entry htf_bias last_price_15m last_ema_15m last_rsi_15m last_rsi_4h in
  (* 6. no entry *)
  if negb entrySignal
  then flat symbol
         [Lit "HTF bias "; Lit htf_bias; Lit ", no 15m entry (15m RSI: ";
          Fixed last_rsi_15m 1; Lit ")"] srData else
  (* FILTER 2: S/R context *)
  let sr_zone_amount := last_atr_1h * SR_ZONE_ATR_MULT in
  let supportLevels := filter_Boolean (rawSupportLevels srData htf_bias last_ema_4h) in
  let resistanceLevels := filter_Boolean (rawResistanceLevels srData htf_bias last_ema_4h) in
  let '(baseConfidence, reason) :=
    srContext signal last_price_15m sr_zone_amount supportLevels resistanceLevels
      baseConfidence reason in
  (* 7. final veto *)
  let confidence := Math_min 1.0 baseConfidence in
  if confidence <? 0.1
  then flat symbol (reason ++ [Lit " (VETO: S/R context makes confidence too low)"]) srData else
  (* 8. SL, TP and price *)
  let currentPrice := close (at_ data_15m 0) in
  let '(recommendedSLPips, recommendedTPPips) :=
    targets signal currentPrice sr_zone_amount pipSize last_atr_1h
      supportLevels resistanceLevels in
  {| symbol := symbol; signal := signal; confidence := Some confidence;
     price := Some currentPrice;
     recommendedSLPips := Some recommendedSLPips;
     recommendedTPPips := Some recommendedTPPips;
     recommendedSLPrice := None; recommendedTPPrice := None;
     reason := reason; signalType := Some signalType;
     indicators := Some [("rsi_4h", JNum last_rsi_4h); ("ema_4h", JNum last_ema_4h);
                         ("rsi_15m", JNum last_rsi_15m); ("ema_15m", JNum last_ema_15m);
                         ("atr_1h", JNum last_atr_1h); ("atr_15m", JNum last_atr_15m)];
     market_data := Some market_data_log; sr_data := Some srData; meta := Some meta |} in
  if (last_ema_4h <? last_price_4h) && (52 <? last_rsi_4h) then continue "long"
  else if (last_price_4h <? last_ema_4h) && (last_rsi_4h <? 48) then continue "short"
  else flat symbol
         [Lit "HTF chop (4H Price vs 50EMA, 4H RSI: "; Fixed last_rsi_4h 1; Lit ")"] srData.

End Trend.

(* ================================================================== *)
(** ** Scorer_Breakout (v2.1): PDH/PDL break-and-retest *)
(* ================================================================== *)

Module Breakout.

Import JS.
Open Scope float_scope.

(** This node's RSI divides the seed averages without the zero guard
    that its smoothing loop has. *)
Definition calculateRSI (data : list Candle) (period : nat) : RsiResult :=
  if Nat.ltb (List.length data) (period + 1) then {| rsi := Some 50; rsi_values := [] |} else
  let prices := rev (map close data) in
  if Nat.ltb (List.length prices) (period + 1) then {| rsi := Some 50; rsi_values := [] |} else
  let p := of_nat period in
  let '(gains, losses) :=
    for_loop 1 (period + 1)
      (fun i '(gains, losses) =>
         let change := nth i prices nan - nth (i - 1) prices nan in
         if 0 <? change then (gains + change, losses) else (gains, losses - change))
      (0, 0) in
  let avgGain := gains / p in
  let avgLoss := losses / p in
  let rsiValues := [100 - (100 / (1 + (avgGain / avgLoss)))] in
  let '(_, _, rsiValues) :=
    for_loop (period + 1) (List.length prices)
      (fun i '(avgGain, avgLoss, rsiValues) =>
         let change := nth i prices nan - nth (i - 1) prices nan in
         let gain := if 0 <? change then change else 0 in
         let loss := if change <? 0 then - change else 0 in
         let avgGain := ((avgGain * of_nat (period - 1)) + gain) / p in
         let avgLoss := ((avgLoss * of_nat (period - 1)) + loss) / p in
         let rs := if avgLoss =? 0 then 100 else avgGain / avgLoss in
         (avgGain, avgLoss, rsiValues ++ [100 - (100 / (1 + rs))]))
      (avgGain, avgLoss, rsiValues) in
  {| rsi := last_value rsiValues; rsi_values := rsiValues |}.

(** The ATR and EMA helpers are, line for line, those of Scorer_Trend. *)
Definition calculateATR : list Candle -> nat -> AtrResult := Trend.calculateATR.
Definition calculateEMA : list Candle -> nat -> EmaResult := Trend.calculateEMA.

Definition VOLATILITY_SPIKE_MULT : float := 3.0.

Definition flat (symbol : string) (reason : Reason) (srData : SrData) : Signal :=
  {| symbol := symbol; signal := "flat"; confidence := Some 0; price := None;
     recommendedSLPips := None; recommendedTPPips := None;
     recommendedSLPrice := None; recommendedTPPrice := None;
     reason := reason; signalType := None; indicators := None;
     market_data := None; sr_data := Some srData; meta := None |}.

(** FILTER 2: London open (7-10) or New York open (12-15), in UTC hours. *)
Definition isHighLiquidity (currentHour : option Z) : bool :=
  match currentHour with
  | Some h => ((7 <=? h)%Z && (h <=? 10)%Z) || ((12 <=? h)%Z && (h <=? 15)%Z)
  | None => false
  end.

(** Step 5: the break-and-retest entry. *)
Definition entry (htf_bias : string) (isHighLiquidity : bool)
    (prev_close_15m last_price_15m last_rsi_15m pdh pdl sr_zone_amount : float)
  : string * float * Reason :=
  let retest_rsi_buy := 55 in
  let retest_rsi_sell := 45 in
  if String.eqb htf_bias "long" && isHighLiquidity then
    let hasBrokenPDH := pdh <? prev_close_15m in
    let isRetestingPDH := (last_price_15m <? pdh + sr_zone_amount) && (pdh <? last_price_15m) in
    let hasMomentum := retest_rsi_buy <? last_rsi_15m in
    if hasBrokenPDH && isRetestingPDH && hasMomentum
    then ("buy", 0.85,
          [Lit "4H Trend Up, 15m Break-and-Retest of PDH in high-liquidity session."])
    else ("flat", 0.0, [Lit "No signal"])
  else if String.eqb htf_bias "short" && isHighLiquidity then
    let hasBrokenPDL := prev_close_15m <? pdl in
    let isRetestingPDL := (pdl - sr_zone_amount <? last_price_15m) && (last_price_15m <? pdl) in
    let hasMomentum := last_rsi_15m <? retest_rsi_sell in
    if hasBrokenPDL && isRetestingPDL && hasMomentum
    then ("sell", 0.85,
          [Lit "4H Trend Down, 15m Break-and-Retest of PDL in high-liquidity session."])
    else ("flat", 0.0, [Lit "No signal"])
  else ("flat", 0.0, [Lit "No signal"]).

(** [inl msg] is an uncaught TypeError: reading [pivots.R1] or [pivots.S1]
    when the pivot set has no [pivots] object. *)
Definition Scorer_Breakout (candleData : CandleData) (srData : SrData) : string + Signal :=
  let symbol := cd_symbol candleData in
  let data_15m := data_15m candleData in
  let data_1h := data_1h candleData in
  let data_4h := data_4h candleData in
  let meta := cd_meta candleData in
  let pipSize := or_else (pip_size meta) 0.01 in
  (* 2. minimum data *)
  if Nat.ltb (List.length data_4h) 55 || Nat.ltb (List.length data_15m) 30
     || Nat.ltb (List.length data_1h) 30
     || negb (truthyO (pdh srData)) || negb (truthyO (pdl srData))
  then inr (flat symbol [Lit "Not enough data for B&R (needs candles + PDH/PDL)"] srData) else
  let pdh := num (pdh srData) in
  let pdl := num (pdl srData) in
  (* 3. indicators *)
  let rsi_4h := calculateRSI data_4h 14 in
  let ema_4h := calculateEMA data_4h 50 in
  let rsi_15m := calculateRSI data_15m 14 in
  let atr_1h := calculateATR data_1h 14 in
  let atr_15m := calculateATR data_15m 14 in
  if negb (truthyO (rsi rsi_4h)) || negb (truthyO (ema ema_4h))
     || negb (truthyO (rsi rsi_15m))
     || negb (truthyO (atr atr_1h)) || negb (truthyO (atr atr_15m))
  then inr (flat symbol [Lit "Indicator calculation failed, not enough data."] srData) else
  let last_rsi_4h := num (rsi rsi_4h) in
  let last_ema_4h := num (ema ema_4h) in
  let last_price_4h := close (at_ data_4h 0) in
  let last_rsi_15m := num (rsi rsi_15m) in
  let last_price_15m := close (at_ data_15m 0) in
  let prev_close_15m := close (at_ data_15m 1) in
  let last_atr_1h := num (atr atr_1h) in
  (* FILTER 1: volatility *)
  let current_15m_candle := at_ data_15m 0 in
  let current_15m_range := high current_15m_candle - low current_15m_candle in
  let avg_15m_range := num (atr atr_15m) in
  if avg_15m_range * VOLATILITY_SPIKE_MULT <? current_15m_range
  then inr (flat symbol [Lit "VETO (B&R): Volatility spike detected. Market unsafe."] srData) else
  (* 4. trend bias, simplified *)
  let htf_bias :=
    if last_ema_4h <? last_price_4h then "long"
    else if last_price_4h <? last_ema_4h then "short"
    else "flat" in
  (* FILTER 2: session *)
  let currentHour := getUTCHours (time (at_ data_15m 0)) in
  let isHighLiquidity := isHighLiquidity currentHour in
  (* 5. entry *)
  let sr_zone_amount := last_atr_1h * 0.25 in
  let '(signal, confidence, reason) :=
    entry htf_bias isHighLiquidity prev_close_15m last_price_15m last_rsi_15m
      pdh pdl sr_zone_amount in
  (* 6. no entry *)
  if String.eqb signal "flat"
  then inr (flat symbol
              [Lit "HTF bias "; Lit htf_bias; Lit ". No B&R setup (Session: ";
               Flag isHighLiquidity; Lit ", 15m RSI: "; Fixed last_rsi_15m 1; Lit ")"] srData) else
  (* 7. structural SL and TP *)
  let currentPrice := close (at_ data_15m 0) in
  match pivots srData with
  | None =>
      inl (if String.eqb signal "buy"
           then "Cannot read properties of undefined (reading 'R1')"
           else "Cannot read properties of undefined (reading 'S1')")
  | Some pv =>
      let '(recommendedSLPrice, recommendedTPPrice) :=
        if String.eqb signal "buy" then
          let recommendedSLPrice := pdh - sr_zone_amount in
          let recommendedTPPrice := pivot pv "R1" in
          let recommendedTPPrice :=
            if truthyO recommendedTPPrice
               && (num recommendedTPPrice <? currentPrice + (currentPrice - recommendedSLPrice))
            then (if truthyO (pivot pv "R2") then pivot pv "R2" else recommendedTPPrice)
            else recommendedTPPrice in
          (recommendedSLPrice, recommendedTPPrice)
        else
          let recommendedSLPrice := pdl + sr_zone_amount in
          let recommendedTPPrice := pivot pv "S1" in
          let recommendedTPPrice :=
            if truthyO recommendedTPPrice
               && (currentPrice - (recommendedSLPrice - currentPrice) <? num recommendedTPPrice)
            then (if truthyO (pivot pv "S2") then pivot pv "S2" else recommendedTPPrice)
            else recommendedTPPrice in
          (recommendedSLPrice, recommendedTPPrice) in
      (* final check: no valid TP *)
      if negb (truthyO recommendedTPPrice)
      then inr (flat symbol
                  [Lit "VETO: "; Lit signal;
                   Lit " triggered but no valid S/R pivot found for Take Profit."] srData) else
      let slDistance := Math_abs (currentPrice - recommendedSLPrice) in
      let recommendedSLPips := Math_max 20 (Math_round (slDistance / pipSize)) in
      inr {| symbol := symbol; signal := signal; confidence := Some confidence;
             price := Some currentPrice;
             recommendedSLPips := Some recommendedSLPips;
             recommendedTPPips := None;
             recommendedSLPrice := Some recommendedSLPrice;
             recommendedTPPrice := recommendedTPPrice;
             reason := reason; signalType := Some "break-and-retest";
             indicators := Some [("rsi_4h", JNum last_rsi_4h); ("rsi_15m", JNum last_rsi_15m);
                                 ("atr_1h", JNum last_atr_1h);
                                 ("isHighLiquidity", JBool isHighLiquidity)];
             market_data := None; sr_data := Some srData; meta := Some meta |}
  end.

End Breakout.

(* ================================================================== *)
(** ** Scorer_Mean_Reversion (v1.2): Bollinger Bands + Stochastic RSI,
       with the 4-hour ADX as regime filter *)
(* ================================================================== *)

Module MeanReversion.

Import JS.
Open Scope float_scope.

Definition VOLATILITY_SPIKE_MULT : float := 3.0.
Definition SR_ZONE_ATR_MULT : float := 0.25.
Definition ADX_PERIOD : nat := 14.
Definition ADX_TREND_THRESHOLD : float := 25.
Definition STOCH_RSI_PERIOD : nat := 14.
Definition STOCH_K_SMOOTH : nat := 3.
Definition STOCH_D_SMOOTH : nat := 3.
Definition BB_PERIOD : nat := 20.
Definition BB_STD_DEV : float := 2.
Definition SR_BONUS_MINOR : float := 0.15.
Definition SR_BONUS_MAJOR : float := 0.30.

(** This node's RSI replaces the ratio by 100 when the average loss is 0. *)
Definition calculateRSI (data : list Candle) (period : nat) : RsiResult :=
  if Nat.ltb (List.length data) (period + 1) then {| rsi := Some 50; rsi_values := [] |} else
  let prices := rev (map close data) in
  if Nat.ltb (List.length prices) (period + 1) then {| rsi := Some 50; rsi_values := [] |} else
  let p := of_nat period in
  let '(gains, losses) :=
    for_loop 1 (period + 1)
      (fun i '(gains, losses) =>
         let change := nth i prices nan - nth (i - 1) prices nan in
         if 0 <? change then (gains + change, losses) else (gains, losses - change))
      (0, 0) in
  let avgGain := gains / p in
  let avgLoss := losses / p in
  let rs := if avgLoss =? 0 then 100 else avgGain / avgLoss in
  let rsiValues := [100 - (100 / (1 + rs))] in
  let '(_, _, rsiValues) :=
    for_loop (period + 1) (List.length prices)
      (fun i '(avgGain, avgLoss, rsiValues) =>
         let change := nth i prices nan - nth (i - 1) prices nan in
         let gain := if 0 <? change then change else 0 in
         let loss := if change <? 0 then - change else 0 in
         let avgGain := ((avgGain * of_nat (period - 1)) + gain) / p in
         let avgLoss := ((avgLoss * of_nat (period - 1)) + loss) / p in
         let rs := if avgLoss =? 0 then 100 else avgGain / avgLoss in
         (avgGain, avgLoss, rsiValues ++ [100 - (100 / (1 + rs))]))
      (avgGain, avgLoss, rsiValues) in
  {| rsi := last_value rsiValues; rsi_values := rsiValues |}.

Definition calculateATR (data : list Candle) (period : nat) : AtrResult :=
  if Nat.ltb (List.length data) (period + 1) then {| atr := None; atr_values := [] |} else
  let candles := rev data in
  let trValues := [high (at_ candles 0) - low (at_ candles 0)] in
  let trValues :=
    for_loop 1 (List.length candles)
      (fun i trValues =>
         let h := high (at_ candles i) in
         let l := low (at_ candles i) in
         let prevClose := close (at_ candles (i - 1)) in
         trValues ++ [Math_max3 (h - l) (Math_abs (h - prevClose)) (Math_abs (l - prevClose))])
      trValues in
  let p := of_nat period in
  let sum := sum (slice 0 period trValues) in
  let firstAtr := sum / p in
  let atrValues := [firstAtr] in
  let '(_, atrValues) :=
    for_loop period (List.length trValues)
      (fun i '(prevAtr, atrValues) =>
         let currentAtr := ((prevAtr * of_nat (period - 1)) + nth i trValues nan) / p in
         (currentAtr, atrValues ++ [currentAtr]))
      (firstAtr, atrValues) in
  {| atr := last_value atrValues; atr_values := atrValues |}.

Definition calculateBollingerBands (data : list Candle) (period : nat) (stdDev : float)
  : BBResult :=
  if Nat.ltb (List.length data) period
  then {| upper := None; middle := None; lower := None |} else
  let prices := rev (map close data) in
  let p := of_nat period in
  let '(smaValues, stdDevValues) :=
    for_loop (period - 1) (List.length prices)
      (fun i '(smaValues, stdDevValues) =>
         let window := slice (i + 1 - period) (i + 1) prices in
         let sum := sum window in
         let sma := sum / p in
         (* Math.pow(b - sma, 2) is the product (b - sma) * (b - sma) *)
         let varianceSum :=
           fold_left (fun a b => a + (b - sma) * (b - sma)) window 0 in
         (smaValues ++ [sma], stdDevValues ++ [Math_sqrt (varianceSum / p)]))
      ([], []) in
  if Nat.eqb (List.length smaValues) 0
  then {| upper := None; middle := None; lower := None |} else
  let lastSMA := num (last_value smaValues) in
  let lastStdDev := num (last_value stdDevValues) in
  {| upper := Some (lastSMA + (lastStdDev * stdDev));
     middle := Some lastSMA;
     lower := Some (lastSMA - (lastStdDev * stdDev)) |}.

Definition calculateStochasticRSI (data : list Candle)
    (rsiPeriod stochPeriod kSmooth dSmooth : nat) : StochResult :=
  let rsiResult := calculateRSI data rsiPeriod in
  let rsiValues := rsi_values rsiResult in
  if Nat.ltb (List.length rsiValues) stochPeriod then {| k := None; d := None |} else
  let fastKValues :=
    for_loop (stochPeriod - 1) (List.length rsiValues)
      (fun i fastKValues =>
         let window := slice (i + 1 - stochPeriod) (i + 1) rsiValues in
         let currentRSI := nth i rsiValues nan in
         let minRSI := Math_min_list window in
         let maxRSI := Math_max_list window in
         let fastK :=
           if 0 <? maxRSI - minRSI
           then 100 * (currentRSI - minRSI) / (maxRSI - minRSI)
           else 0 in
         fastKValues ++ [fastK])
      [] in
  if Nat.ltb (List.length fastKValues) kSmooth then {| k := None; d := None |} else
  let slowKValues :=
    for_loop (kSmooth - 1) (List.length fastKValues)
      (fun i slowKValues =>
         let window := slice (i + 1 - kSmooth) (i + 1) fastKValues in
         slowKValues ++ [sum window / of_nat kSmooth])
      [] in
  if Nat.ltb (List.length slowKValues) dSmooth
  then {| k := last_value slowKValues; d := None |} else
  let slowDValues :=
    for_loop (dSmooth - 1) (List.length slowKValues)
      (fun i slowDValues =>
         let window := slice (i + 1 - dSmooth) (i + 1) slowKValues in
         slowDValues ++ [sum window / of_nat dSmooth])
      [] in
  {| k := last_value slowKValues; d := last_value slowDValues |}.

Definition calculateADX (data : list Candle) (period : nat) : AdxResult :=
  if Nat.ltb (List.length data) (period * 2)
  then {| adx := None; plusDI := None; minusDI := None |} else
  let candles := rev data in
  let p := of_nat period in
  let '(trValues, plusDM, minusDM) :=
    for_loop 1 (List.length candles)
      (fun i '(trValues, plusDM, minusDM) =>
         let h := high (at_ candles i) in
         let l := low (at_ candles i) in
         let ph := high (at_ candles (i - 1)) in
         let pl := low (at_ candles (i - 1)) in
         let pc := close (at_ candles (i - 1)) in
         let tr := Math_max3 (h - l) (Math_abs (h - pc)) (Math_abs (l - pc)) in
         let upMove := h - ph in
         let downMove := pl - l in
         (trValues ++ [tr],
          plusDM ++ [if (downMove <? upMove) && (0 <? upMove) then upMove else 0],
          minusDM ++ [if (upMove <? downMove) && (0 <? downMove) then downMove else 0]))
      ([high (at_ candles 0) - low (at_ candles 0)], [0], [0]) in
  (* Wilder's smoothing of TR, +DM, -DM *)
  let sumTR := sum (slice 0 period trValues) in
  let sumPlusDM := sum (slice 0 period plusDM) in
  let sumMinusDM := sum (slice 0 period minusDM) in
  let '(smoothedTRs, smoothedPlusDMs, smoothedMinusDMs) :=
    for_loop period (List.length candles)
      (fun i '(smoothedTRs, smoothedPlusDMs, smoothedMinusDMs) =>
         let prevTR := num (last_value smoothedTRs) in
         let prevPlusDM := num (last_value smoothedPlusDMs) in
         let prevMinusDM := num (last_value smoothedMinusDMs) in
         (smoothedTRs ++ [prevTR - (prevTR / p) + nth i trValues nan],
          smoothedPlusDMs ++ [prevPlusDM - (prevPlusDM / p) + nth i plusDM nan],
          smoothedMinusDMs ++ [prevMinusDM - (prevMinusDM / p) + nth i minusDM nan]))
      ([sumTR], [sumPlusDM], [sumMinusDM]) in
  (* +DI, -DI, DX *)
  let '(plusDIs, minusDIs, dxValues) :=
    for_loop 0 (List.length smoothedTRs)
      (fun i '(plusDIs, minusDIs, dxValues) =>
         let tr := nth i smoothedTRs nan in
         let plusDI := if tr =? 0 then 0 else 100 * (nth i smoothedPlusDMs nan / tr) in
         let minusDI := if tr =? 0 then 0 else 100 * (nth i smoothedMinusDMs nan / tr) in
         let diSum := plusDI + minusDI in
         let dx := if diSum =? 0 then 0 else 100 * (Math_abs (plusDI - minusDI) / diSum) in
         (plusDIs ++ [plusDI], minusDIs ++ [minusDI], dxValues ++ [dx]))
      ([], [], []) in
  (* first ADX is an average of DX, then Wilder's smoothing *)
  let sumDX := sum (slice 0 period dxValues) in
  let adxValues :=
    for_loop period (List.length dxValues)
      (fun i adxValues =>
         let prevADX := num (last_value adxValues) in
         adxValues ++ [(prevADX * of_nat (period - 1) + nth i dxValues nan) / p])
      [sumDX / p] in
  {| adx := last_value adxValues;
     plusDI := last_value plusDIs;
     minusDI := last_value minusDIs |}.

Definition flat (symbol : string) (reason : Reason) (srData : SrData) : Signal :=
  {| symbol := symbol; signal := "flat"; confidence := Some 0; price := None;
     recommendedSLPips := None; recommendedTPPips := None;
     recommendedSLPrice := None; recommendedTPPrice := None;
     reason := reason; signalType := None; indicators := None;
     market_data := None; sr_data := Some srData; meta := None |}.

(** Steps 4 and 5: regime and entry.  Returns the direction, the
    confidence before the S/R bonus, and the reason. *)
Definition entry (last_adx_4h plusDI minusDI last_stochRSI_k last_price_15m
                  bb_upper bb_lower baseConfidence : float) : string * float * Reason :=
  let isRanging := last_adx_4h <? ADX_TREND_THRESHOLD in
  let isTrendingUp := (ADX_TREND_THRESHOLD <=? last_adx_4h) && (minusDI <? plusDI) in
  let isTrendingDown := (ADX_TREND_THRESHOLD <=? last_adx_4h) && (plusDI <? minusDI) in
  let isOverbought := 80 <? last_stochRSI_k in
  let isOversold := last_stochRSI_k <? 20 in
  let atUpperBand := bb_upper <? last_price_15m in
  let atLowerBand := last_price_15m <? bb_lower in
  if atLowerBand && isOversold then
    let reason := [Lit "15m Oversold (StochRSI < 20) + Below Lower BB"] in
    if isRanging then ("buy", baseConfidence + 0.4, reason ++ [Lit " (Context: 4H Ranging)"])
    else if isTrendingUp
    then ("buy", baseConfidence + 0.3, reason ++ [Lit " (Context: 4H Uptrend Pullback)"])
    else if isTrendingDown
    then ("buy", baseConfidence, reason ++ [Lit " (Context: 4H Downtrend)"])
    else ("buy", 0.0, reason)
  else if atUpperBand && isOverbought then
    let reason := [Lit "15m Overbought (StochRSI > 80) + Above Upper BB"] in
    if isRanging then ("sell", baseConfidence + 0.4, reason ++ [Lit " (Context: 4H Ranging)"])
    else if isTrendingDown
    then ("sell", baseConfidence + 0.3, reason ++ [Lit " (Context: 4H Downtrend Pullback)"])
    else if isTrendingUp
    then ("sell", baseConfidence, reason ++ [Lit " (Context: 4H Uptrend)"])
    else ("sell", 0.0, reason)
  else ("flat", 0.0, [Lit "No signal"]).

Definition inZone (price zone : float) (level : option float) : bool :=
  truthyO level && (num level - zone <? price) && (price <? num level + zone).

(** FILTER 2: the tiered S/R bonus.  Each level carries its tier. *)
Definition srBonus (signal : string) (srData : SrData) (pv : Pivots)
    (last_price_15m sr_zone_amount confidence : float) (reason : Reason) : float * Reason :=
  let scan (side : string) (levels : list (option float * string)) :=
    match find (fun s => inZone last_price_15m sr_zone_amount (fst s)) levels with
    | Some s =>
        let bonus := if String.eqb (snd s) "major" then SR_BONUS_MAJOR else SR_BONUS_MINOR in
        (confidence + bonus,
         reason ++ [Lit " (Bonus: At "; Lit (snd s); Lit side; Num (num (fst s)); Lit ")"])
    | None => (confidence, reason)
    end in
  if String.eqb signal "buy" then
    scan " Support "
      [(pdl srData, "major"); (pivot pv "s1", "major"); (pivot pv "s2", "major");
       (pivot pv "s3", "major"); (pivot pv "p", "minor")]
  else if String.eqb signal "sell" then
    scan " Resistance "
      [(pdh srData, "major"); (pivot pv "r1", "major"); (pivot pv "r2", "major");
       (pivot pv "r3", "major"); (pivot pv "p", "minor")]
  else (confidence, reason).

Definition Scorer_Mean_Reversion (candleData : CandleData) (srData : SrData) : Signal :=
  let symbol := cd_symbol candleData in
  let data_15m := data_15m candleData in
  let data_1h := data_1h candleData in
  let data_4h := data_4h candleData in
  let meta := cd_meta candleData in
  let pipSize := or_else (pip_size meta) 0.01 in
  (* 2. minimum candle data *)
  match pivots srData with
  | None =>
      flat symbol [Lit "Not enough data for Mean Reversion (needs candles + pivots)"] srData
  | Some pv =>
  if Nat.ltb (List.length data_4h) 50 || Nat.ltb (List.length data_15m) 50
     || Nat.ltb (List.length data_1h) 30
  then flat symbol [Lit "Not enough data for Mean Reversion (needs candles + pivots)"] srData else
  (* 3. indicators *)
  let adx_4h := calculateADX data_4h ADX_PERIOD in
  let stochRSI_15m :=
    calculateStochasticRSI data_15m STOCH_RSI_PERIOD STOCH_RSI_PERIOD
      STOCH_K_SMOOTH STOCH_D_SMOOTH in
  let bb_15m := calculateBollingerBands data_15m BB_PERIOD BB_STD_DEV in
  let atr_1h := calculateATR data_1h 14 in
  let atr_15m := calculateATR data_15m 14 in
  if negb (truthyO (adx adx_4h)) || negb (truthyO (k stochRSI_15m))
     || negb (truthyO (upper bb_15m))
     || negb (truthyO (atr atr_1h)) || negb (truthyO (atr atr_15m))
  then flat symbol [Lit "Indicator calculation failed, not enough data."] srData else
  let last_adx_4h := num (adx adx_4h) in
  let last_stochRSI_k := num (k stochRSI_15m) in
  let last_price_15m := close (at_ data_15m 0) in
  let last_atr_1h := num (atr atr_1h) in
  (* FILTER 1: volatility *)
  let current_15m_candle := at_ data_15m 0 in
  let current_15m_range := high current_15m_candle - low current_15m_candle in
  let avg_15m_range := num (atr atr_15m) in
  if avg_15m_range * VOLATILITY_SPIKE_MULT <? current_15m_range
  then flat symbol [Lit "VETO (Reversion): Volatility spike detected. Market unsafe."] srData else
  (* 4, 5. regime and entry *)
  let baseConfidence := 0.30 in
  let '(signal, confidence, reason) :=
    entry last_adx_4h (num (plusDI adx_4h)) (num (minusDI adx_4h)) last_stochRSI_k
      last_price_15m (num (upper bb_15m)) (num (lower bb_15m)) baseConfidence in
  (* 6. no entry *)
  if String.eqb signal "flat"
  then flat symbol
         [Lit "No reversion signal (15m StochRSI: "; Fixed last_stochRSI_k 1; Lit ")"] srData else
  (* FILTER 2: S/R context *)
  let sr_zone_amount := last_atr_1h * SR_ZONE_ATR_MULT in
  let '(confidence, reason) :=
    srBonus signal srData pv last_price_15m sr_zone_amount confidence reason in
  (* 7. final veto *)
  let confidence := Math_min 1.0 confidence in
  if confidence <? baseConfidence
  then flat symbol (reason ++ [Lit " (VETO: Context makes confidence too low)"]) srData else
  (* 8. SL and TP *)
  let currentPrice := close (at_ data_15m 0) in
  let slPipsFromATR := (last_atr_1h * 1.5) / pipSize in
  let recommendedSLPips := Math_max 20 (Math_round slPipsFromATR) in
  let recommendedTPPrice := middle bb_15m in
  {| symbol := symbol; signal := signal; confidence := Some confidence;
     price := Some currentPrice;
     recommendedSLPips := Some recommendedSLPips;
     recommendedTPPips := None;
     recommendedSLPrice := None;
     recommendedTPPrice := recommendedTPPrice;
     reason := reason; signalType := Some "reversion";
     indicators := Some [("adx_4h", JNum last_adx_4h);
                         ("adx_4h_plusDI", of_opt (plusDI adx_4h));
                         ("adx_4h_minusDI", of_opt (minusDI adx_4h));
                         ("stochRSI_15m_k", JNum last_stochRSI_k);
                         ("stochRSI_15m_d", of_opt (d stochRSI_15m));
                         ("atr_1h", JNum last_atr_1h);
                         ("bb_15m_upper", of_opt (upper bb_15m));
                         ("bb_15m_lower", of_opt (lower bb_15m));
                         ("bb_15m_middle", of_opt (middle bb_15m))];
     market_data := None; sr_data := Some srData; meta := Some meta |}
  end.

End MeanReversion.

(* ================================================================== *)
(** ** Scorer_Structure (v1.1): break of structure / change of character *)
(* ================================================================== *)

Module Structure.

Import JS.
Open Scope float_scope.

(** The "standard helpers" of this node take their data oldest first
    (the main body reverses the candle arrays before the calls) and
    return only the last value. *)
Definition calculateRSI (data : list Candle) (period : nat) : RsiResult :=
  if Nat.ltb (List.length data) (period + 1) then {| rsi := None; rsi_values := [] |} else
  let p := of_nat period in
  let '(gains, losses) :=
    for_loop 1 (period + 1)
      (fun i '(gains, losses) =>
         let change := close (at_ data i) - close (at_ data (i - 1)) in
         if 0 <? change then (gains + change, losses) else (gains, losses - change))
      (0, 0) in
  let avgGain := gains / p in
  let avgLoss := losses / p in
  let '(avgGain, avgLoss) :=
    for_loop (period + 1) (List.length data)
      (fun i '(avgGain, avgLoss) =>
         let change := close (at_ data i) - close (at_ data (i - 1)) in
         let '(gain, loss) := if 0 <? change then (change, 0) else (0, - change) in
         ((avgGain * of_nat (period - 1) + gain) / p,
          (avgLoss * of_nat (period - 1) + loss) / p))
      (avgGain, avgLoss) in
  if avgLoss =? 0 then {| rsi := Some 100; rsi_values := [] |} else
  let rs := avgGain / avgLoss in
  let rsi := 100 - (100 / (1 + rs)) in
  {| rsi := Some rsi; rsi_values := [] |}.

Definition calculateATR (data : list Candle) (period : nat) : AtrResult :=
  if Nat.ltb (List.length data) (period + 1) then {| atr := None; atr_values := [] |} else
  let trs :=
    for_loop 1 (List.length data)
      (fun i trs =>
         let high := high (at_ data i) in
         let low := low (at_ data i) in
         let prevClose := close (at_ data (i - 1)) in
         let tr1 := high - low in
         let tr2 := Math_abs (high - prevClose) in
         let tr3 := Math_abs (low - prevClose) in
         trs ++ [Math_max3 tr1 tr2 tr3])
      [] in
  if Nat.ltb (List.length trs) period then {| atr := None; atr_values := [] |} else
  let p := of_nat period in
  let initialAtr := for_loop 0 period (fun i initialAtr => initialAtr + nth i trs nan) 0 in
  let atr := initialAtr / p in
  let atr :=
    for_loop period (List.length trs)
      (fun i atr => (atr * of_nat (period - 1) + nth i trs nan) / p) atr in
  {| atr := Some atr; atr_values := [] |}.

Definition calculateEMA (data : list Candle) (period : nat) : EmaResult :=
  if Nat.ltb (List.length data) period then {| ema := None; ema_values := [] |} else
  let k := 2 / of_nat (period + 1) in
  let ema := for_loop 0 period (fun i ema => ema + close (at_ data i)) 0 in
  let ema := ema / of_nat period in
  let ema :=
    for_loop period (List.length data)
      (fun i ema => (close (at_ data i) * k) + (ema * (1 - k))) ema in
  {| ema := Some ema; ema_values := [] |}.

(** The rank of the current 4-hour ATR among its history, as a share. *)
Definition computeAtr4hNorm (last_atr_4h : option float) (histATRArray : option (list float))
  : option float :=
  match last_atr_4h, histATRArray with
  | Some last_atr_4h, Some histATRArray =>
      if Nat.ltb (List.length histATRArray) 20 then None else
      let sortedAtr := sort_by (fun a b => a - b) histATRArray in
      let rank :=
        match findIndex (fun val => last_atr_4h <=? val) sortedAtr with
        | Some rank => rank
        | None => List.length sortedAtr
        end in
      Some (of_nat rank / of_nat (List.length sortedAtr))
  | _, _ => None
  end.

(** [normalizeOutput]; [defaultType] is the node's own strategy tag. *)
Definition normalizeOutputFor (defaultType : string) (out : Signal) (pipSize : float) : Signal :=
  let signalType :=
    match signalType out with
    | Some t => if String.eqb t "" then defaultType else t
    | None => defaultType
    end in
  let confidence := Math_max 0 (Math_min 1 (or_else (confidence out) 0)) in
  let recommendedSLPips :=
    if truthyO (recommendedSLPips out)
    then Some (Math_round (num (recommendedSLPips out))) else None in
  let recommendedTPPips :=
    if truthyO (recommendedTPPips out)
    then Some (Math_round (num (recommendedTPPips out))) else None in
  let indicators := match indicators out with Some o => o | None => [] end in
  let indicators :=
    if nullish (get indicators "atr_1h_pips") && truthy_val (get indicators "atr_1h")
    then set indicators "atr_1h_pips"
           (JNum (Math_round (to_number (get indicators "atr_1h") / pipSize)))
    else indicators in
  let indicators :=
    if nullish (get indicators "daily_price_above_ema_200")
    then set indicators "daily_price_above_ema_200" JNull else indicators in
  let indicators :=
    if nullish (get indicators "atr_4h_norm")
    then set indicators "atr_4h_norm" JNull else indicators in
  {| symbol := symbol out; signal := signal out; confidence := Some confidence;
     price := price out;
     recommendedSLPips := recommendedSLPips;
     recommendedTPPips := recommendedTPPips;
     recommendedSLPrice := recommendedSLPrice out;
     recommendedTPPrice := recommendedTPPrice out;
     reason := reason out; signalType := Some signalType;
     indicators := Some indicators;
     market_data := market_data out; sr_data := sr_data out; meta := meta out |}.

Definition normalizeOutput : Signal -> float -> Signal :=
  normalizeOutputFor "market_structure".

(** [{ symbol, signal: 'flat', confidence: 0, reason }]. *)
Definition bareFlat (symbol : string) (reason : string) : Signal :=
  {| symbol := symbol; signal := "flat"; confidence := Some 0; price := None;
     recommendedSLPips := None; recommendedTPPips := None;
     recommendedSLPrice := None; recommendedTPPrice := None;
     reason := [Lit reason]; signalType := None; indicators := None;
     market_data := None; sr_data := None; meta := None |}.

(** Step 4: break of structure with the bias, change of character
    against it. *)
Definition entry (htf_bias : string) (prev_price last_price pdh pdl rsi_1h : float)
  : string * float * string :=
  if String.eqb htf_bias "Up" then
    if (prev_price <? pdh) && (pdh <? last_price) && (55 <? rsi_1h)
    then ("buy", 0.70, "HTF Up, Bullish BOS (Break of PDH) w/ Momentum")
    else if (pdl <? prev_price) && (last_price <? pdl) && (rsi_1h <? 45)
    then ("sell", 0.65, "HTF Up, Bearish CHOCH (Break of PDL)")
    else ("flat", 0.0, "No signal")
  else if String.eqb htf_bias "Down" then
    if (pdl <? prev_price) && (last_price <? pdl) && (rsi_1h <? 45)
    then ("sell", 0.70, "HTF Down, Bearish BOS (Break of PDL) w/ Momentum")
    else if (prev_price <? pdh) && (pdh <? last_price) && (55 <? rsi_1h)
    then ("buy", 0.65, "HTF Down, Bullish CHOCH (Break of PDH)")
    else ("flat", 0.0, "No signal")
  else ("flat", 0.0, "No signal").

Definition Scorer_Structure (candleData : CandleData) (srData : SrData) : Signal :=
  let symbol := cd_symbol candleData in
  let data_1h := data_1h candleData in
  let data_4h := data_4h candleData in
  let data_daily := data_daily candleData in
  let meta := cd_meta candleData in
  let hist_atr_4h := hist_atr_4h candleData in
  let pipSize :=
    or_else (pip_size meta) (if includes symbol "JPY" then 0.01 else 0.0001) in
  (* 2. minimum data *)
  if Nat.ltb (List.length data_1h) 50 || Nat.ltb (List.length data_4h) 50
     || Nat.ltb (List.length data_daily) 200
  then normalizeOutput (bareFlat symbol "Not enough candle data") pipSize else
  if negb (truthyO (pdh srData)) || negb (truthyO (pdl srData))
  then normalizeOutput (bareFlat symbol "VETO: Missing PDH/PDL from srData.") pipSize else
  let pdh := num (pdh srData) in
  let pdl := num (pdl srData) in
  (* 3. indicators, on the reversed arrays *)
  let daily_data_for_ta := rev data_daily in
  let data_4h_for_ta := rev data_4h in
  let data_1h_for_ta := rev data_1h in
  let daily_ema_200 := calculateEMA daily_data_for_ta 200 in
  let last_daily_price := close (at_ data_daily 0) in
  let daily_above_200 :=
    truthyO (ema daily_ema_200) && (num (ema daily_ema_200) <? last_daily_price) in
  let atr_4h := calculateATR data_4h_for_ta 14 in
  let atr_4h_norm := computeAtr4hNorm (atr atr_4h) hist_atr_4h in
  let atr_1h := calculateATR data_1h_for_ta 14 in
  let rsi_1h := calculateRSI data_1h_for_ta 14 in
  let last_price := close (at_ data_1h 0) in
  let atr_1h_pips :=
    if truthyO (atr atr_1h) && truthy pipSize
    then Math_round (num (atr atr_1h) / pipSize) else 20 in
  if negb (truthyO (atr atr_1h)) || negb (truthyO (rsi rsi_1h))
  then normalizeOutput (bareFlat symbol "Failed to calculate ATR/RSI.") pipSize else
  let rsi_1h_rsi := num (rsi rsi_1h) in
  (* 4. market structure *)
  let htf_bias := if daily_above_200 then "Up" else "Down" in
  let slPips := Math_max 15 (Math_round (atr_1h_pips * 2.0)) in
  let tpPips := Math_round (slPips * 1.5) in
  let prev_price := close (at_ data_1h 1) in
  let '(signal, confidence, reason) :=
    entry htf_bias prev_price last_price pdh pdl rsi_1h_rsi in
  (* 5. final return *)
  let finalJson :=
    {| symbol := symbol; signal := signal; confidence := Some confidence;
       price := Some last_price;
       recommendedSLPips := if negb (String.eqb signal "flat") then Some slPips else None;
       recommendedTPPips := if negb (String.eqb signal "flat") then Some tpPips else None;
       recommendedSLPrice := None; recommendedTPPrice := None;
       reason := [Lit reason]; signalType := Some "market_structure";
       indicators := Some [("rsi_1h", of_opt (rsi rsi_1h)); ("atr_1h", of_opt (atr atr_1h));
                           ("daily_price_above_ema_200", JBool daily_above_200);
                           ("atr_4h_norm", of_opt atr_4h_norm);
                           ("atr_1h_pips", JNum atr_1h_pips)];
       market_data := None; sr_data := Some srData; meta := Some meta |} in
  normalizeOutput finalJson pipSize.

End Structure.

(* ================================================================== *)
(** ** Scorer_Liquidity (v1.1): one-hour fair value gaps *)
(* ================================================================== *)

Module Liquidity.

Import JS.
Open Scope float_scope.

(** The standard helpers are, line for line, those of Scorer_Structure. *)
Definition calculateRSI : list Candle -> nat -> RsiResult := Structure.calculateRSI.
Definition calculateATR : list Candle -> nat -> AtrResult := Structure.calculateATR.
Definition calculateEMA : list Candle -> nat -> EmaResult := Structure.calculateEMA.
Definition computeAtr4hNorm : option float -> option (list float) -> option float :=
  Structure.computeAtr4hNorm.
Definition normalizeOutput : Signal -> float -> Signal :=
  Structure.normalizeOutputFor "liquidity".

Record FVG : Type := mkFVG { top : float; bottom : float; fvg_time : option Z }.

(** Scans the three-candle windows of a newest-first array. *)
Definition findFVGs (data : list Candle) : list FVG * list FVG :=
  for_loop 0 (List.length data - 2)
    (fun i '(bullishFVGs, bearishFVGs) =>
       let c1 := at_ data (i + 2) in
       let c3 := at_ data i in
       let c1_low := low c1 in
       let c1_high := high c1 in
       let c3_low := low c3 in
       let c3_high := high c3 in
       let bullishFVGs :=
         if c1_high <? c3_low
         then bullishFVGs ++ [mkFVG c3_low c1_high (time c3)] else bullishFVGs in
       let bearishFVGs :=
         if c3_high <? c1_low
         then bearishFVGs ++ [mkFVG c1_low c3_high (time c3)] else bearishFVGs in
       (bullishFVGs, bearishFVGs))
    ([], []).

(** Step 4: the pullback into the nearest gap on the side of the bias. *)
Definition entry (htf_bias : string) (bullish bearish : list FVG)
    (last_price atr_1h_value pipSize tpPips : float) : string * float * string * float :=
  if String.eqb htf_bias "Up" && Nat.ltb 0 (List.length bullish) then
    let targets :=
      sort_by (fun a b => top b - top a) (filter (fun fvg => top fvg <? last_price) bullish) in
    match targets with
    | nearestFVG :: _ =>
        let distToFVG := last_price - top nearestFVG in
        if (0 <? distToFVG) && (distToFVG <? atr_1h_value * 1.0) then
          let slPrice := bottom nearestFVG - (atr_1h_value * 0.25) in
          let calculatedSLPips := Math_abs (last_price - slPrice) / pipSize in
          ("buy", 0.60, "HTF Up, Price pulling back to nearest 1H Bullish FVG",
           Math_round (calculatedSLPips * 2.0))
        else ("flat", 0.0, "No signal", tpPips)
    | [] => ("flat", 0.0, "No signal", tpPips)
    end
  else if String.eqb htf_bias "Down" && Nat.ltb 0 (List.length bearish) then
    let targets :=
      sort_by (fun a b => bottom a - bottom b)
        (filter (fun fvg => last_price <? bottom fvg) bearish) in
    match targets with
    | nearestFVG :: _ =>
        let distToFVG := bottom nearestFVG - last_price in
        if (0 <? distToFVG) && (distToFVG <? atr_1h_value * 1.0) then
          let slPrice := top nearestFVG + (atr_1h_value * 0.25) in
          let calculatedSLPips := Math_abs (last_price - slPrice) / pipSize in
          ("sell", 0.60, "HTF Down, Price pulling back to nearest 1H Bearish FVG",
           Math_round (calculatedSLPips * 2.0))
        else ("flat", 0.0, "No signal", tpPips)
    | [] => ("flat", 0.0, "No signal", tpPips)
    end
  else ("flat", 0.0, "No signal", tpPips).

Definition Scorer_Liquidity (candleData : CandleData) (srData : SrData) : Signal :=
  let symbol := cd_symbol candleData in
  let data_1h := data_1h candleData in
  let data_4h := data_4h candleData in
  let data_daily := data_daily candleData in
  let meta := cd_meta candleData in
  let hist_atr_4h := hist_atr_4h candleData in
  let pipSize :=
    or_else (pip_size meta) (if includes symbol "JPY" then 0.01 else 0.0001) in
  (* 2. minimum data *)
  if Nat.ltb (List.length data_1h) 50 || Nat.ltb (List.length data_4h) 50
     || Nat.ltb (List.length data_daily) 200
  then normalizeOutput (Structure.bareFlat symbol "Not enough candle data") pipSize else
  (* 3. indicators, on the reversed arrays (the two console.log lines
     before them only write to the log) *)
  let daily_data_for_ta := rev data_daily in
  let data_4h_for_ta := rev data_4h in
  let data_1h_for_ta := rev data_1h in
  let daily_ema_200 := calculateEMA daily_data_for_ta 200 in
  let last_daily_price := close (at_ data_daily 0) in
  let daily_200_ema :=
    truthyO (ema daily_ema_200) && (num (ema daily_ema_200) <? last_daily_price) in
  let atr_4h := calculateATR data_4h_for_ta 14 in
  let last_atr_4h_value := atr atr_4h in
  let atr_4h_norm := computeAtr4hNorm last_atr_4h_value hist_atr_4h in
  let rsi_4h := calculateRSI data_4h_for_ta 14 in
  let atr_1h := calculateATR data_1h_for_ta 14 in
  let last_price := close (at_ data_1h 0) in
  let atr_1h_value := atr atr_1h in
  let atr_1h_pips :=
    if truthyO atr_1h_value && truthy pipSize
    then Math_round (num atr_1h_value / pipSize) else 20 in
  if negb (truthyO atr_1h_value)
  then normalizeOutput (Structure.bareFlat symbol "Could not calculate 1H ATR") pipSize else
  (* 4. liquidity logic *)
  let '(bullish, bearish) := findFVGs data_1h in
  let htf_bias := if daily_200_ema then "Up" else "Down" in
  let slPips := Math_max 15 (Math_round (atr_1h_pips * 1.5)) in
  let tpPips := Math_round (slPips * 1.8) in
  let '(signal, confidence, reason, tpPips) :=
    entry htf_bias bullish bearish last_price (num atr_1h_value) pipSize tpPips in
  (* 5. final return *)
  let finalJson :=
    {| symbol := symbol; signal := signal; confidence := Some confidence;
       price := Some last_price;
       recommendedSLPips := if negb (String.eqb signal "flat") then Some slPips else None;
       recommendedTPPips := if negb (String.eqb signal "flat") then Some tpPips else None;
       recommendedSLPrice := None; recommendedTPPrice := None;
       reason := [Lit reason]; signalType := Some "liquidity";
       indicators := Some [("rsi_4h", of_opt (rsi rsi_4h)); ("atr_1h", of_opt (atr atr_1h));
                           ("daily_price_above_ema_200", JBool daily_200_ema);
                           ("atr_4h_norm", of_opt atr_4h_norm);
                           ("atr_1h_pips", JNum atr_1h_pips)];
       market_data := None; sr_data := Some srData; meta := Some meta |} in
  normalizeOutput finalJson pipSize.

End Liquidity.

(* ================================================================== *)
(** ** Scorer_VWAP (v1.0): VWAP bias *)
(* ================================================================== *)

Module VWAP.

Import JS.
Open Scope float_scope.

Definition normalizeOutput : Signal -> float -> Signal :=
  Structure.normalizeOutputFor "vwap_bias".

(** Volume-weighted average price of a newest-first array whose candles
    carry [typical] and [volume]. *)
Definition calculateVWAP (data : list Candle) : option float :=
  match data with
  | [] => None
  | c0 :: _ =>
      if negb (truthyO (typical c0)) || negb (truthyO (volume c0)) then None else
      let candles := rev data in
      let '(cumulativeTypicalVolume, cumulativeVolume) :=
        fold_left
          (fun '(cumulativeTypicalVolume, cumulativeVolume) candle =>
             let typicalPrice := num (typical candle) in
             let volume := num (volume candle) in
             if isNaN typicalPrice || isNaN volume
             then (cumulativeTypicalVolume, cumulativeVolume)
             else (cumulativeTypicalVolume + typicalPrice * volume,
                   cumulativeVolume + volume))
          candles (0, 0) in
      if cumulativeVolume =? 0 then None
      else Some (cumulativeTypicalVolume / cumulativeVolume)
  end.

(** Step 4: price on the side of the bias against the one-hour VWAP,
    and back inside the zone around the 15-minute VWAP. *)
Definition entry (htf_bias : string) (last_price vwap_1h vwap_15m vwap_zone : float)
  : string * float * string :=
  if String.eqb htf_bias "Up" && (vwap_1h <? last_price) then
    if (last_price <? vwap_15m + vwap_zone) && (vwap_15m - vwap_zone <? last_price)
    then ("buy", 0.65, "HTF Up, Price > 1H VWAP, Pullback to 15m VWAP support")
    else ("flat", 0.0, "No signal")
  else if String.eqb htf_bias "Down" && (last_price <? vwap_1h) then
    if (vwap_15m - vwap_zone <? last_price) && (last_price <? vwap_15m + vwap_zone)
    then ("sell", 0.65, "HTF Down, Price < 1H VWAP, Pullback to 15m VWAP resistance")
    else ("flat", 0.0, "No signal")
  else ("flat", 0.0, "No signal").

Section StandardHelpers.

(** The node's source leaves out the bodies of its four standard
    helpers ("Same as other scorers"); they are parameters of the
    main body here. *)
Variable calculateRSI : list Candle -> nat -> RsiResult.
Variable calculateATR : list Candle -> nat -> AtrResult.
Variable calculateEMA : list Candle -> nat -> EmaResult.
Variable computeAtr4hNorm : option float -> option (list float) -> option float.

Definition Scorer_VWAP (candleData : CandleData) (srData : SrData) : Signal :=
  let symbol := cd_symbol candleData in
  let data_15m := data_15m candleData in
  let data_1h := data_1h candleData in
  let data_4h := data_4h candleData in
  let data_daily := data_daily candleData in
  let meta := cd_meta candleData in
  let hist_atr_4h := hist_atr_4h candleData in
  let pipSize := or_else (pip_size meta) 0.01 in
  (* 2. minimum data *)
  if Nat.ltb (List.length data_1h) 24 || Nat.ltb (List.length data_15m) 24
     || Nat.ltb (List.length data_4h) 50 || Nat.ltb (List.length data_daily) 200
  then normalizeOutput (Structure.bareFlat symbol "Not enough candle data") pipSize else
  (* volume and typical price must be there *)
  if negb (truthyO (volume (at_ data_15m 0))) || negb (truthyO (typical (at_ data_15m 0)))
     || negb (truthyO (volume (at_ data_1h 0))) || negb (truthyO (typical (at_ data_1h 0)))
  then normalizeOutput
         (Structure.bareFlat symbol
            "VETO: Candle data is missing `volume` or `typical` properties.") pipSize else
  (* 3. indicators *)
  let daily_ema_200 := calculateEMA data_daily 200 in
  let last_daily_price := close (at_ data_daily 0) in
  let daily_above_200 :=
    truthyO (ema daily_ema_200) && (num (ema daily_ema_200) <? last_daily_price) in
  let atr_4h := calculateATR data_4h 14 in
  let atr_4h_norm := computeAtr4hNorm (atr atr_4h) hist_atr_4h in
  let atr_1h := calculateATR data_1h 14 in
  let rsi_4h := calculateRSI data_4h 14 in
  let vwap_1h := calculateVWAP data_1h in
  let vwap_15m := calculateVWAP data_15m in
  let last_price := close (at_ data_15m 0) in
  let atr_1h_pips :=
    if truthyO (atr atr_1h) && truthy pipSize
    then Math_round (num (atr atr_1h) / pipSize) else 20 in
  let vwap_zone := or_else (atr atr_1h) 0 * 0.25 in
  if negb (truthyO vwap_1h) || negb (truthyO vwap_15m) || negb (truthyO (atr atr_1h))
  then normalizeOutput
         (Structure.bareFlat symbol "Failed to calculate VWAP or ATR.") pipSize else
  let vwap_1h := num vwap_1h in
  let vwap_15m := num vwap_15m in
  (* 4. VWAP bias logic *)
  let htf_bias := if daily_above_200 then "Up" else "Down" in
  let slPips := Math_max 15 (Math_round (atr_1h_pips * 1.5)) in
  let tpPips := Math_round (slPips * 1.8) in
  let '(signal, confidence, reason) :=
    entry htf_bias last_price vwap_1h vwap_15m vwap_zone in
  (* 5. final return *)
  let finalJson :=
    {| symbol := symbol; signal := signal; confidence := Some confidence;
       price := Some last_price;
       recommendedSLPips := Some slPips;
       recommendedTPPips := Some tpPips;
       recommendedSLPrice := None; recommendedTPPrice := None;
       reason := [Lit reason]; signalType := Some "vwap_bias";
       indicators := Some [("rsi_4h", of_opt (rsi rsi_4h)); ("atr_1h", of_opt (atr atr_1h));
                           ("daily_price_above_ema_200", JBool daily_above_200);
                           ("atr_4h_norm", of_opt atr_4h_norm);
                           ("atr_1h_pips", JNum atr_1h_pips);
                           ("vwap_1h", JNum vwap_1h); ("vwap_15m", JNum vwap_15m)];
       market_data := None; sr_data := Some srData; meta := Some meta |} in
  normalizeOutput finalJson pipSize.

End StandardHelpers.

End VWAP.

(* ================================================================== *)
(** ** Confluence_Stateless (v1.4): regime router and signal confluence *)
(* ================================================================== *)

Module Confluence.

Import JS.
Open Scope float_scope.

Definition regimeVolatilityThreshold : float := 0.7.
Definition TECHNICAL_SCORERS : list string := ["momentum"; "reversion"; "breakout"].
Definition DYNAMIC_SCORERS : list string := ["vwap_bias"; "liquidity"; "market_structure"].

(** *** The ambient state: the console the node writes to *)

Definition World : Type := list (string * Reason).
Definition M (A : Type) : Type := World -> A * World.

Definition ret {A : Type} (a : A) : M A := fun w => (a, w).
Definition bind {A B : Type} (m : M A) (f : A -> M B) : M B :=
  fun w => let '(a, w') := m w in f a w'.
Definition console (level : string) (msg : Reason) : M unit :=
  fun w => (tt, w ++ [(level, msg)]).

Notation "m ;; n" := (bind m (fun _ => n)) (at level 61, right associativity).

(** *** Input items and output records *)

(** An input item is [{ json: d }], a bare record [d], or null. *)
Inductive Item : Type :=
| ItemJson (d : Signal)
| ItemBare (d : Signal)
| ItemNull.

Record Output : Type := mkOutput {
  out_symbol : string;
  out_signal : string;
  out_price : option float;
  out_confidence : option float;
  strategyType : option string;
  out_reason : Reason;
  regime : option string;
  out_recommendedSLPips : option float;
  out_recommendedTPPips : option float;
  sl_price : option float;
  tp_price : option float;
  out_indicators : option object;
  out_sr_data : option SrData;
  out_meta : option Meta
}.

(** [{ symbol, signal: 'flat', reason }], with [regime] where the code
    writes it. *)
Definition flatOut (symbol : string) (reason : Reason) (regime : option string) : Output :=
  {| out_symbol := symbol; out_signal := "flat"; out_price := None; out_confidence := None;
     strategyType := None; out_reason := reason; regime := regime;
     out_recommendedSLPips := None; out_recommendedTPPips := None;
     sl_price := None; tp_price := None;
     out_indicators := None; out_sr_data := None; out_meta := None |}.

(** *** Grouping by symbol *)

(** Keys every object inherits from [Object.prototype]: [grouped[key]] is
    truthy for them and has no [push]. *)
Definition inherited_keys : list string :=
  ["constructor"; "__defineGetter__"; "__defineSetter__"; "hasOwnProperty";
   "__lookupGetter__"; "__lookupSetter__"; "isPrototypeOf"; "propertyIsEnumerable";
   "toString"; "valueOf"; "__proto__"; "toLocaleString"].

Definition Grouped : Type := list (string * list Signal).

Fixpoint push_group (symbol : string) (d : Signal) (grouped : Grouped) : Grouped :=
  match grouped with
  | [] => [(symbol, [d])]
  | (s, arr) :: g =>
      if String.eqb symbol s then (s, arr ++ [d]) :: g else (s, arr) :: push_group symbol d g
  end.

Definition payload (it : Item) : option Signal :=
  match it with
  | ItemJson d | ItemBare d => Some d
  | ItemNull => None
  end.

(** The first loop; [inl] is the TypeError of [grouped[d.symbol].push]
    on an inherited key, which nothing catches. *)
Fixpoint groupBySymbol (allItems : list Item) (grouped : Grouped) : string + Grouped :=
  match allItems with
  | [] => inr grouped
  | it :: rest =>
      match payload it with
      | None => groupBySymbol rest grouped
      | Some d =>
          if String.eqb (symbol d) "" then groupBySymbol rest grouped
          else if existsb (String.eqb (symbol d)) inherited_keys
          then inl "grouped[d.symbol].push is not a function"
          else groupBySymbol rest (push_group (symbol d) d grouped)
      end
  end.

(** [Object.entries]: keys that are array indices come first, in
    ascending order, then the other keys in insertion order. *)
Fixpoint digits (s : string) (acc : N) : option N :=
  match s with
  | EmptyString => Some acc
  | String c s' =>
      let n := N_of_ascii c in
      if (48 <=? n)%N && (n <=? 57)%N then digits s' (acc * 10 + (n - 48))%N else None
  end.

Definition array_index (s : string) : option N :=
  match s with
  | EmptyString => None
  | String c rest =>
      if Ascii.eqb c "0" && negb (String.eqb rest "") then None
      else match digits s 0 with
           | Some n => if (n <? 2 ^ 32 - 1)%N then Some n else None
           | None => None
           end
  end.

Fixpoint insert_index {A : Type} (n : N) (x : A) (l : list (N * A)) : list (N * A) :=
  match l with
  | [] => [(n, x)]
  | (m, y) :: l' => if (n <? m)%N then (n, x) :: (m, y) :: l' else (m, y) :: insert_index n x l'
  end.

Definition Object_entries (grouped : Grouped) : Grouped :=
  let indexed :=
    fold_left (fun acc e => match array_index (fst e) with
                            | Some n => insert_index n e acc
                            | None => acc
                            end) grouped [] in
  map snd indexed
    ++ filter (fun e => match array_index (fst e) with Some _ => false | None => true end)
         grouped.

(** *** The confluence logic for one symbol *)

Definition hasType (types : list string) (s : Signal) : bool :=
  match signalType s with
  | Some t => existsb (String.eqb t) types
  | None => false
  end.

Definition isReversion (s : Signal) : bool :=
  match signalType s with Some t => String.eqb t "reversion" | None => false end.

(** [reasons.join(' + ')] over the tags whose flag is set. *)
Definition tags (l : list (bool * string)) : string :=
  String.concat " + " (map snd (filter fst l)).

(** The (v1.3) selection: [filteredArr] and [confluenceReason]. *)
Definition select (htf_trend : string) (arr : list Signal) : list Signal * string :=
  let buySignals := filter (fun s => String.eqb (signal s) "buy") arr in
  let sellSignals := filter (fun s => String.eqb (signal s) "sell") arr in
  let tech_buys := existsb (hasType TECHNICAL_SCORERS) buySignals in
  let dynamic_buys := existsb (hasType DYNAMIC_SCORERS) buySignals in
  let reversion_buys := existsb isReversion buySignals in
  let tech_sells := existsb (hasType TECHNICAL_SCORERS) sellSignals in
  let dynamic_sells := existsb (hasType DYNAMIC_SCORERS) sellSignals in
  let reversion_sells := existsb isReversion sellSignals in
  if String.eqb htf_trend "Up" then
    if tech_buys || dynamic_buys then
      (buySignals,
       ("Signal: " ++ tags [(tech_buys, "Technical"); (dynamic_buys, "Dynamic")]
          ++ " BUYS (With Trend)")%string)
    else if reversion_sells then
      (filter isReversion sellSignals, "Signal: Reversion SELLS (Counter-Trend)")
    else ([], "No Buy Signals or Reversion Sells Found")
  else if String.eqb htf_trend "Down" then
    if tech_sells || dynamic_sells then
      (sellSignals,
       ("Signal: " ++ tags [(tech_sells, "Technical"); (dynamic_sells, "Dynamic")]
          ++ " SELLS (With Trend)")%string)
    else if reversion_buys then
      (filter isReversion buySignals, "Signal: Reversion BUYS (Counter-Trend)")
    else ([], "No Sell Signals or Reversion Buys Found")
  else
    if reversion_buys || dynamic_buys then
      (buySignals,
       ("Signal: " ++ tags [(reversion_buys, "Reversion"); (dynamic_buys, "Dynamic")]
          ++ " BUYS (Range)")%string)
    else if reversion_sells || dynamic_sells then
      (sellSignals,
       ("Signal: " ++ tags [(reversion_sells, "Reversion"); (dynamic_sells, "Dynamic")]
          ++ " SELLS (Range)")%string)
    else ([], "Range. No Reversion or Dynamic signals.").

(** [Math.min(1, sum of (confidence || 0) / Math.max(1, length))]. *)
Definition meanConfidence (filteredArr : list Signal) : float :=
  fold_left (fun a b => a + or_else (confidence b) 0) filteredArr 0
    / Math_max 1 (of_nat (List.length filteredArr)).

Definition avgConfidence (filteredArr : list Signal) : float :=
  Math_min 1 (meanConfidence filteredArr).

(** [filteredArr.sort((a, b) => b.confidence - a.confidence)]. *)
Definition byConfidence (filteredArr : list Signal) : list Signal :=
  sort_by (fun a b => num (confidence b) - num (confidence a)) filteredArr.

(** (v1.4) the raw signal object built from the best signal. *)
Definition rawSignal (symbol htf_trend confluenceReason : string) (avgConfidence : float)
    (bestSignal : Signal) : Output :=
  let strategyType := signalType bestSignal in
  let meta := match meta bestSignal with Some m => m | None => mkMeta None end in
  let signal := signal bestSignal in
  let price := price bestSignal in
  let slPips := or_null (recommendedSLPips bestSignal) in
  let tpPips := or_null (recommendedTPPips bestSignal) in
  let pipSize :=
    if truthyO (pip_size meta) then num (pip_size meta)
    else if negb (String.eqb symbol "") && negb (includes symbol "JPY")
            && negb (includes symbol "XAU") then 0.0001
    else 0.01 in
  let sl_price :=
    if String.eqb signal "buy" && truthyO price && truthyO slPips
    then Some (num price - (num slPips * pipSize))
    else if String.eqb signal "sell" && truthyO price && truthyO slPips
    then Some (num price + (num slPips * pipSize))
    else None in
  let tp_price :=
    if String.eqb signal "buy" && truthyO price && truthyO tpPips
    then Some (num price + (num tpPips * pipSize))
    else if String.eqb signal "sell" && truthyO price && truthyO tpPips
    then Some (num price - (num tpPips * pipSize))
    else None in
  {| out_symbol := symbol; out_signal := signal; out_price := price;
     out_confidence := Some avgConfidence; strategyType := strategyType;
     out_reason := [Lit confluenceReason]; regime := Some htf_trend;
     out_recommendedSLPips := slPips; out_recommendedTPPips := tpPips;
     sl_price := sl_price; tp_price := tp_price;
     out_indicators := indicators bestSignal; out_sr_data := sr_data bestSignal;
     out_meta := Some meta |}.

Definition hasRegimeData (s : Signal) : bool :=
  match indicators s with
  | Some o => match get o "rsi_4h" with JUndefined => false | _ => true end
  | None => false
  end.

(** [atr_4h_norm > regimeVolatilityThreshold]; the scorers write a
    number or null here, other values compare through ToNumber. *)
Definition aboveThreshold (atr_4h_norm : jsval) : bool :=
  regimeVolatilityThreshold <? to_number atr_4h_norm.

(** The body of the [try] block for one symbol.  [inr None] is a
    [continue] that pushes nothing, [inr (Some out)] pushes [out], and
    [inl message] is a thrown error. *)
Definition processSymbol (symbol : string) (arr : list Signal) : M (string + option Output) :=
  if Nat.eqb (List.length arr) 0 then ret (inr None) else
  match find hasRegimeData arr with
  | None =>
      console "warn" [Lit "No valid indicator data for "; Lit symbol; Lit "."] ;;
      ret (inr (Some (flatOut symbol
                        [Lit "VETO: No valid indicator data from any scorer."] None)))
  | Some firstValidSignal =>
      let indicators := match indicators firstValidSignal with Some o => o | None => [] end in
      let rsi_4h := get indicators "rsi_4h" in
      let daily_price_above_ema_200 := get indicators "daily_price_above_ema_200" in
      let atr_4h_norm := get indicators "atr_4h_norm" in
      if nullish rsi_4h || nullish daily_price_above_ema_200 || nullish atr_4h_norm then
        console "warn"
          [Lit "Regime Router: Missing required indicator data for "; Lit symbol; Lit "."] ;;
        ret (inr (Some (flatOut symbol
                          [Lit "VETO: Regime Router: Missing required indicator data (RSI, Daily EMA, ATR)."]
                          None)))
      else
      (* 1. trend, 2. volatility *)
      let htf_trend :=
        match daily_price_above_ema_200 with
        | JBool true => "Up"
        | JBool false => "Down"
        | _ => "Neutral"
        end in
      let volatility := if aboveThreshold atr_4h_norm then "High" else "Low" in
      (* 3. veto in volatile chop *)
      if String.eqb htf_trend "Neutral" && String.eqb volatility "High" then
        let reason := [Lit "Regime: Veto. Volatile CHOP."] in
        console "log" (reason ++ [Lit "("; Lit symbol; Lit ")"]) ;;
        ret (inr (Some (flatOut symbol reason (Some htf_trend))))
      else
      let '(filteredArr, confluenceReason) := select htf_trend arr in
      if Nat.eqb (List.length filteredArr) 0 then
        let reason := [Lit "Regime: "; Lit htf_trend; Lit ". "; Lit confluenceReason; Lit "."] in
        console "log" (reason ++ [Lit "("; Lit symbol; Lit ")"]) ;;
        ret (inr (Some (flatOut symbol reason (Some htf_trend))))
      else
      let avgConfidence := avgConfidence filteredArr in
      match byConfidence filteredArr with
      | bestSignal :: _ =>
          ret (inr (Some (rawSignal symbol htf_trend confluenceReason avgConfidence bestSignal)))
      | [] => ret (inl "Cannot read properties of undefined (reading 'signalType')")
      end
  end.

(** *** The per-symbol loop with its [try]/[catch] *)

(** The record the [catch] block pushes. *)
Definition errorOut (symbol message : string) : Output :=
  flatOut symbol [Lit "VETO: Node error: "; Lit message] None.

Section PerSymbolLoop.

(** What one iteration runs inside [try]. *)
Variable body : string -> list Signal -> M (string + option Output).

Definition guarded (symbol : string) (arr : list Signal) : M (option Output) :=
  bind (body symbol arr)
    (fun r => match r with
              | inr pushed => ret pushed
              | inl message =>
                  console "error" [Lit "Error processing "; Lit symbol; Lit ":"; Lit message] ;;
                  ret (Some (errorOut symbol message))
              end).

Fixpoint processSymbols (entries : Grouped) (results : list Output) : M (list Output) :=
  match entries with
  | [] => ret results
  | (symbol, arr) :: rest =>
      bind (guarded symbol arr)
        (fun pushed =>
           processSymbols rest
             (match pushed with Some out => results ++ [out] | None => results end))
  end.

End PerSymbolLoop.

(** The node: group, process each symbol, return [results].  [inl] is
    a run aborted by an uncaught error. *)
Definition Confluence_Stateless (allItems : list Item) : M (string + list Output) :=
  match groupBySymbol allItems [] with
  | inl err => ret (inl err)
  | inr grouped =>
      bind (processSymbols processSymbol (Object_entries grouped) [])
        (fun results => ret (inr results))
  end.

End Confluence.

(* ================================================================== *)
(** ** MTF_Combiner (v3.1): the candle bundle the scorers work from *)
(* ================================================================== *)

Module MTF.

Import JS.
Open Scope float_scope.

(** The [meta] object of a time series, with the keys the node reads or
    writes. *)
Record SeriesMeta : Type := mkSeriesMeta {
  sm_symbol : option string;
  interval : option string;
  sm_pip_size : option float
}.

(** [item.json] of one input: a time series as the data feed returns it. *)
Record Feed : Type := mkFeed {
  values : option (list Candle);
  feed_meta : option SeriesMeta
}.

(** An input item; [None] is a missing item or one without [json]. *)
Definition Item : Type := option Feed.

(** What [getData] hands back: both keys are there, so the [|| []]
    fallbacks of the main body never apply. *)
Record Series : Type := mkSeries {
  s_values : list Candle;
  s_meta : SeriesMeta
}.

(** [getData]; the fallback follows a warning on the console. *)
Definition getData (item : Item) (tf : string) : Series :=
  match item with
  | Some {| values := Some v; feed_meta := Some m |} => mkSeries v m
  | _ => mkSeries [] (mkSeriesMeta None (Some tf) None)
  end.

(** This node's ATR leaves out the candles it cannot parse.  A field
    that does not parse is NaN in the candle record. *)
Definition calculateATR (data : list Candle) (period : nat) : AtrResult :=
  if Nat.ltb (List.length data) (period + 1) then {| atr := None; atr_values := [] |} else
  let candles := rev data in
  if isNaN (high (at_ candles 0)) || isNaN (low (at_ candles 0))
  then {| atr := None; atr_values := [] |} else
  let trValues := [high (at_ candles 0) - low (at_ candles 0)] in
  let trValues :=
    for_loop 1 (List.length candles)
      (fun i trValues =>
         let h := high (at_ candles i) in
         let l := low (at_ candles i) in
         let prevClose := close (at_ candles (i - 1)) in
         if isNaN h || isNaN l || isNaN prevClose then trValues
         else trValues
                ++ [Math_max3 (h - l) (Math_abs (h - prevClose)) (Math_abs (l - prevClose))])
      trValues in
  if Nat.ltb (List.length trValues) period then {| atr := None; atr_values := [] |} else
  let p := of_nat period in
  let sum := for_loop 0 period (fun i sum => sum + nth i trValues nan) 0 in
  let firstAtr := sum / p in
  let atrValues := [firstAtr] in
  let '(_, atrValues) :=
    for_loop period (List.length trValues)
      (fun i '(prevAtr, atrValues) =>
         let currentAtr := ((prevAtr * of_nat (period - 1)) + nth i trValues nan) / p in
         (currentAtr, atrValues ++ [currentAtr]))
      (firstAtr, atrValues) in
  {| atr := last_value atrValues; atr_values := atrValues |}.

(** [addTypicalPrice]: every candle that parses gets [typical], the mean
    of high, low and close; the others are passed on as they are. *)
Definition addTypicalPrice (candles : list Candle) : list Candle :=
  map (fun c =>
         let h := high c in
         let l := low c in
         let cl := close c in
         if isNaN h || isNaN l || isNaN cl then c
         else
           let typical := (h + l + cl) / 3 in
           mkCandle (time c) (open c) (high c) (low c) (close c) (volume c) (Some typical))
    candles.

(** [xs.slice(-n)]: the last [n] elements, or all of them. *)
Definition slice_last {A : Type} (n : nat) (xs : list A) : list A :=
  skipn (List.length xs - n) xs.

(** [a || b] on strings that may be missing. *)
Definition or_string (a : option string) (b : string) : string :=
  match a with
  | Some s => if String.eqb s "" then b else s
  | None => b
  end.

(** The object the node returns in [json]. *)
Record Combined : Type := mkCombined {
  symbol : string;
  primary_tf : string;
  trend_tf : string;
  data_5m : list Candle;
  data_15m : list Candle;
  data_1h : list Candle;
  data_4h : list Candle;
  data_daily : list Candle;
  hist_atr_4h : list float;
  meta : SeriesMeta
}.

(** The node's main body; [inl] is the error of the arity guard. *)
Definition MTF_Combiner (items : list Item) : string + Combined :=
  if Nat.ltb (List.length items) 5
  then inl "MTF Combiner (v3.1) expects 5 inputs (5m, 15m, 1h, 4h, 1D)." else
  let data_5m := getData (nth 0 items None) "5m" in
  let data_15m := getData (nth 1 items None) "15m" in
  let data_1h := getData (nth 2 items None) "1h" in
  let data_4h := getData (nth 3 items None) "4h" in
  let data_1d := getData (nth 4 items None) "1D" in
  (* historical ATR of the 4-hour chart: the last 90 values *)
  let atr4h_data := calculateATR (s_values data_4h) 14 in
  let hist_atr_4h := slice_last 90 (atr_values atr4h_data) in
  let symbol :=
    or_string (sm_symbol (s_meta data_15m))
      (or_string (sm_symbol (s_meta data_1h)) "UNKNOWN") in
  let baseMeta := s_meta data_15m in
  (* pip size fallback, written into the meta object *)
  let baseMeta :=
    if negb (truthyO (sm_pip_size baseMeta))
    then mkSeriesMeta (sm_symbol baseMeta) (interval baseMeta)
           (Some (if includes symbol "JPY" then 0.01 else 0.0001))
    else baseMeta in
  inr {| symbol := symbol; primary_tf := "15m"; trend_tf := "4h";
         data_5m := addTypicalPrice (s_values data_5m);
         data_15m := addTypicalPrice (s_values data_15m);
         data_1h := addTypicalPrice (s_values data_1h);
         data_4h := addTypicalPrice (s_values data_4h);
         data_daily := addTypicalPrice (s_values data_1d);
         hist_atr_4h := hist_atr_4h;
         meta := baseMeta |}.

(** [items[0].json] as the scorers destructure it: of [meta] they read
    [pip_size] only. *)
Definition candleData (c : Combined) : CandleData :=
  mkCandleData (symbol c) (data_5m c) (data_15m c) (data_1h c) (data_4h c) (data_daily c)
    (Some (hist_atr_4h c)) (mkMeta (sm_pip_size (meta c))).

End MTF.

(* ================================================================== *)
(** ** Concrete candle bundles used to run the nodes *)
(* ================================================================== *)

Module Sample.

Import JS.
Open Scope float_scope.

(** A candle that closes at [c] with a range of [2 r] around it. *)
Definition bar (r c : float) : Candle := mkCandle None c (c + r) (c - r) c None None.

(** A newest-first series from closes given oldest first. *)
Definition series (r : float) (closes : list float) : list Candle := rev (map (bar r) closes).

Definition gen (n : nat) (f : nat -> float) : list float := map f (seq 0 n).
Definition zig (base amp : float) (i : nat) : float :=
  if Nat.even i then base + amp else base - amp.
Definition ramp (base step : float) (i : nat) : float := base + step * of_nat i.

(** Sets the time of the newest candle. *)
Definition stamp (t : Z) (l : list Candle) : list Candle :=
  match l with
  | c :: l' => mkCandle (Some t) (open c) (high c) (low c) (close c) (volume c) (typical c) :: l'
  | [] => []
  end.

(** Replaces the newest candle by one with the given high, low and close. *)
Definition newest (h l c : float) (data : list Candle) : list Candle :=
  mkCandle None c h l c None None :: tl data.

Definition meta4 : Meta := mkMeta (Some 0.0001).

(** Sideways four-hour and one-hour charts, a rising daily chart. *)
Definition flat_4h : list Candle := series 0.5 (gen 60 (zig 100 0.3)).
Definition flat_1h : list Candle := series 0.5 (gen 30 (zig 100 0.3)).
Definition rising_4h : list Candle := series 0.5 (gen 60 (ramp 95 0.1)).
Definition rising_1h : list Candle := series 0.05 (gen 50 (ramp 100 0.1)).
Definition rising_daily : list Candle := series 0.5 (gen 200 (ramp 80 0.1)).

(** A quiet 15-minute chart whose newest bar spans four points. *)
Definition spike_15m : list Candle :=
  newest 103 99 100 (series 0.3 (gen 50 (zig 100 0.2))).

Definition far_levels : SrData :=
  mkSrData (Some [("p", 90); ("s1", 89); ("r1", 91)]) (Some 92) (Some 88) (Some 90).

Definition spike_bundle : CandleData :=
  mkCandleData "EUR/USD" [] spike_15m flat_1h flat_4h [] None meta4.

(** A bullish break of the previous day's high on the one-hour chart,
    while the newest 15-minute bar is a spike. *)
Definition structure_break : CandleData :=
  mkCandleData "EUR/USD" [] spike_15m rising_1h rising_4h rising_daily None meta4.
Definition structure_levels : SrData :=
  mkSrData None (Some 104.85) (Some 100) None.

(** A 15-minute chart that drifts sideways and then sells off; in the
    first the last bars fall without a pause, in the second the bar
    before last ticks up. *)
Definition selloff_15m : list Candle :=
  series 0.3 (gen 44 (zig 100 0.2) ++ [99.7; 99.5; 99.2; 98.9; 98.7; 98.4]).
Definition oversold_15m : list Candle :=
  series 0.3 (gen 44 (zig 100 0.2) ++ [99.7; 99.5; 99.2; 98.9; 98.95; 98.6]).

Definition selloff_bundle : CandleData :=
  mkCandleData "EUR/USD" [] selloff_15m flat_1h flat_4h [] None meta4.

(** A retest of the broken previous day's high (100.1) in an uptrend. *)
Definition retest_15m : list Candle :=
  series 0.3 (gen 38 (ramp 96.5 0.1) ++ [100.3; 100.2]).
Definition retest_levels : SrData :=
  mkSrData (Some [("R1", 101); ("R2", 102); ("S1", 99); ("S2", 98)])
    (Some 100.1) (Some 95) (Some 98).
Definition retest_at (t : Z) : CandleData :=
  mkCandleData "EUR/USD" [] (stamp t retest_15m) flat_1h rising_4h [] None meta4.

(** One bundle for a whole cycle: the oversold 15-minute chart, longer
    sideways one-hour history, a rising daily chart and twenty past
    four-hour ATR values; and what four of the scorers return on it. *)
Definition flat_1h50 : list Candle := series 0.5 (gen 50 (zig 100 0.3)).
Definition hist20 : list float := gen 20 (ramp 0.5 0.05).
Definition pipeline_bundle : CandleData :=
  mkCandleData "EUR/USD" [] oversold_15m flat_1h50 flat_4h rising_daily (Some hist20) meta4.
Definition scorer_outputs : list Signal :=
  [Trend.Scorer_Trend pipeline_bundle far_levels;
   MeanReversion.Scorer_Mean_Reversion pipeline_bundle far_levels;
   Structure.Scorer_Structure pipeline_bundle far_levels;
   Liquidity.Scorer_Liquidity pipeline_bundle far_levels].

(** Closes that only rise, and closes that do not move. *)
Definition rising15 : list Candle := series 0.5 (gen 15 (ramp 1 1)).
Definition rising20 : list Candle := series 0.5 (gen 20 (ramp 1 1)).
Definition still15 : list Candle := series 0.5 (gen 15 (fun _ => 100)).

(** The mirror image of the oversold chart: a sideways drift, then a
    rally; and a whole cycle on it. *)
Definition overbought_15m : list Candle :=
  series 0.3 (gen 44 (zig 100 0.2) ++ [100.3; 100.5; 100.8; 101.1; 101.05; 101.4]).
Definition rally_bundle : CandleData :=
  mkCandleData "EUR/USD" [] overbought_15m flat_1h50 flat_4h rising_daily (Some hist20) meta4.
Definition rally_outputs : list Signal :=
  [Trend.Scorer_Trend rally_bundle far_levels;
   MeanReversion.Scorer_Mean_Reversion rally_bundle far_levels;
   Structure.Scorer_Structure rally_bundle far_levels;
   Liquidity.Scorer_Liquidity rally_bundle far_levels].

(** Charts that climb with small setbacks: the momentum/pullback scorer
    buys on them. *)
Definition climb (base step : float) (i : nat) : float :=
  base + step * JS.of_nat i + (if Nat.even i then 0.03 else 0).
Definition climbing_15m : list Candle := series 0.1 (gen 50 (climb 100 0.02)).
Definition climbing_4h : list Candle := series 0.5 (gen 60 (climb 95 0.1)).
Definition trend_bundle : CandleData :=
  mkCandleData "EUR/USD" [] climbing_15m flat_1h50 climbing_4h rising_daily (Some hist20) meta4.

(** Five responses of the data feed for gold, the 5-minute one missing
    and none of them with a pip size. *)
Definition feed (tf : string) (candles : list Candle) : MTF.Item :=
  Some (MTF.mkFeed (Some candles) (Some (MTF.mkSeriesMeta (Some "XAU/USD") (Some tf) None))).
Definition feeds : list MTF.Item :=
  [None; feed "15min" oversold_15m; feed "1h" flat_1h50; feed "4h" flat_4h;
   feed "1day" rising_daily].

(** The previous day's levels without a pivot object. *)
Definition bare_levels : SrData := mkSrData None (Some 100.1) (Some 95) (Some 98).

(** A batch for two symbols, with an empty item in between. *)
Definition two_symbols : list Confluence.Item :=
  map Confluence.ItemJson scorer_outputs
    ++ [Confluence.ItemNull;
        Confluence.ItemBare (Structure.bareFlat "GBP/USD" "Not enough candle data")].

End Sample.

(* ================================================================== *)
(** ** What the claims speak about *)
(* ================================================================== *)

Module Spec.

Import JS.
Open Scope float_scope.

Definition direction_ok (s : string) : Prop := s = "buy" \/ s = "sell" \/ s = "flat".

Definition in_unit (c : float) : Prop := (0 <=? c) = true /\ (c <=? 1) = true.

(** Direction among buy, sell and flat; a confidence in [0,1]; and
    confidence 0 on a flat signal. *)
Definition signal_ok (s : Signal) : Prop :=
  direction_ok (signal s)
  /\ exists c, confidence s = Some c /\ in_unit c /\ (signal s = "flat" -> c = 0).

(** No signal of the list carries a negative confidence. *)
Definition no_negative_confidence (arr : list Signal) : Prop :=
  forall s c, In s arr -> confidence s = Some c -> (c <? 0) = false.

(** The range of the current 15-minute bar exceeds 3.0 times the
    15-minute ATR(14). *)
Definition volatilitySpike (data_15m : list Candle) : bool :=
  match atr (Trend.calculateATR data_15m 14) with
  | Some a => a * 3.0 <? high (at_ data_15m 0) - low (at_ data_15m 0)
  | None => false
  end.

(** The UTC hour of the current 15-minute candle lies in 07-10 or 12-15. *)
Definition inSession (data_15m : list Candle) : bool :=
  match getUTCHours (time (at_ data_15m 0)) with
  | Some h => ((7 <=? h)%Z && (h <=? 10)%Z) || ((12 <=? h)%Z && (h <=? 15)%Z)
  | None => false
  end.

(** The break-and-retest pattern on its own: bias, break, retest zone
    and RSI, without the session filter. *)
Definition breakPattern (candleData : CandleData) (srData : SrData) : bool :=
  let data_15m := data_15m candleData in
  let last_price_4h := close (at_ (data_4h candleData) 0) in
  let last_ema_4h := num (ema (Breakout.calculateEMA (data_4h candleData) 50)) in
  let last_rsi_15m := num (rsi (Breakout.calculateRSI data_15m 14)) in
  let zone := num (atr (Breakout.calculateATR (data_1h candleData) 14)) * 0.25 in
  let last := close (at_ data_15m 0) in
  let prev := close (at_ data_15m 1) in
  ((last_ema_4h <? last_price_4h)
   && (num (pdh srData) <? prev) && (last <? num (pdh srData) + zone)
   && (num (pdh srData) <? last) && (55 <? last_rsi_15m))
  || ((last_price_4h <? last_ema_4h)
      && (prev <? num (pdl srData)) && (num (pdl srData) - zone <? last)
      && (last <? num (pdl srData)) && (last_rsi_15m <? 45)).

(** The mean-reversion node's data-sufficiency gates: the candle counts
    and pivots of step 2, and the guard of step 3 that answers "not
    enough data" when an indicator came back empty. *)
Definition reversionCandles (candleData : CandleData) (srData : SrData) : bool :=
  Nat.leb 50 (List.length (data_4h candleData))
  && Nat.leb 50 (List.length (data_15m candleData))
  && Nat.leb 30 (List.length (data_1h candleData))
  && match pivots srData with Some _ => true | None => false end.




(** The confidence tables of the scorers.  The momentum/pullback scorer
    starts from one of [trendBases] and the S/R context moves it by
    -0.3, +0.2 or not at all; the mean-reversion scorer starts from one
    of [reversionBases] and adds 0.30, 0.15 or nothing; the scorers that
    normalize their output hand one of [normalizedPairs] to it. *)
Definition trendBases : list float :=
  [0.5 + 0.15; 0.5 + 0.15 + 0.15; 0.5 + 0.15 + 0.10; 0.5 + 0.15 + 0.15 + 0.10;
   0.5; 0.5 + 0.10; 0.5 + 0.20; 0.5 + 0.10 + 0.20;
   0.6; 0.6 + 0.15].
Definition trendCandidates : list float :=
  flat_map (fun b => [b - 0.3; b + 0.2; b]) trendBases.

Definition reversionBases : list float := [0.30 + 0.4; 0.30 + 0.3; 0.30; 0.0].
Definition reversionCandidates : list float :=
  flat_map (fun b => [b + 0.30; b + 0.15; b]) reversionBases.

Definition normalizedPairs : list (string * float) :=
  [("buy", 0.70); ("sell", 0.65); ("sell", 0.70); ("buy", 0.65);
   ("buy", 0.60); ("sell", 0.60); ("flat", 0.0)].

(** What the [try] block of the confluence node decides for one symbol,
    read off a run that starts with an empty console. *)
Definition verdict (symbol : string) (arr : list Signal)
  : string + option Confluence.Output :=
  fst (Confluence.processSymbol symbol arr []).

(** A body that fails on one symbol and is the node's own elsewhere;
    it stands for a fault of the runtime while that symbol is processed. *)
Definition failingOn (bad message : string) (symbol : string) (arr : list Signal)
  : Confluence.M (string + option Confluence.Output) :=
  if String.eqb symbol bad then Confluence.ret (inl message)
  else Confluence.processSymbol symbol arr.

End Spec.

(* ================================================================== *)
(** ** Vocabulary of the further properties *)
(* ================================================================== *)

Module Terms.

Import JS.
Open Scope float_scope.

(** High, low and close of the candle all parse. *)
Definition parses (c : Candle) : bool :=
  negb (isNaN (high c)) && negb (isNaN (low c)) && negb (isNaN (close c)).

(** A gap between the first and the third candle of a window of three
    of a newest-first array: upwards, and downwards. *)
Definition bullish_gap (data : list Candle) (g : Liquidity.FVG) : Prop :=
  exists i, (i + 2 < List.length data)%nat
    /\ Liquidity.bottom g = high (at_ data (i + 2))
    /\ Liquidity.top g = low (at_ data i)
    /\ Liquidity.fvg_time g = time (at_ data i)
    /\ (Liquidity.bottom g <? Liquidity.top g) = true.

Definition bearish_gap (data : list Candle) (g : Liquidity.FVG) : Prop :=
  exists i, (i + 2 < List.length data)%nat
    /\ Liquidity.bottom g = high (at_ data i)
    /\ Liquidity.top g = low (at_ data (i + 2))
    /\ Liquidity.fvg_time g = time (at_ data i)
    /\ (Liquidity.bottom g <? Liquidity.top g) = true.

(** The records of a batch the confluence node keeps: those of the
    items that are there and name a symbol. *)
Definition kept (allItems : list Confluence.Item) : list Signal :=
  flat_map (fun it => match Confluence.payload it with
                      | Some d => if String.eqb (symbol d) "" then [] else [d]
                      | None => []
                      end) allItems.

Definition ofSymbol (s : string) (l : list Signal) : list Signal :=
  filter (fun d => String.eqb (symbol d) s) l.

(** [grouped[s]] for a key the node has written. *)
Fixpoint lookup (g : Confluence.Grouped) (s : string) : option (list Signal) :=
  match g with
  | [] => None
  | (k, arr) :: g' => if String.eqb s k then Some arr else lookup g' s
  end.

(** Every key is there once and holds the records of its symbol, in
    the order they came. *)
Definition grouped_as_filters (g : Confluence.Grouped) (sofar : list Signal) : Prop :=
  NoDup (map fst g)
  /\ forall s, lookup g s = match ofSymbol s sofar with [] => None | f => Some f end.

(** The record the regime router pushes when the signal it reads the
    regime from lacks one of the three indicators. *)
Definition missingRegimeData (symbol : string) : Confluence.Output :=
  Confluence.flatOut symbol
    [Lit "VETO: Regime Router: Missing required indicator data (RSI, Daily EMA, ATR)."] None.

End Terms.

(* ================================================================== *)
(** ** Order facts on binary64 values *)
(* ================================================================== *)

Section FloatOrder.

Open Scope float_scope.

Lemma SFcompare_refl (x : spec_float) :
  x <> S754_nan -> SFcompare x x = Some Eq.
Proof.
  destruct x as [s | s | | s m e]; simpl; intros H; try congruence.
  - destruct s; reflexivity.
  - rewrite Z.compare_refl, Pos.compare_cont_refl. destruct s; reflexivity.
Qed.

Lemma ltb_leb (x y : float) : (x <? y) = true -> (x <=? y) = true.
Proof.
  rewrite FloatAxioms.ltb_spec, FloatAxioms.leb_spec. unfold SFltb, SFleb.
  destruct (SFcompare _ _) as [[ | | ] | ]; congruence.
Qed.

Lemma leb_number_r (x y : float) : (x <=? y) = true -> JS.isNaN y = false.
Proof.
  unfold JS.isNaN.
  rewrite FloatAxioms.leb_spec, FloatAxioms.eqb_spec. unfold SFleb, SFeqb.
  destruct (Prim2SF y) eqn:E.
  1, 2, 4: intros _; rewrite SFcompare_refl by discriminate; reflexivity.
  destruct (Prim2SF x); simpl; discriminate.
Qed.

Lemma ltb_number_l (x y : float) : (x <? y) = true -> JS.isNaN x = false.
Proof.
  unfold JS.isNaN.
  rewrite FloatAxioms.ltb_spec, FloatAxioms.eqb_spec. unfold SFltb, SFeqb.
  destruct (Prim2SF x) eqn:E.
  1, 2, 4: intros _; rewrite SFcompare_refl by discriminate; reflexivity.
  simpl; discriminate.
Qed.

End FloatOrder.

(* ================================================================== *)
(** ** Loops that append, and sums over a prefix *)
(* ================================================================== *)

Section Loops.

Open Scope float_scope.

Lemma fold_append_length {A I : Type} (f : I -> list A -> A) (l : list I) (init : list A) :
  List.length (fold_left (fun acc i => acc ++ [f i acc]) l init)
  = (List.length init + List.length l)%nat.
Proof.
  revert init. induction l as [| i l IH]; intros init; simpl.
  - lia.
  - rewrite IH, length_app. simpl. lia.
Qed.

Lemma sum_prefix_aux (l pre : list float) (n : nat) (acc : float) :
  (n <= List.length l)%nat ->
  fold_left PrimFloat.add (firstn n l) acc
  = fold_left (fun s i => s + nth i (pre ++ l) nan) (seq (List.length pre) n) acc.
Proof.
  revert pre n acc. induction l as [| x l IH]; intros pre n acc Hn.
  - simpl in Hn. assert (n = 0%nat) by lia. subst. reflexivity.
  - destruct n as [| n]; [reflexivity |].
    simpl. rewrite app_nth2 by lia. rewrite Nat.sub_diag. simpl.
    specialize (IH (pre ++ [x]) n (acc + x)).
    rewrite <- app_assoc, length_app in IH. simpl in IH.
    rewrite Nat.add_1_r in IH. apply IH. simpl in Hn. lia.
Qed.

Lemma sum_slice_loop (l : list float) (n : nat) :
  (n <= List.length l)%nat ->
  JS.sum (JS.slice 0 n l) = JS.for_loop 0 n (fun i sum => sum + nth i l nan) 0.
Proof.
  intros Hn. unfold JS.sum, JS.slice, JS.for_loop.
  rewrite Nat.sub_0_r. simpl skipn.
  exact (sum_prefix_aux l [] n 0 Hn).
Qed.

(** The ATR helper of the mean-reversion node computes what the one of
    the trend node computes. *)
Lemma reversion_ATR_is_trend_ATR (data : list Candle) (period : nat) :
  MeanReversion.calculateATR data period = Trend.calculateATR data period.
Proof.
  unfold MeanReversion.calculateATR, Trend.calculateATR.
  destruct (Nat.ltb (List.length data) (period + 1)) eqn:E; [reflexivity |].
  apply Nat.ltb_ge in E.
  cbv zeta.
  rewrite sum_slice_loop; [reflexivity |].
  unfold JS.for_loop.
  rewrite (fold_append_length
             (fun i (_ : list float) =>
                JS.Math_max3 (high (at_ (rev data) i) - low (at_ (rev data) i))
                  (JS.Math_abs (high (at_ (rev data) i) - close (at_ (rev data) (i - 1))))
                  (JS.Math_abs (low (at_ (rev data) i) - close (at_ (rev data) (i - 1)))))).
  rewrite length_seq, length_rev. simpl. lia.
Qed.

End Loops.

(* ================================================================== *)
(** ** The volatility-spike veto *)
(* ================================================================== *)

Section VolatilityVeto.

Open Scope float_scope.

Lemma spike_condition (data_15m : list Candle) :
  Spec.volatilitySpike data_15m = true ->
  (JS.num (atr (Trend.calculateATR data_15m 14)) * 3.0
     <? high (at_ data_15m 0) - low (at_ data_15m 0)) = true.
Proof.
  unfold Spec.volatilitySpike.
  destruct (atr (Trend.calculateATR data_15m 14)); [trivial | discriminate].
Qed.

Lemma trend_spike_flat (cd : CandleData) (sr : SrData) :
  Spec.volatilitySpike (data_15m cd) = true ->
  signal (Trend.Scorer_Trend cd sr) = "flat".
Proof.
  intros H. apply spike_condition in H.
  unfold Trend.Scorer_Trend. cbv zeta.
  destruct (_ || _ || _); [reflexivity |].
  destruct (_ || _ || _ || _ || _ || _); [reflexivity |].
  unfold Trend.VOLATILITY_SPIKE_MULT. rewrite H. reflexivity.
Qed.

Lemma breakout_spike_flat (cd : CandleData) (sr : SrData) :
  Spec.volatilitySpike (data_15m cd) = true ->
  exists s, Breakout.Scorer_Breakout cd sr = inr s /\ signal s = "flat".
Proof.
  intros H. apply spike_condition in H.
  unfold Breakout.Scorer_Breakout. cbv zeta.
  destruct (_ || _ || _ || _ || _); [eexists; split; reflexivity |].
  destruct (_ || _ || _ || _ || _); [eexists; split; reflexivity |].
  unfold Breakout.VOLATILITY_SPIKE_MULT, Breakout.calculateATR. rewrite H.
  eexists; split; reflexivity.
Qed.

Lemma reversion_spike_flat (cd : CandleData) (sr : SrData) :
  Spec.volatilitySpike (data_15m cd) = true ->
  signal (MeanReversion.Scorer_Mean_Reversion cd sr) = "flat".
Proof.
  intros H. apply spike_condition in H.
  unfold MeanReversion.Scorer_Mean_Reversion. cbv zeta.
  destruct (pivots sr); [| reflexivity].
  destruct (_ || _ || _); [reflexivity |].
  destruct (_ || _ || _ || _ || _); [reflexivity |].
  unfold MeanReversion.VOLATILITY_SPIKE_MULT.
  rewrite reversion_ATR_is_trend_ATR, H. reflexivity.
Qed.

End VolatilityVeto.

(** C2 (as amended): each of the three scorers that trade the 15-minute
    chart - momentum/pullback, break-and-retest and mean reversion -
    returns a flat signal on every input whose current 15-minute bar has a
    high-low range strictly greater than 3.0 times the 15-minute ATR. *)
Theorem volatility_spike_veto (cd : CandleData) (sr : SrData) :
  Spec.volatilitySpike (data_15m cd) = true ->
  signal (Trend.Scorer_Trend cd sr) = "flat"
  /\ (exists s, Breakout.Scorer_Breakout cd sr = inr s /\ signal s = "flat")
  /\ signal (MeanReversion.Scorer_Mean_Reversion cd sr) = "flat".
Proof.
  intros H. repeat split.
  - apply trend_spike_flat, H.
  - apply breakout_spike_flat, H.
  - apply reversion_spike_flat, H.
Qed.

Lemma volatility_spike_veto_witness :
  Spec.volatilitySpike (data_15m Sample.spike_bundle) = true
  /\ signal (Trend.Scorer_Trend Sample.spike_bundle Sample.far_levels) = "flat"
  /\ (exists s, Breakout.Scorer_Breakout Sample.spike_bundle Sample.far_levels = inr s
                /\ signal s = "flat")
  /\ signal (MeanReversion.Scorer_Mean_Reversion Sample.spike_bundle Sample.far_levels) = "flat".
Proof.
  split; [vm_compute; reflexivity |].
  apply (volatility_spike_veto Sample.spike_bundle Sample.far_levels).
  vm_compute; reflexivity.
Defined.

(** C2 as stated fails: the market-structure scorer has no volatility
    veto.  On a bundle whose newest 15-minute bar spans more than three
    times the ATR it answers the break of the previous day's high with a
    buy. *)
Lemma structure_ignores_volatility_spike :
  Spec.volatilitySpike (data_15m Sample.structure_break) = true
  /\ signal (Structure.Scorer_Structure Sample.structure_break Sample.structure_levels) = "buy"
  /\ signal (Structure.Scorer_Structure Sample.structure_break Sample.structure_levels) <> "flat".
Proof.
  split; [vm_compute; reflexivity |].
  split; [vm_compute; reflexivity |].
  vm_compute. discriminate.
Qed.

(* ================================================================== *)
(** ** The session filter of the break-and-retest scorer *)
(* ================================================================== *)

(** C5: when the UTC hour of the current 15-minute candle lies outside
    both windows 07-10 and 12-15, the break-and-retest scorer returns a
    flat signal, whatever the break, retest and RSI conditions are. *)
Theorem breakout_flat_outside_sessions (cd : CandleData) (sr : SrData) :
  Spec.inSession (data_15m cd) = false ->
  exists s, Breakout.Scorer_Breakout cd sr = inr s /\ signal s = "flat".
Proof.
  intros H. unfold Spec.inSession in H.
  unfold Breakout.Scorer_Breakout. cbv zeta.
  destruct (_ || _ || _ || _ || _); [eexists; split; reflexivity |].
  destruct (_ || _ || _ || _ || _); [eexists; split; reflexivity |].
  destruct (_ <? _)%float; [eexists; split; reflexivity |].
  unfold Breakout.isHighLiquidity. rewrite H.
  unfold Breakout.entry. rewrite !andb_false_r. cbn iota beta.
  eexists; split; reflexivity.
Qed.

Lemma breakout_flat_outside_sessions_witness :
  JS.getUTCHours (time (at_ (data_15m (Sample.retest_at 1700071200)) 0)) = Some 18%Z
  /\ Spec.breakPattern (Sample.retest_at 1700071200) Sample.retest_levels = true
  /\ Spec.inSession (data_15m (Sample.retest_at 1700071200)) = false
  /\ exists s, Breakout.Scorer_Breakout (Sample.retest_at 1700071200) Sample.retest_levels = inr s
               /\ signal s = "flat".
Proof.
  split; [vm_compute; reflexivity |].
  split; [vm_compute; reflexivity |].
  split; [vm_compute; reflexivity |].
  apply (breakout_flat_outside_sessions (Sample.retest_at 1700071200) Sample.retest_levels).
  vm_compute; reflexivity.
Defined.

(** The same candles stamped 08:00 UTC give the buy: the session filter
    is what holds the entry back at 18:00. *)
Example breakout_buys_in_session :
  Spec.inSession (data_15m (Sample.retest_at 1700035200)) = true
  /\ exists s, Breakout.Scorer_Breakout (Sample.retest_at 1700035200) Sample.retest_levels = inr s
               /\ signal s = "buy" /\ confidence s = Some 0.85%float.
Proof.
  split; [vm_compute; reflexivity |].
  eexists. split; [vm_compute; reflexivity |]. split; reflexivity.
Qed.

(* ================================================================== *)
(** ** The indicator guard of the mean-reversion scorer *)
(* ================================================================== *)

Lemma reversion_candles_gate (cd : CandleData) (sr : SrData) :
  Spec.reversionCandles cd sr = true ->
  exists pv, pivots sr = Some pv
    /\ (Nat.ltb (List.length (data_4h cd)) 50 || Nat.ltb (List.length (data_15m cd)) 50
        || Nat.ltb (List.length (data_1h cd)) 30) = false.
Proof.
  unfold Spec.reversionCandles. intros H.
  apply andb_prop in H. destruct H as [H Hp].
  apply andb_prop in H. destruct H as [H H1].
  apply andb_prop in H. destruct H as [H4 H15].
  destruct (pivots sr) as [pv |]; [| discriminate].
  exists pv. split; [reflexivity |].
  apply Nat.leb_le in H4, H15, H1.
  repeat rewrite orb_false_iff. repeat split; apply Nat.ltb_ge; assumption.
Qed.

(** C10: once the candle counts and pivots are there, a 15-minute
    Stochastic-RSI %K of exactly 0 makes the mean-reversion scorer return
    the flat signal 'Indicator calculation failed, not enough data.': the
    guard takes the falsy 0 for a missing indicator, and the oversold
    entry is not evaluated. *)
Theorem reversion_zero_K_is_missing (cd : CandleData) (sr : SrData) :
  Spec.reversionCandles cd sr = true ->
  k (MeanReversion.calculateStochasticRSI (data_15m cd) 14 14 3 3) = Some 0%float ->
  MeanReversion.Scorer_Mean_Reversion cd sr
  = MeanReversion.flat (cd_symbol cd)
      [Lit "Indicator calculation failed, not enough data."] sr.
Proof.
  intros Hc Hk.
  destruct (reversion_candles_gate cd sr Hc) as [pv [Hp Hl]].
  unfold MeanReversion.Scorer_Mean_Reversion. cbv zeta.
  rewrite Hp, Hl.
  unfold MeanReversion.STOCH_RSI_PERIOD, MeanReversion.STOCH_K_SMOOTH,
    MeanReversion.STOCH_D_SMOOTH.
  rewrite Hk.
  replace (JS.truthyO (Some 0%float)) with false by reflexivity.
  simpl negb. rewrite orb_true_r. reflexivity.
Qed.

Lemma reversion_zero_K_is_missing_witness :
  (JS.num (k (MeanReversion.calculateStochasticRSI (data_15m Sample.selloff_bundle) 14 14 3 3))
     <? 20)%float = true
  /\ MeanReversion.Scorer_Mean_Reversion Sample.selloff_bundle Sample.far_levels
     = MeanReversion.flat "EUR/USD"
         [Lit "Indicator calculation failed, not enough data."] Sample.far_levels.
Proof.
  split; [vm_compute; reflexivity |].
  apply (reversion_zero_K_is_missing Sample.selloff_bundle Sample.far_levels);
    vm_compute; reflexivity.
Defined.

(* ================================================================== *)
(** ** The S/R context of the momentum/pullback scorer *)
(* ================================================================== *)




(** A price of 100 inside the zone of a resistance at 100.1 and of a
    support at 99.9: the buy is charged the penalty and gets no bonus. *)
Example sr_context_penalty_only :
  Trend.srContext "buy" 100 0.25
    (Trend.filter_Boolean [Some 99.9%float; None])
    (Trend.filter_Boolean [None; Some 100.1%float])
    0.65 [Lit "entry"]
  = ((0.65 - 0.3)%float,
     [Lit "entry"; Lit " (Penalty: At Resistance "; Fixed 100.1 2; Lit ")"]).
Proof. vm_compute. reflexivity. Qed.

(* ================================================================== *)
(** ** The ranging buy of the mean-reversion scorer *)
(* ================================================================== *)

Section ReversionBuy.

Import JS.
Open Scope float_scope.



End ReversionBuy.


(* ================================================================== *)
(** ** The confluence node: sorting, selection, one symbol *)
(* ================================================================== *)

Section Sorting.

Context {A : Type} (cmp : A -> A -> float).

Lemma insert_by_In (x y : A) (l : list A) :
  In y (JS.insert_by cmp x l) <-> y = x \/ In y l.
Proof.
  induction l as [| z l IH]; simpl.
  - intuition.
  - destruct (_ <? _)%float; simpl; [intuition |]. rewrite IH. intuition.
Qed.

Lemma sort_by_In_acc (l acc : list A) (y : A) :
  In y (fold_left (fun acc x => JS.insert_by cmp x acc) l acc) <-> In y l \/ In y acc.
Proof.
  revert acc. induction l as [| x l IH]; intros acc; simpl.
  - intuition.
  - rewrite IH, insert_by_In. intuition.
Qed.

Lemma sort_by_In (l : list A) (y : A) : In y (JS.sort_by cmp l) <-> In y l.
Proof. unfold JS.sort_by. rewrite sort_by_In_acc. simpl. intuition. Qed.

Lemma sort_by_nonempty (l : list A) : l <> [] -> JS.sort_by cmp l <> [].
Proof.
  destruct l as [| x l]; [congruence |]. intros _ E.
  assert (H : In x (JS.sort_by cmp (x :: l))) by (apply sort_by_In; left; reflexivity).
  rewrite E in H. destruct H.
Qed.

End Sorting.

Section OneSymbol.

Import Confluence.

Lemma select_subset (htf_trend : string) (arr : list Signal) (s : Signal) :
  In s (fst (select htf_trend arr)) ->
  In s arr /\ (signal s = "buy" \/ signal s = "sell").
Proof.
  unfold select. cbv zeta.
  repeat match goal with
         | |- context [if ?c then _ else _] => destruct c
         end;
    cbn [fst]; rewrite ?filter_In; intros H;
    repeat match goal with
           | H : _ /\ _ |- _ => destruct H
           | H : In _ [] |- _ => destruct H
           | H : String.eqb _ _ = true |- _ => apply String.eqb_eq in H
           end; auto.
Qed.

(** The console is written, never read: the verdict on a symbol does
    not depend on what the console holds. *)
Lemma processSymbol_ignores_world (symbol : string) (arr : list Signal) (w : World) :
  fst (processSymbol symbol arr w) = Spec.verdict symbol arr.
Proof.
  unfold Spec.verdict, processSymbol.
  destruct (Nat.eqb _ 0); [reflexivity |].
  destruct (find hasRegimeData arr); [| reflexivity].
  cbv zeta.
  destruct (_ || _ || _); [reflexivity |].
  destruct (_ && _); [reflexivity |].
  destruct (select _ arr) as [filteredArr confluenceReason].
  destruct (Nat.eqb _ 0); [reflexivity |].
  destruct (byConfidence filteredArr); reflexivity.
Qed.

(** The three shapes of what one symbol pushes. *)
Lemma processSymbol_cases (symbol : string) (arr : list Signal) (w : World) :
  fst (processSymbol symbol arr w) = inr None
  \/ (exists reason regime,
        fst (processSymbol symbol arr w) = inr (Some (flatOut symbol reason regime)))
  \/ (exists htf_trend bestSignal rest,
        fst (select htf_trend arr) <> []
        /\ byConfidence (fst (select htf_trend arr)) = bestSignal :: rest
        /\ fst (processSymbol symbol arr w)
           = inr (Some (rawSignal symbol htf_trend (snd (select htf_trend arr))
                          (avgConfidence (fst (select htf_trend arr))) bestSignal))).
Proof.
  unfold processSymbol.
  destruct (Nat.eqb _ 0); [left; reflexivity |].
  right.
  destruct (find hasRegimeData arr); [| left; do 2 eexists; reflexivity].
  cbv zeta.
  destruct (_ || _ || _); [left; do 2 eexists; reflexivity |].
  destruct (_ && _); [left; do 2 eexists; reflexivity |].
  match goal with |- context [select ?t arr] => set (htf_trend := t) end.
  destruct (select htf_trend arr) as [filteredArr confluenceReason] eqn:E.
  destruct (Nat.eqb (List.length filteredArr) 0) eqn:El;
    [left; do 2 eexists; reflexivity |].
  right. exists htf_trend.
  assert (Hne : filteredArr <> []).
  { intros ->. discriminate El. }
  destruct (byConfidence filteredArr) as [| bestSignal rest] eqn:Es.
  - exfalso. revert Es. apply sort_by_nonempty, Hne.
  - exists bestSignal, rest. rewrite E. cbn [fst snd].
    repeat split; [assumption | assumption].
Qed.

(** The error branch of the [try] block is never taken by this body. *)
Lemma processSymbol_never_throws (symbol : string) (arr : list Signal) (w : World) :
  exists pushed, fst (processSymbol symbol arr w) = inr pushed.
Proof.
  destruct (processSymbol_cases symbol arr w)
    as [H | [[reason [regime H]] | [t [b [r [_ [_ H]]]]]]]; rewrite H; eexists; reflexivity.
Qed.

End OneSymbol.

(* ================================================================== *)
(** ** The confluence node: price targets *)
(* ================================================================== *)

Section PriceTargets.

Import Confluence.


Lemma rawSignal_regime (symbol htf_trend confluenceReason : string) (avg : float)
    (bestSignal : Signal) :
  regime (rawSignal symbol htf_trend confluenceReason avg bestSignal) = Some htf_trend
  /\ out_signal (rawSignal symbol htf_trend confluenceReason avg bestSignal)
     = signal bestSignal.
Proof. split; reflexivity. Qed.

(** The two scorers that derive a take-profit price write no
    [recommendedTPPips]. *)
Lemma reversion_writes_no_tp_pips (cd : CandleData) (sr : SrData) :
  recommendedTPPips (MeanReversion.Scorer_Mean_Reversion cd sr) = None.
Proof.
  unfold MeanReversion.Scorer_Mean_Reversion. cbv zeta.
  destruct (pivots sr); [| reflexivity].
  repeat match goal with
         | |- context [if ?c then _ else _] => destruct c; [reflexivity |]
         | |- context [let '(_, _) := ?p in _] => destruct p
         end.
  reflexivity.
Qed.

Lemma breakout_writes_no_tp_pips (cd : CandleData) (sr : SrData) (s : Signal) :
  Breakout.Scorer_Breakout cd sr = inr s -> recommendedTPPips s = None.
Proof.
  unfold Breakout.Scorer_Breakout. cbv zeta.
  repeat match goal with
         | |- context [if ?c then inr _ else _] =>
             destruct c; [intros E; injection E as <-; reflexivity |]
         | |- context [let '(_, _) := ?p in _] => destruct p
         end.
  destruct (pivots sr); [| discriminate].
  repeat match goal with
         | |- context [if ?c then inr _ else _] =>
             destruct c; [intros E; injection E as <-; reflexivity |]
         | |- context [let '(_, _) := ?p in _] => destruct p
         end.
  intros E; injection E as <-; reflexivity.
Qed.

End PriceTargets.



(* ================================================================== *)
(** ** The confluence node: the loop over the symbols *)
(* ================================================================== *)

Section Loop.

Import Confluence.

Variable body : string -> list Signal -> M (string + option Output).

Lemma processSymbols_results (entries : Grouped) (results : list Output) (w : World) :
  processSymbols body entries results w
  = (results ++ fst (processSymbols body entries [] w),
     snd (processSymbols body entries [] w)).
Proof.
  revert results w. induction entries as [| [symbol arr] rest IH]; intros results w.
  - cbn. rewrite app_nil_r. reflexivity.
  - cbn [processSymbols]. unfold bind.
    destruct (guarded body symbol arr w) as [pushed w1].
    rewrite IH. rewrite (IH (match pushed with Some out => [] ++ [out] | None => [] end)).
    cbn [fst snd]. destruct pushed; cbn [app]; rewrite <- ?app_assoc; reflexivity.
Qed.

Lemma processSymbols_app (before after : Grouped) (w : World) :
  processSymbols body (before ++ after) [] w
  = (fst (processSymbols body before [] w)
       ++ fst (processSymbols body after [] (snd (processSymbols body before [] w))),
     snd (processSymbols body after [] (snd (processSymbols body before [] w)))).
Proof.
  revert w. induction before as [| [symbol arr] rest IH]; intros w.
  - cbn [app processSymbols ret fst snd].
    destruct (processSymbols body after [] w). reflexivity.
  - cbn [app processSymbols]. unfold bind.
    destruct (guarded body symbol arr w) as [pushed w1].
    rewrite processSymbols_results, IH.
    rewrite (processSymbols_results rest (match pushed with
                                          | Some out => [] ++ [out]
                                          | None => []
                                          end)).
    cbn [fst snd]. rewrite app_assoc. reflexivity.
Qed.

Lemma guarded_failure (symbol : string) (arr : list Signal) (message : string)
    (w w2 : World) :
  body symbol arr w = (inl message, w2) ->
  guarded body symbol arr w
  = (Some (errorOut symbol message),
     w2 ++ [("error", [Lit "Error processing "; Lit symbol; Lit ":"; Lit message])]).
Proof. intros H. unfold guarded, bind. rewrite H. reflexivity. Qed.

End Loop.

(** C4: when processing one symbol of a batch throws, the loop goes on:
    the symbols before and after it get the outputs the loop gives them
    anyway, and the failing symbol gets one flat record whose reason holds
    the error message. *)
Theorem symbol_failure_is_isolated
    (body : string -> list Signal -> Confluence.M (string + option Confluence.Output))
    (before after : Confluence.Grouped) (symbol : string) (arr : list Signal)
    (message : string) (w w2 : Confluence.World) :
  body symbol arr (snd (Confluence.processSymbols body before [] w)) = (inl message, w2) ->
  let logged :=
    w2 ++ [("error", [Lit "Error processing "; Lit symbol; Lit ":"; Lit message])] in
  fst (Confluence.processSymbols body (before ++ (symbol, arr) :: after) [] w)
  = fst (Confluence.processSymbols body before [] w)
      ++ [Confluence.errorOut symbol message]
      ++ fst (Confluence.processSymbols body after [] logged)
  /\ Confluence.out_symbol (Confluence.errorOut symbol message) = symbol
  /\ Confluence.out_signal (Confluence.errorOut symbol message) = "flat"
  /\ In (Lit message) (Confluence.out_reason (Confluence.errorOut symbol message)).
Proof.
  intros H logged. split; [| repeat split; cbn; auto].
  rewrite processSymbols_app. cbn [fst].
  f_equal.
  cbn [Confluence.processSymbols]. unfold Confluence.bind at 1.
  rewrite (guarded_failure body symbol arr message _ w2 H).
  rewrite processSymbols_results. reflexivity.
Qed.

Lemma symbol_failure_is_isolated_witness :
  exists eur gbp,
    fst (Confluence.processSymbols (Spec.failingOn "XAU/USD" "feed corrupted")
           [("EUR/USD", Sample.scorer_outputs); ("XAU/USD", Sample.scorer_outputs);
            ("GBP/USD", [])] [] [])
    = [eur; Confluence.errorOut "XAU/USD" "feed corrupted"] ++ gbp
    /\ Confluence.out_symbol eur = "EUR/USD" /\ Confluence.out_signal eur = "buy"
    /\ gbp = [].
Proof.
  pose proof (symbol_failure_is_isolated (Spec.failingOn "XAU/USD" "feed corrupted")
                [("EUR/USD", Sample.scorer_outputs)] [("GBP/USD", [])]
                "XAU/USD" Sample.scorer_outputs "feed corrupted" []
                (snd (Confluence.processSymbols (Spec.failingOn "XAU/USD" "feed corrupted")
                        [("EUR/USD", Sample.scorer_outputs)] [] []))
                eq_refl) as [H _].
  cbn [app] in H. rewrite H.
  eexists. eexists. split; [| split; [| split]].
  - vm_compute. reflexivity.
  - reflexivity.
  - reflexivity.
  - reflexivity.
Defined.

(* ================================================================== *)
(** ** The confluence node: determinism *)
(* ================================================================== *)

Lemma processSymbols_ignores_world
    (entries : Confluence.Grouped) (results : list Confluence.Output)
    (w1 w2 : Confluence.World) :
  fst (Confluence.processSymbols Confluence.processSymbol entries results w1)
  = fst (Confluence.processSymbols Confluence.processSymbol entries results w2).
Proof.
  revert results w1 w2. induction entries as [| [symbol arr] rest IH]; intros results w1 w2.
  - reflexivity.
  - cbn [Confluence.processSymbols].
    unfold Confluence.guarded, Confluence.bind.
    pose proof (processSymbol_ignores_world symbol arr w1) as E1.
    pose proof (processSymbol_ignores_world symbol arr w2) as E2.
    destruct (Confluence.processSymbol symbol arr w1) as [r1 v1].
    destruct (Confluence.processSymbol symbol arr w2) as [r2 v2].
    cbn [fst] in E1, E2. subst r1 r2.
    destruct (Spec.verdict symbol arr) as [msg | pushed]; cbn; apply IH.
Qed.

(** C8: the confluence node is deterministic.  Its output records are a
    function of the input items alone: two runs on the same items give the
    same records whatever the console - the only state the node touches -
    held when each run began, the second run of a pair included. *)
Theorem confluence_is_deterministic (allItems : list Confluence.Item)
    (w1 w2 : Confluence.World) :
  fst (Confluence.Confluence_Stateless allItems w1)
  = fst (Confluence.Confluence_Stateless allItems w2)
  /\ fst (Confluence.Confluence_Stateless allItems
            (snd (Confluence.Confluence_Stateless allItems w1)))
     = fst (Confluence.Confluence_Stateless allItems w1).
Proof.
  assert (H : forall v1 v2,
             fst (Confluence.Confluence_Stateless allItems v1)
             = fst (Confluence.Confluence_Stateless allItems v2)).
  { intros v1 v2. unfold Confluence.Confluence_Stateless.
    destruct (Confluence.groupBySymbol allItems []) as [err | grouped]; [reflexivity |].
    unfold Confluence.bind, Confluence.ret.
    pose proof (processSymbols_ignores_world (Confluence.Object_entries grouped) [] v1 v2) as E.
    destruct (Confluence.processSymbols _ _ _ v1), (Confluence.processSymbols _ _ _ v2).
    cbn [fst] in E |- *. rewrite E. reflexivity. }
  split; apply H.
Qed.

(* ================================================================== *)
(** ** Direction and confidence of what the scorers return *)
(* ================================================================== *)

Section ScorerInvariant.

Import JS Spec.
Open Scope float_scope.

Lemma flat_record_ok (s : Signal) :
  signal s = "flat" -> confidence s = Some 0 -> signal_ok s.
Proof.
  intros Hs Hc. split; [right; right; exact Hs |].
  exists 0. split; [exact Hc |]. split; [split; reflexivity | reflexivity].
Qed.

Lemma traded_record_ok (s : Signal) (c : float) :
  signal s = "buy" \/ signal s = "sell" ->
  confidence s = Some c -> in_unit c -> signal_ok s.
Proof.
  intros Hs Hc Hu. split; [destruct Hs; [left | right; left]; assumption |].
  exists c. split; [exact Hc |]. split; [exact Hu |].
  intros Hf. rewrite Hf in Hs. destruct Hs; discriminate.
Qed.

Ltac split_ifs :=
  repeat match goal with
         | |- context [if ?c then _ else _] => destruct c
         end.

(** *** Scorer_Trend *)

Lemma trend_entry_cases (bias : string) (p e r15 r4 : float) :
  let '(sig, es, _, _, base) := Trend.entry bias p e r15 r4 in
  es = false \/ ((sig = "buy" \/ sig = "sell") /\ In base trendBases).
Proof.
  unfold Trend.entry. cbv zeta. split_ifs;
    try (left; reflexivity); right; (split; [auto | vm_compute; tauto]).
Qed.

Lemma trend_context_cases (sig : string) (p z : float) (S R : list float)
    (base : float) (r : Reason) :
  In (fst (Trend.srContext sig p z S R base r)) [base - 0.3; base + 0.2; base].
Proof.
  unfold Trend.srContext.
  destruct (String.eqb sig "buy"); [| destruct (String.eqb sig "sell")].
  - destruct (find _ R); [| destruct (find _ S)]; cbn; auto.
  - destruct (find _ S); [| destruct (find _ R)]; cbn; auto.
  - cbn; auto.
Qed.

Lemma trend_candidates_ok (v : float) :
  In v trendCandidates -> (Math_min 1.0 v <? 0.1) = false -> in_unit (Math_min 1.0 v).
Proof.
  assert (H : forallb (fun v => (Math_min 1.0 v <? 0.1)
                                || ((0 <=? Math_min 1.0 v) && (Math_min 1.0 v <=? 1)))
                trendCandidates = true) by (vm_compute; reflexivity).
  rewrite forallb_forall in H. intros Hin Hv.
  specialize (H v Hin). rewrite Hv in H. cbn [orb] in H.
  apply andb_prop in H. exact H.
Qed.

Lemma trend_signal_ok (cd : CandleData) (sr : SrData) :
  signal_ok (Trend.Scorer_Trend cd sr).
Proof.
  unfold Trend.Scorer_Trend. cbv zeta.
  destruct (_ || _ || _); [apply flat_record_ok; reflexivity |].
  destruct (_ || _ || _ || _ || _ || _); [apply flat_record_ok; reflexivity |].
  destruct (_ <? _); [apply flat_record_ok; reflexivity |].
  assert (Hflat : forall symbol reason, signal_ok (Trend.flat symbol reason sr))
    by (intros; apply flat_record_ok; reflexivity).
  destruct (_ && _); [| destruct (_ && _); [| apply Hflat]].
  all: match goal with
       | |- context [Trend.entry ?a ?b ?c ?d ?e] =>
           pose proof (trend_entry_cases a b c d e) as C;
           destruct (Trend.entry a b c d e) as [[[[sig es] ty] rs] base]
       end;
       destruct C as [-> | [Hsig Hbase]]; [apply Hflat |];
       destruct es; cbn [negb]; [| apply Hflat];
       match goal with
       | |- context [Trend.srContext ?a ?b ?c ?d ?e ?f ?g] =>
           pose proof (trend_context_cases a b c d e f g) as C;
           destruct (Trend.srContext a b c d e f g) as [base' reason']
       end;
       cbn [fst] in C;
       destruct (_ <? _) eqn:Ev; [apply Hflat |];
       destruct (Trend.targets _ _ _ _ _ _ _) as [sl tp];
       apply traded_record_ok with (c := Math_min 1.0 base');
       [exact Hsig | reflexivity |];
       apply trend_candidates_ok; [| exact Ev];
       unfold trendCandidates; apply in_flat_map; exists base; split; assumption.
Qed.

(** *** Scorer_Mean_Reversion *)

Lemma reversion_entry_cases (a pdi mdi k p u l : float) :
  let '(sig, conf, _) := MeanReversion.entry a pdi mdi k p u l 0.30 in
  sig = "flat" \/ ((sig = "buy" \/ sig = "sell") /\ In conf reversionBases).
Proof.
  unfold MeanReversion.entry. cbv zeta. split_ifs;
    try (left; reflexivity); right; (split; [auto | vm_compute; tauto]).
Qed.

Lemma reversion_bonus_cases (sig : string) (sr : SrData) (pv : Pivots)
    (p z conf : float) (r : Reason) :
  In (fst (MeanReversion.srBonus sig sr pv p z conf r)) [conf + 0.30; conf + 0.15; conf].
Proof.
  unfold MeanReversion.srBonus, MeanReversion.SR_BONUS_MAJOR, MeanReversion.SR_BONUS_MINOR.
  destruct (String.eqb sig "buy"); [| destruct (String.eqb sig "sell")].
  - destruct (find _ _) as [[lvl tier] |]; [destruct (String.eqb _ "major") |]; cbn; auto.
  - destruct (find _ _) as [[lvl tier] |]; [destruct (String.eqb _ "major") |]; cbn; auto.
  - cbn; auto.
Qed.

Lemma reversion_candidates_ok (v : float) :
  In v reversionCandidates -> (Math_min 1.0 v <? 0.30) = false -> in_unit (Math_min 1.0 v).
Proof.
  assert (H : forallb (fun v => (Math_min 1.0 v <? 0.30)
                                || ((0 <=? Math_min 1.0 v) && (Math_min 1.0 v <=? 1)))
                reversionCandidates = true) by (vm_compute; reflexivity).
  rewrite forallb_forall in H. intros Hin Hv.
  specialize (H v Hin). rewrite Hv in H. cbn [orb] in H.
  apply andb_prop in H. exact H.
Qed.

Lemma reversion_signal_ok (cd : CandleData) (sr : SrData) :
  signal_ok (MeanReversion.Scorer_Mean_Reversion cd sr).
Proof.
  assert (Hflat : forall symbol reason, signal_ok (MeanReversion.flat symbol reason sr))
    by (intros; apply flat_record_ok; reflexivity).
  unfold MeanReversion.Scorer_Mean_Reversion. cbv zeta.
  destruct (pivots sr) as [pv |]; [| apply Hflat].
  destruct (_ || _ || _); [apply Hflat |].
  destruct (_ || _ || _ || _ || _); [apply Hflat |].
  destruct (_ <? _); [apply Hflat |].
  match goal with
  | |- context [MeanReversion.entry ?a ?b ?c ?d ?e ?f ?g 0.30] =>
      pose proof (reversion_entry_cases a b c d e f g) as C;
      destruct (MeanReversion.entry a b c d e f g 0.30) as [[sig conf] rs]
  end.
  destruct C as [-> | [Hsig Hconf]]; [apply Hflat |].
  destruct (String.eqb sig "flat"); [apply Hflat |].
  match goal with
  | |- context [MeanReversion.srBonus ?a ?b ?c ?d ?e ?f ?g] =>
      pose proof (reversion_bonus_cases a b c d e f g) as C;
      destruct (MeanReversion.srBonus a b c d e f g) as [conf' reason']
  end.
  cbn [fst] in C.
  destruct (_ <? _) eqn:Ev; [apply Hflat |].
  apply traded_record_ok with (c := Math_min 1.0 conf'); [exact Hsig | reflexivity |].
  apply reversion_candidates_ok; [| exact Ev].
  unfold reversionCandidates. apply in_flat_map. exists conf. split; assumption.
Qed.

(** *** Scorer_Breakout *)

Lemma breakout_entry_cases (bias : string) (hl : bool) (pc lp r pdh pdl z : float) :
  let '(sig, conf, _) := Breakout.entry bias hl pc lp r pdh pdl z in
  sig = "flat" \/ ((sig = "buy" \/ sig = "sell") /\ conf = 0.85).
Proof.
  unfold Breakout.entry. cbv zeta. split_ifs;
    try (left; reflexivity); right; (split; [auto | reflexivity]).
Qed.

Lemma breakout_signal_ok (cd : CandleData) (sr : SrData) (s : Signal) :
  Breakout.Scorer_Breakout cd sr = inr s -> signal_ok s.
Proof.
  assert (Hflat : forall symbol reason,
             @inr string Signal (Breakout.flat symbol reason sr) = inr s -> signal_ok s)
    by (intros symbol reason E; injection E as <-; apply flat_record_ok; reflexivity).
  unfold Breakout.Scorer_Breakout. cbv zeta.
  destruct (_ || _ || _ || _ || _); [apply Hflat |].
  destruct (_ || _ || _ || _ || _); [apply Hflat |].
  destruct (_ <? _); [apply Hflat |].
  match goal with
  | |- context [Breakout.entry ?a ?b ?c ?d ?e ?f ?g ?h] =>
      pose proof (breakout_entry_cases a b c d e f g h) as C;
      destruct (Breakout.entry a b c d e f g h) as [[sig conf] rs]
  end.
  destruct C as [-> | [Hsig ->]]; [apply Hflat |].
  destruct (String.eqb sig "flat"); [apply Hflat |].
  destruct (pivots sr) as [pv |]; [| discriminate].
  match goal with
  | |- context [let '(_, _) := ?p in _] => destruct p as [slp tpp]
  end.
  destruct (negb _); [apply Hflat |].
  intros E; injection E as <-.
  apply traded_record_ok with (c := 0.85); [exact Hsig | reflexivity |].
  split; reflexivity.
Qed.

(** *** The scorers that normalize their output *)

Lemma normalize_ok (ty : string) (out : Signal) (pipSize c : float) :
  confidence out = Some c ->
  In (signal out, c) normalizedPairs ->
  signal_ok (Structure.normalizeOutputFor ty out pipSize).
Proof.
  intros Hc Hin. unfold Structure.normalizeOutputFor. cbv zeta.
  rewrite Hc.
  unfold normalizedPairs in Hin. cbn [In] in Hin.
  repeat match goal with
         | H : _ \/ _ |- _ => destruct H as [H | H]
         | H : False |- _ => destruct H
         | H : (_, _) = (_, _) |- _ => injection H as Hs <-
         end.
  all: try (eapply traded_record_ok;
            [cbn [signal]; rewrite <- Hs; solve [auto]
            | cbn [confidence]; reflexivity
            | split; vm_compute; reflexivity]).
  apply flat_record_ok; cbn [signal confidence]; [symmetry; exact Hs | reflexivity].
Qed.

Lemma bareFlat_ok (ty symbol reason : string) (pipSize : float) :
  signal_ok (Structure.normalizeOutputFor ty (Structure.bareFlat symbol reason) pipSize).
Proof.
  apply normalize_ok with (c := 0); [reflexivity |].
  cbn. tauto.
Qed.

Lemma structure_entry_cases (bias : string) (pp lp pdh pdl r : float) :
  let '(sig, conf, _) := Structure.entry bias pp lp pdh pdl r in
  In (sig, conf) normalizedPairs.
Proof.
  unfold Structure.entry. split_ifs; cbn; tauto.
Qed.

Lemma structure_signal_ok (cd : CandleData) (sr : SrData) :
  signal_ok (Structure.Scorer_Structure cd sr).
Proof.
  unfold Structure.Scorer_Structure, Structure.normalizeOutput. cbv zeta.
  destruct (_ || _ || _); [apply bareFlat_ok |].
  destruct (_ || _); [apply bareFlat_ok |].
  destruct (_ || _); [apply bareFlat_ok |].
  match goal with
  | |- context [Structure.entry ?a ?b ?c ?d ?e ?f] =>
      pose proof (structure_entry_cases a b c d e f) as C;
      destruct (Structure.entry a b c d e f) as [[sig conf] rs]
  end.
  apply normalize_ok with (c := conf); [reflexivity | exact C].
Qed.

Lemma liquidity_entry_cases (bias : string) (bull bear : list Liquidity.FVG)
    (lp a p tp : float) :
  let '(sig, conf, _, _) := Liquidity.entry bias bull bear lp a p tp in
  In (sig, conf) normalizedPairs.
Proof.
  unfold Liquidity.entry.
  repeat match goal with
         | |- context [if ?c then _ else _] => destruct c
         | |- context [match ?l with [] => _ | _ :: _ => _ end] => destruct l
         end; cbn; tauto.
Qed.

Lemma liquidity_signal_ok (cd : CandleData) (sr : SrData) :
  signal_ok (Liquidity.Scorer_Liquidity cd sr).
Proof.
  unfold Liquidity.Scorer_Liquidity, Liquidity.normalizeOutput. cbv zeta.
  destruct (_ || _ || _); [apply bareFlat_ok |].
  destruct (negb _); [apply bareFlat_ok |].
  destruct (Liquidity.findFVGs _) as [bullish bearish].
  match goal with
  | |- context [Liquidity.entry ?a ?b ?c ?d ?e ?f ?g] =>
      pose proof (liquidity_entry_cases a b c d e f g) as C;
      destruct (Liquidity.entry a b c d e f g) as [[[sig conf] rs] tp]
  end.
  apply normalize_ok with (c := conf); [reflexivity | exact C].
Qed.

Lemma vwap_entry_cases (bias : string) (lp v1 v15 z : float) :
  let '(sig, conf, _) := VWAP.entry bias lp v1 v15 z in
  In (sig, conf) normalizedPairs.
Proof.
  unfold VWAP.entry. split_ifs; cbn; tauto.
Qed.

Lemma vwap_signal_ok
    (calculateRSI : list Candle -> nat -> RsiResult)
    (calculateATR : list Candle -> nat -> AtrResult)
    (calculateEMA : list Candle -> nat -> EmaResult)
    (computeAtr4hNorm : option float -> option (list float) -> option float)
    (cd : CandleData) (sr : SrData) :
  signal_ok (VWAP.Scorer_VWAP calculateRSI calculateATR calculateEMA computeAtr4hNorm cd sr).
Proof.
  unfold VWAP.Scorer_VWAP, VWAP.normalizeOutput. cbv zeta.
  destruct (_ || _ || _ || _); [apply bareFlat_ok |].
  destruct (_ || _ || _ || _); [apply bareFlat_ok |].
  destruct (_ || _ || _); [apply bareFlat_ok |].
  match goal with
  | |- context [VWAP.entry ?a ?b ?c ?d ?e] =>
      pose proof (vwap_entry_cases a b c d e) as C;
      destruct (VWAP.entry a b c d e) as [[sig conf] rs]
  end.
  apply normalize_ok with (c := conf); [reflexivity | exact C].
Qed.

End ScorerInvariant.

(* ================================================================== *)
(** ** The confidence the confluence node reports *)
(* ================================================================== *)

Section TotalOrder.

Open Scope float_scope.

Lemma isNaN_false (x : float) : JS.isNaN x = false <-> Prim2SF x <> S754_nan.
Proof.
  unfold JS.isNaN. rewrite FloatAxioms.eqb_spec. unfold SFeqb. split.
  - intros H E. rewrite E in H. discriminate H.
  - intros H. rewrite SFcompare_refl by exact H. reflexivity.
Qed.

Lemma SFcompare_antisym (x y : spec_float) :
  SFcompare y x = option_map CompOpp (SFcompare x y).
Proof.
  destruct x as [sx | sx | | sx mx ex], y as [sy | sy | | sy my ey]; cbn;
    try reflexivity;
    try (destruct sx; reflexivity); try (destruct sy; reflexivity);
    try (destruct sx, sy; reflexivity).
  rewrite (Z.compare_antisym ex ey).
  pose proof (Pos.compare_cont_antisym mx my Eq) as Ha. cbn [CompOpp] in Ha.
  rewrite <- Ha.
  destruct sx, sy; cbn; try reflexivity;
    destruct (ex ?= ey)%Z; cbn; try reflexivity;
    destruct (Pos.compare_cont Eq mx my); reflexivity.
Qed.

Lemma SFcompare_some (x y : spec_float) :
  x <> S754_nan -> y <> S754_nan -> exists c, SFcompare x y = Some c.
Proof.
  destruct x, y; cbn; intros Hx Hy; try congruence; eexists; reflexivity.
Qed.

(** On numbers, [not (x < y)] is [y <= x]. *)
Lemma not_ltb_leb (x y : float) :
  JS.isNaN x = false -> JS.isNaN y = false -> (x <? y) = false -> (y <=? x) = true.
Proof.
  rewrite !isNaN_false, FloatAxioms.ltb_spec, FloatAxioms.leb_spec.
  unfold SFltb, SFleb. intros Hx Hy.
  rewrite (SFcompare_antisym (Prim2SF x) (Prim2SF y)).
  destruct (SFcompare_some _ _ Hx Hy) as [c ->].
  destruct c; cbn; congruence.
Qed.

(** [Math.min(1, m)] of a non-negative number lies in [0,1]. *)
Lemma Math_min_one_unit (m : float) :
  (0 <=? m) = true -> Spec.in_unit (JS.Math_min 1 m).
Proof.
  intros H. pose proof (leb_number_r 0 m H) as Hm.
  unfold JS.Math_min. rewrite Hm.
  replace (JS.isNaN 1) with false by reflexivity. cbn [orb].
  destruct (1 <? m) eqn:E1; [split; reflexivity |].
  destruct (m <? 1) eqn:E2; [split; [exact H | apply ltb_leb, E2] |].
  replace (JS.is_neg_zero 1) with false by reflexivity.
  split; [exact H |].
  apply not_ltb_leb; [reflexivity | exact Hm | exact E1].
Qed.

End TotalOrder.

Section Rounding.

Open Scope Z_scope.

Lemma shr_1_bounds (mrs : shr_record) :
  0 <= shr_m mrs -> 0 <= shr_m (shr_1 mrs) <= shr_m mrs.
Proof.
  destruct mrs as [m r s]. cbn [shr_m]. intros H.
  destruct m as [| p | p]; [cbn; lia | | lia].
  destruct p; cbn; lia.
Qed.

Lemma iter_shr_1_bounds (p : positive) (mrs : shr_record) :
  0 <= shr_m mrs -> 0 <= shr_m (iter_pos shr_1 p mrs) <= shr_m mrs.
Proof.
  revert mrs. induction p as [p IH | p IH |]; intros mrs H; cbn [iter_pos].
  - pose proof (shr_1_bounds mrs H) as H1.
    pose proof (IH _ (proj1 H1)) as H2.
    pose proof (IH _ (proj1 H2)) as H3. lia.
  - pose proof (IH _ H) as H2.
    pose proof (IH _ (proj1 H2)) as H3. lia.
  - apply shr_1_bounds, H.
Qed.

Lemma shr_fexp_bounds (m e : Z) (l : location) :
  0 <= m ->
  0 <= shr_m (fst (shr_fexp prec emax m e l)) <= m
  /\ (snd (shr_fexp prec emax m e l) = e
      \/ snd (shr_fexp prec emax m e l) = fexp prec emax (Zdigits2 m + e)).
Proof.
  intros H. unfold shr_fexp, shr.
  assert (Hm : shr_m (shr_record_of_loc m l) = m)
    by (destruct l as [| []]; reflexivity).
  destruct (fexp prec emax (Zdigits2 m + e) - e) as [| p | p] eqn:E; cbn [fst snd].
  - rewrite Hm. split; [lia | left; reflexivity].
  - split.
    + pose proof (iter_shr_1_bounds p (shr_record_of_loc m l)) as B.
      rewrite Hm in B. apply B, H.
    + right. lia.
  - rewrite Hm. split; [lia | left; reflexivity].
Qed.

Lemma round_nearest_even_bounds (m : Z) (l : location) :
  0 <= m -> m <= round_nearest_even m l <= m + 1.
Proof.
  intros H. destruct l as [| []]; cbn; try lia.
  destruct (Z.even m); lia.
Qed.

(** The sign of what rounding returns is the sign it was given. *)
Lemma binary_round_aux_sign (sx : bool) (mx ex : Z) (lx : location) :
  0 <= mx ->
  binary_round_aux prec emax sx mx ex lx = S754_zero sx
  \/ binary_round_aux prec emax sx mx ex lx = S754_infinity sx
  \/ exists m e, binary_round_aux prec emax sx mx ex lx = S754_finite sx m e.
Proof.
  intros H. unfold binary_round_aux.
  pose proof (shr_fexp_bounds mx ex lx H) as [B1 _].
  destruct (shr_fexp prec emax mx ex lx) as [mrs' e']. cbn [fst] in B1.
  pose proof (round_nearest_even_bounds (shr_m mrs') (loc_of_shr_record mrs') (proj1 B1)) as B2.
  pose proof (shr_fexp_bounds (round_nearest_even (shr_m mrs') (loc_of_shr_record mrs')) e'
                loc_Exact ltac:(lia)) as [B3 _].
  destruct (shr_fexp prec emax _ e' loc_Exact) as [mrs'' e'']. cbn [fst] in B3.
  destruct (shr_m mrs'') as [| m | m]; [left; reflexivity | | lia].
  destruct (e'' <=? emax - prec); [right; right; eauto | right; left; reflexivity].
Qed.

Lemma digits2_pos_bounds (p : positive) :
  2 ^ (Zpos (digits2_pos p) - 1) <= Zpos p < 2 ^ Zpos (digits2_pos p).
Proof.
  induction p as [p IH | p IH |]; cbn [digits2_pos].
  - rewrite Pos2Z.inj_succ.
    replace (Z.succ (Zpos (digits2_pos p)) - 1) with (Z.succ (Zpos (digits2_pos p) - 1)) by lia.
    rewrite !Z.pow_succ_r by lia. lia.
  - rewrite Pos2Z.inj_succ.
    replace (Z.succ (Zpos (digits2_pos p)) - 1) with (Z.succ (Zpos (digits2_pos p) - 1)) by lia.
    rewrite !Z.pow_succ_r by lia. lia.
  - cbn. lia.
Qed.

Lemma Zdigits2_le (x k : Z) : 0 <= x < 2 ^ k -> 0 <= k -> Zdigits2 x <= k.
Proof.
  intros [H0 H] Hk. destruct x as [| p | p]; [cbn; lia | | lia].
  cbn [Zdigits2].
  pose proof (digits2_pos_bounds p) as [B _].
  assert (L : 2 ^ (Zpos (digits2_pos p) - 1) < 2 ^ k) by lia.
  apply Z.pow_lt_mono_r_iff in L; lia.
Qed.

(** Rounding a mantissa below 2^64 at a small exponent does not overflow. *)
Lemma binary_round_aux_finite (sx : bool) (mx ex : Z) (lx : location) :
  0 <= mx < 2 ^ 64 -> ex <= 100 ->
  binary_round_aux prec emax sx mx ex lx <> S754_infinity sx.
Proof.
  intros [H0 H] He. unfold binary_round_aux.
  pose proof (shr_fexp_bounds mx ex lx H0) as [B1 E1].
  destruct (shr_fexp prec emax mx ex lx) as [mrs' e']. cbn [fst snd] in B1, E1.
  pose proof (round_nearest_even_bounds (shr_m mrs') (loc_of_shr_record mrs') (proj1 B1)) as B2.
  pose proof (shr_fexp_bounds (round_nearest_even (shr_m mrs') (loc_of_shr_record mrs')) e'
                loc_Exact ltac:(lia)) as [B3 E2].
  destruct (shr_fexp prec emax _ e' loc_Exact) as [mrs'' e'']. cbn [fst snd] in B3, E2.
  assert (D1 : Zdigits2 mx <= 64) by (apply Zdigits2_le; lia).
  assert (D2 : Zdigits2 (round_nearest_even (shr_m mrs') (loc_of_shr_record mrs')) <= 65).
  { apply Zdigits2_le; [| lia].
    change (2 ^ 65) with (2 * 2 ^ 64). lia. }
  assert (Le' : e' <= 111).
  { destruct E1 as [-> | ->]; [lia |]. unfold fexp, emin, prec, emax. lia. }
  assert (Le'' : e'' <= 123).
  { destruct E2 as [-> | ->]; [lia |]. unfold fexp, emin, prec, emax. lia. }
  destruct (shr_m mrs''); try discriminate.
  replace (e'' <=? emax - prec) with true; [discriminate |].
  symmetry. apply Z.leb_le. unfold emax, prec. lia.
Qed.

Lemma iter_xO_value (p d : positive) : Zpos (Pos.iter xO p d) = Zpos p * 2 ^ Zpos d.
Proof.
  induction d as [| d IH] using Pos.peano_ind.
  - cbn. lia.
  - rewrite Pos.iter_succ, Pos2Z.inj_succ, Z.pow_succ_r by lia.
    rewrite Pos2Z.inj_xO, IH. lia.
Qed.

(** The float of an integer below 2^63 is zero or a positive finite
    number. *)
Lemma binary_normalize_small (z : Z) :
  0 <= z < 2 ^ 63 ->
  binary_normalize prec emax z 0 false = S754_zero false
  \/ exists m e, binary_normalize prec emax z 0 false = S754_finite false m e.
Proof.
  intros [H0 H]. destruct z as [| p | p]; [left; reflexivity | | lia].
  cbn [binary_normalize]. unfold binary_round.
  destruct (shl_align p 0 (fexp prec emax (Zpos (digits2_pos p) + 0))) as [mz ez] eqn:E.
  assert (B : 0 <= Zpos mz < 2 ^ 64 /\ ez <= 100).
  { unfold shl_align in E.
    pose proof (digits2_pos_bounds p) as [_ Bp].
    destruct (fexp prec emax (Zpos (digits2_pos p) + 0) - 0) as [| d | d] eqn:Ed;
      injection E as <- <-; try (split; lia).
    split; [| unfold fexp, emin, prec, emax in *; lia].
    rewrite iter_xO_value. split; [lia |].
    assert (Hd : Zpos (digits2_pos p) + Zpos d <= 53)
      by (unfold fexp, emin, prec, emax in Ed; lia).
    apply Z.lt_le_trans with (2 ^ Zpos (digits2_pos p) * 2 ^ Zpos d).
    - apply Z.mul_lt_mono_pos_r; [apply Z.pow_pos_nonneg; lia | exact Bp].
    - rewrite <- Z.pow_add_r by lia. apply Z.pow_le_mono_r; lia. }
  destruct B as [Bm Be].
  pose proof (binary_round_aux_sign false (Zpos mz) ez loc_Exact ltac:(lia)) as S.
  pose proof (binary_round_aux_finite false (Zpos mz) ez loc_Exact Bm Be) as F.
  destruct S as [S | [S | S]]; [left; exact S | contradiction | right; exact S].
Qed.

End Rounding.

Section Signs.

Open Scope float_scope.

(** A float is at least 0 when it is a zero, plus infinity or a positive
    finite number. *)
Lemma nonneg_cases (x : float) :
  (0 <=? x) = true <->
  ((exists s, Prim2SF x = S754_zero s)
   \/ Prim2SF x = S754_infinity false
   \/ exists m e, Prim2SF x = S754_finite false m e).
Proof.
  rewrite FloatAxioms.leb_spec.
  replace (Prim2SF 0) with (S754_zero false) by reflexivity.
  unfold SFleb. destruct (Prim2SF x) as [s | s | | s m e]; cbn.
  - split; [intros _; left; eauto | reflexivity].
  - destruct s; split; try discriminate; auto.
    intros [[s E] | [E | [m [e E]]]]; discriminate.
  - split; [discriminate |]. intros [[s E] | [E | [m [e E]]]]; discriminate.
  - destruct s; split; try discriminate; eauto.
    intros [[s E] | [E | [m' [e' E]]]]; discriminate.
Qed.

Lemma add_nonneg (a b : float) :
  (0 <=? a) = true -> (0 <=? b) = true -> (0 <=? a + b) = true.
Proof.
  rewrite !nonneg_cases, FloatAxioms.add_spec. unfold SF64add, SFadd.
  intros [[sa ->] | [-> | [ma [ea ->]]]] [[sb ->] | [-> | [mb [eb ->]]]]; eauto.
  - destruct sa, sb; eauto.
  - cbn [cond_Zopp]. cbn [Z.add]. cbn [binary_normalize]. unfold binary_round.
    destruct (shl_align _ _ _) as [mz ez].
    destruct (binary_round_aux_sign false (Zpos mz) ez loc_Exact ltac:(lia))
      as [-> | [-> | [m [e ->]]]]; eauto.
Qed.

(** Dividing a float that is at least 0 by a positive finite one gives a
    float that is at least 0. *)
Lemma div_nonneg (a d : float) :
  (0 <=? a) = true -> (exists m e, Prim2SF d = S754_finite false m e) ->
  (0 <=? a / d) = true.
Proof.
  rewrite !nonneg_cases, FloatAxioms.div_spec. unfold SF64div, SFdiv.
  intros [[sa ->] | [-> | [ma [ea ->]]]] [md [ed ->]]; cbn [xorb]; eauto.
  destruct (SFdiv_core_binary prec emax (Zpos ma) ea (Zpos md) ed) as [[mz ez] lz] eqn:E.
  assert (Hq : (0 <= mz)%Z).
  { unfold SFdiv_core_binary in E. cbv zeta in E.
    match type of E with
    | (let '(q, r) := Z.div_eucl ?m' _ in _) = _ =>
        assert (Hm : (0 <= m')%Z);
        [ | pose proof (Z_div_mod m' (Zpos md) ltac:(lia)) as DM;
            destruct (Z.div_eucl m' (Zpos md)) as [q r] ]
    end.
    - destruct (_ - _ - _)%Z; try lia. apply Z.shiftl_nonneg. lia.
    - injection E as <- _ _. destruct DM as [DM1 DM2]. nia. }
  destruct (binary_round_aux_sign false mz ez lz Hq) as [-> | [-> | [m [e ->]]]]; eauto.
Qed.

Lemma of_nat_class (n : nat) :
  Prim2SF (JS.of_nat n) = S754_zero false
  \/ exists m e, Prim2SF (JS.of_nat n) = S754_finite false m e.
Proof.
  unfold JS.of_nat. rewrite FloatAxioms.of_uint63_spec.
  apply binary_normalize_small.
  pose proof (Uint63.to_Z_bounded (Uint63.of_Z (Z.of_nat n))) as B.
  unfold Uint63.wB in B. exact B.
Qed.

(** [Math.max(1, n)] for an array length [n] is a positive finite number. *)
Lemma Math_max_one_length (n : nat) :
  exists m e, Prim2SF (JS.Math_max 1 (JS.of_nat n)) = S754_finite false m e.
Proof.
  assert (One : Prim2SF 1 = S754_finite false 4503599627370496 (-52)) by reflexivity.
  assert (Hn : JS.isNaN (JS.of_nat n) = false).
  { apply isNaN_false. destruct (of_nat_class n) as [E | [m [e E]]]; rewrite E; discriminate. }
  unfold JS.Math_max. rewrite Hn.
  replace (JS.isNaN 1) with false by reflexivity. cbn [orb].
  replace (JS.is_neg_zero 1) with false by reflexivity.
  destruct (1 <? JS.of_nat n) eqn:E1; [| destruct (_ <? 1); eauto].
  destruct (of_nat_class n) as [E | E]; [| exact E].
  rewrite FloatAxioms.ltb_spec, E, One in E1. discriminate E1.
Qed.

End Signs.

Section MeanConfidence.

Import JS.
Open Scope float_scope.

Lemma or_else_nonneg (o : option float) :
  (forall c, o = Some c -> (c <? 0) = false) -> (0 <=? or_else o 0) = true.
Proof.
  intros H. destruct o as [c |]; cbn [or_else]; [| reflexivity].
  destruct (truthy c) eqn:T; [| reflexivity].
  unfold truthy in T. apply andb_prop in T. destruct T as [T _].
  apply not_ltb_leb; [unfold isNaN; rewrite T; reflexivity | reflexivity |].
  apply H. reflexivity.
Qed.

Lemma confidence_sum_nonneg (l : list Signal) (acc : float) :
  Spec.no_negative_confidence l -> (0 <=? acc) = true ->
  (0 <=? fold_left (fun a b => a + or_else (confidence b) 0) l acc) = true.
Proof.
  revert acc. induction l as [| s l IH]; intros acc Hl Hacc; cbn [fold_left].
  - exact Hacc.
  - apply IH.
    + intros s' c Hin. apply Hl. right. exact Hin.
    + apply add_nonneg; [exact Hacc |].
      apply or_else_nonneg. intros c. apply Hl. left. reflexivity.
Qed.

(** The mean of confidences none of which is negative is not negative. *)
Lemma meanConfidence_nonneg (l : list Signal) :
  Spec.no_negative_confidence l -> (0 <=? Confluence.meanConfidence l) = true.
Proof.
  intros Hl. unfold Confluence.meanConfidence.
  apply div_nonneg.
  - apply confidence_sum_nonneg; [exact Hl | reflexivity].
  - apply Math_max_one_length.
Qed.

Lemma signal_ok_not_negative (s : Signal) (c : float) :
  Spec.signal_ok s -> confidence s = Some c -> (c <? 0) = false.
Proof.
  intros [_ [c' [Hc [[H0 _] _]]]] E. rewrite E in Hc. injection Hc as <-.
  destruct (c <? 0) eqn:L; [| reflexivity].
  pose proof (ltb_number_l c 0 L) as Hn.
  pose proof (leb_number_r 0 c H0) as _.
  rewrite FloatAxioms.ltb_spec in L. rewrite FloatAxioms.leb_spec in H0.
  unfold SFltb in L. unfold SFleb in H0.
  rewrite (SFcompare_antisym (Prim2SF c) (Prim2SF 0)) in H0.
  destruct (SFcompare (Prim2SF c) (Prim2SF 0)) as [[] |]; cbn in H0; congruence.
Qed.

End MeanConfidence.

Section ConfluenceInvariant.

Import Confluence.

(** What the node pushes for a symbol is flat without a confidence, or
    a buy or sell with the capped mean of the selected confidences. *)
Lemma pushed_record_cases (symbol : string) (arr : list Signal) (w : World) (out : Output) :
  fst (processSymbol symbol arr w) = inr (Some out) ->
  (out_signal out = "flat" /\ out_confidence out = None)
  \/ ((out_signal out = "buy" \/ out_signal out = "sell")
      /\ exists selected,
          selected <> [] /\ (forall s, In s selected -> In s arr)
          /\ out_confidence out = Some (avgConfidence selected)).
Proof.
  intros H.
  destruct (processSymbol_cases symbol arr w)
    as [E | [[reason [rg E]] | [t [b [rest [Hne [Hs E]]]]]]];
    rewrite H in E.
  - discriminate E.
  - injection E as ->. left. split; reflexivity.
  - injection E as ->. right. split.
    + cbn [out_signal rawSignal].
      apply (select_subset t arr b).
      unfold byConfidence in Hs.
      eapply sort_by_In. rewrite Hs. left. reflexivity.
    + exists (fst (select t arr)). split; [exact Hne |]. split; [| reflexivity].
      intros s Hin. apply (select_subset t arr s Hin).
Qed.

End ConfluenceInvariant.

(** C1 (as amended): every signal a scorer returns has a direction that
    is exactly one of buy, sell and flat, a confidence in [0,1], and
    confidence 0 when it is flat.  Every record the confluence node pushes
    has a direction among buy, sell and flat; a flat one carries no
    confidence field, and a buy or sell carries the mean of the selected
    signals' confidences capped at 1, which lies in [0,1] whenever none of
    the selected signals has a negative confidence. *)
Theorem signals_are_well_formed (cd : CandleData) (sr : SrData) :
  Spec.signal_ok (Trend.Scorer_Trend cd sr)
  /\ (forall s, Breakout.Scorer_Breakout cd sr = inr s -> Spec.signal_ok s)
  /\ Spec.signal_ok (MeanReversion.Scorer_Mean_Reversion cd sr)
  /\ Spec.signal_ok (Structure.Scorer_Structure cd sr)
  /\ Spec.signal_ok (Liquidity.Scorer_Liquidity cd sr)
  /\ (forall calculateRSI calculateATR calculateEMA computeAtr4hNorm,
        Spec.signal_ok
          (VWAP.Scorer_VWAP calculateRSI calculateATR calculateEMA computeAtr4hNorm cd sr))
  /\ (forall symbol arr w out,
        fst (Confluence.processSymbol symbol arr w) = inr (Some out) ->
        Spec.direction_ok (Confluence.out_signal out)
        /\ (Confluence.out_signal out = "flat" -> Confluence.out_confidence out = None)
        /\ (Confluence.out_signal out <> "flat" ->
            exists selected,
              selected <> [] /\ (forall s, In s selected -> In s arr)
              /\ Confluence.out_confidence out = Some (Confluence.avgConfidence selected)
              /\ (Spec.no_negative_confidence selected ->
                  Spec.in_unit (Confluence.avgConfidence selected)))).
Proof.
  split; [apply trend_signal_ok |].
  split; [intros s; apply breakout_signal_ok |].
  split; [apply reversion_signal_ok |].
  split; [apply structure_signal_ok |].
  split; [apply liquidity_signal_ok |].
  split; [intros; apply vwap_signal_ok |].
  intros symbol arr w out H.
  destruct (pushed_record_cases symbol arr w out H)
    as [[Hs Hc] | [Hs [selected [Hne [Hsub Hc]]]]].
  - split; [right; right; exact Hs |]. split; [intros _; exact Hc |].
    intros Hn. contradiction.
  - split; [destruct Hs; [left | right; left]; assumption |].
    split; [intros Hf; rewrite Hf in Hs; destruct Hs; discriminate |].
    intros _. exists selected. repeat split; try assumption.
    + apply Math_min_one_unit, meanConfidence_nonneg. assumption.
    + apply Math_min_one_unit, meanConfidence_nonneg. assumption.
Qed.

Lemma signals_are_well_formed_witness :
  Spec.signal_ok (Trend.Scorer_Trend Sample.pipeline_bundle Sample.far_levels)
  /\ exists out,
      Spec.verdict "EUR/USD" Sample.scorer_outputs = inr (Some out)
      /\ Confluence.out_signal out = "buy"
      /\ exists c, Confluence.out_confidence out = Some c /\ Spec.in_unit c.
Proof.
  destruct (signals_are_well_formed Sample.pipeline_bundle Sample.far_levels)
    as [Ht [_ [_ [_ [_ [_ Hc]]]]]].
  split; [exact Ht |].
  destruct (Spec.verdict "EUR/USD" Sample.scorer_outputs) as [msg | [out |]] eqn:E;
    try (vm_compute in E; discriminate E).
  exists out. split; [reflexivity |].
  assert (Hs : Confluence.out_signal out = "buy").
  { vm_compute in E. injection E as <-. reflexivity. }
  split; [exact Hs |].
  destruct (Hc "EUR/USD" Sample.scorer_outputs [] out E) as [_ [_ Hn]].
  destruct Hn as [selected [_ [Hsub [Hconf Hunit]]]]; [rewrite Hs; discriminate |].
  exists (Confluence.avgConfidence selected). split; [exact Hconf |].
  apply Hunit. intros s c Hin Hcs. apply Hsub in Hin.
  unfold Sample.scorer_outputs in Hin.
  destruct Hin as [<- | [<- | [<- | [<- | []]]]];
    vm_compute in Hcs; injection Hcs as <-; vm_compute; reflexivity.
Defined.

(** C1 as stated fails on the confluence node: fed the flat signal of the
    trend scorer alone, it pushes a flat record that has no confidence
    field, where the claim asks for confidence 0. *)
Lemma confluence_flat_has_no_confidence :
  exists out,
    fst (Confluence.Confluence_Stateless
           [Confluence.ItemJson (Trend.Scorer_Trend Sample.spike_bundle Sample.far_levels)] [])
    = inr [out]
    /\ Confluence.out_signal out = "flat"
    /\ Confluence.out_confidence out = None
    /\ Confluence.out_confidence out <> Some 0%float.
Proof.
  eexists. split; [vm_compute; reflexivity |].
  split; [reflexivity |]. split; [reflexivity | discriminate].
Qed.

(** Nor does the node clamp from below: a selected signal with a negative
    confidence comes out with that confidence. *)
Example confluence_has_no_lower_clamp :
  let s :=
    {| symbol := "EUR/USD"; signal := "buy"; confidence := Some (-0.5)%float;
       price := None; recommendedSLPips := None; recommendedTPPips := None;
       recommendedSLPrice := None; recommendedTPPrice := None; reason := [];
       signalType := Some "momentum";
       indicators := Some [("rsi_4h", JNum 50); ("daily_price_above_ema_200", JBool true);
                           ("atr_4h_norm", JNum 0.5)];
       market_data := None; sr_data := None; meta := None |} in
  exists out,
    Spec.verdict "EUR/USD" [s] = inr (Some out)
    /\ Confluence.out_confidence out = Some (-0.5)%float.
Proof. eexists. split; [vm_compute; reflexivity | reflexivity]. Qed.

(* ================================================================== *)
(** ** RSI when the average loss is zero *)
(* ================================================================== *)

(** C3: on closes that only rise the Wilder-smoothed average loss is
    exactly 0.  The RSI of the trend scorer and of the structure scorer is
    then 100; the one of the mean-reversion scorer puts 100 in place of the
    gain/loss ratio and returns 100 - 100/101; the one of the breakout
    scorer does the same in its smoothing loop and divides by the zero loss
    in its seed, which on closes that do not move at all is 0/0. *)
Theorem rsi_at_zero_average_loss :
  rsi (Trend.calculateRSI Sample.rising15 14) = Some 100%float
  /\ rsi (Structure.calculateRSI (rev Sample.rising15) 14) = Some 100%float
  /\ rsi (MeanReversion.calculateRSI Sample.rising15 14) = Some (100 - 100 / 101)%float
  /\ rsi (MeanReversion.calculateRSI Sample.rising15 14) <> Some 100%float
  /\ rsi (Breakout.calculateRSI Sample.rising20 14) = Some (100 - 100 / 101)%float
  /\ rsi (Trend.calculateRSI Sample.rising20 14) = Some 100%float
  /\ rsi (Breakout.calculateRSI Sample.still15 14) = Some nan
  /\ rsi (Trend.calculateRSI Sample.still15 14) = Some 100%float.
Proof.
  repeat split; try (vm_compute; reflexivity).
  vm_compute. discriminate.
Qed.
(* ================================================================== *)
(** * Further properties of the nodes *)
(* ================================================================== *)

Import Terms.

Ltac case_ifs :=
  repeat match goal with
         | |- context [if ?c then _ else _] => destruct c
         end.

(* ================================================================== *)
(** ** Loops: measures, invariants, last values *)
(* ================================================================== *)

Section Folds.

Context {S I : Type}.

Lemma fold_left_measure (len : S -> nat) (f : S -> I -> S) (l : list I) (s : S) :
  (forall s i, len (f s i) = Datatypes.S (len s)) ->
  len (fold_left f l s) = (len s + List.length l)%nat.
Proof.
  intros Hf. revert s. induction l as [| i l IH]; intros s; simpl.
  - lia.
  - rewrite IH, Hf. lia.
Qed.

Lemma fold_left_ext_in (f g : S -> I -> S) (l : list I) (s : S) :
  (forall s i, In i l -> f s i = g s i) -> fold_left f l s = fold_left g l s.
Proof.
  revert s. induction l as [| i l IH]; intros s H; simpl; [reflexivity |].
  rewrite (H s i (or_introl eq_refl)). apply IH. intros. apply H. right. assumption.
Qed.

Lemma fold_left_rel {T : Type} (R : S -> T -> Prop) (f : S -> I -> S) (g : T -> I -> T)
    (l : list I) (s : S) (t : T) :
  R s t -> (forall s t i, In i l -> R s t -> R (f s i) (g t i)) ->
  R (fold_left f l s) (fold_left g l t).
Proof.
  revert s t. induction l as [| i l IH]; intros s t H Hstep; simpl; [exact H |].
  apply IH.
  - apply Hstep; [left; reflexivity | exact H].
  - intros. apply Hstep; [right |]; assumption.
Qed.

Lemma fold_left_inv (P : S -> Prop) (f : S -> I -> S) (l : list I) (s : S) :
  P s -> (forall s i, In i l -> P s -> P (f s i)) -> P (fold_left f l s).
Proof.
  revert s. induction l as [| i l IH]; intros s H Hstep; simpl; [exact H |].
  apply IH.
  - apply Hstep; [left; reflexivity | exact H].
  - intros. apply Hstep; [right |]; assumption.
Qed.

End Folds.

Section LastValues.

Lemma last_value_snoc (xs : list float) (x : float) : JS.last_value (xs ++ [x]) = Some x.
Proof.
  unfold JS.last_value. rewrite length_app. simpl.
  rewrite nth_error_app2 by lia.
  replace (List.length xs + 1 - 1 - List.length xs)%nat with 0%nat by lia. reflexivity.
Qed.

Lemma length_pos_some (xs : list float) :
  (0 < List.length xs)%nat -> exists x, JS.last_value xs = Some x.
Proof.
  intros H. unfold JS.last_value.
  destruct (nth_error xs (List.length xs - 1)) eqn:E; [eexists; reflexivity |].
  apply nth_error_None in E. lia.
Qed.

Lemma for_loop_append_length {A : Type} (from to : nat) (f : nat -> list A -> A)
    (init : list A) :
  List.length (JS.for_loop from to (fun i acc => acc ++ [f i acc]) init)
  = (List.length init + (to - from))%nat.
Proof. unfold JS.for_loop. rewrite fold_append_length, length_seq. reflexivity. Qed.

Lemma nth_close (l : list Candle) (i : nat) : nth i (map close l) nan = close (at_ l i).
Proof. unfold at_. change nan with (close candle0). apply map_nth. Qed.

Lemma at_In (l : list Candle) (i : nat) : (i < List.length l)%nat -> In (at_ l i) l.
Proof. intros H. unfold at_. apply nth_In. exact H. Qed.

Lemma in_snoc {A : Type} (l : list A) (x y : A) : In y (l ++ [x]) <-> In y l \/ y = x.
Proof. rewrite in_app_iff. simpl. intuition. Qed.

Lemma snoc_not_singleton {A : Type} (l : list A) (x y : A) :
  x <> y -> l ++ [x] <> [y].
Proof.
  intros H E. destruct l as [| a [| b l]]; simpl in E.
  - injection E as E. contradiction.
  - discriminate E.
  - discriminate E.
Qed.

End LastValues.

(* ================================================================== *)
(** ** When the indicator helpers have a value *)
(* ================================================================== *)

Section IndicatorBounds.

Open Scope float_scope.

Lemma trend_TR_length (candles : list Candle) (first : float) :
  List.length
    (JS.for_loop 1 (List.length candles)
       (fun i trValues =>
          trValues
            ++ [JS.Math_max3 (high (at_ candles i) - low (at_ candles i))
                  (JS.Math_abs (high (at_ candles i) - close (at_ candles (i - 1))))
                  (JS.Math_abs (low (at_ candles i) - close (at_ candles (i - 1))))])
       [first])
  = (1 + (List.length candles - 1))%nat.
Proof.
  unfold JS.for_loop.
  rewrite (fold_append_length
             (fun i (_ : list float) =>
                JS.Math_max3 (high (at_ candles i) - low (at_ candles i))
                  (JS.Math_abs (high (at_ candles i) - close (at_ candles (i - 1))))
                  (JS.Math_abs (low (at_ candles i) - close (at_ candles (i - 1)))))).
  rewrite length_seq. reflexivity.
Qed.

Lemma smoothing_length (period : nat) (tr : list float) (p : float) (first : float) :
  List.length
    (snd (JS.for_loop period (List.length tr)
            (fun i '(prevAtr, atrValues) =>
               let currentAtr := ((prevAtr * JS.of_nat (period - 1)) + nth i tr nan) / p in
               (currentAtr, atrValues ++ [currentAtr]))
            (first, [first])))
  = (1 + (List.length tr - period))%nat.
Proof.
  unfold JS.for_loop.
  rewrite (fold_left_measure (fun st : float * list float => List.length (snd st))).
  - rewrite length_seq. reflexivity.
  - intros [a vs] i. cbn [snd]. rewrite length_app. simpl. lia.
Qed.

Lemma trend_ATR_values (data : list Candle) (period : nat) :
  (period + 1 <= List.length data)%nat ->
  List.length (atr_values (Trend.calculateATR data period))
  = (List.length data - period + 1)%nat
  /\ exists a, atr (Trend.calculateATR data period) = Some a.
Proof.
  intros Hn. unfold Trend.calculateATR.
  destruct (Nat.ltb_spec (List.length data) (period + 1)); [lia |].
  cbv zeta.
  match goal with
  | |- context [JS.for_loop period (List.length ?tr) ?f ?init] =>
      pose proof (smoothing_length period tr (JS.of_nat period) (fst init)) as Hm;
      pose proof (trend_TR_length (rev data) (high (at_ (rev data) 0) - low (at_ (rev data) 0)))
        as Ht
  end.
  cbn [fst] in Hm.
  destruct (JS.for_loop period _ _ _) as [prev vals]. cbn [atr_values atr snd] in *.
  rewrite Ht, length_rev in Hm.
  split; [lia |]. apply length_pos_some. lia.
Qed.

Lemma ema_smoothing_length (period : nat) (prices : list float) (k first : float) :
  List.length
    (snd (JS.for_loop period (List.length prices)
            (fun i '(prevEma, emaValues) =>
               let ema := (nth i prices nan * k) + (prevEma * (1 - k)) in
               (ema, emaValues ++ [ema]))
            (first, [first])))
  = (1 + (List.length prices - period))%nat.
Proof.
  unfold JS.for_loop.
  rewrite (fold_left_measure (fun st : float * list float => List.length (snd st))).
  - rewrite length_seq. reflexivity.
  - intros [a vs] i. cbn [snd]. rewrite length_app. simpl. lia.
Qed.

Lemma trend_EMA_values (data : list Candle) (period : nat) :
  (period <= List.length data)%nat ->
  List.length (ema_values (Trend.calculateEMA data period))
  = (List.length data - period + 1)%nat
  /\ exists a, ema (Trend.calculateEMA data period) = Some a.
Proof.
  intros Hn. unfold Trend.calculateEMA.
  destruct (Nat.ltb_spec (List.length data) period); [lia |].
  cbv zeta.
  match goal with
  | |- context [JS.for_loop period (List.length ?pr) ?f ?init] =>
      pose proof (ema_smoothing_length period pr (2 / JS.of_nat (period + 1)) (fst init)) as Hm
  end.
  cbn [fst] in Hm.
  destruct (JS.for_loop period _ _ _) as [prev vals]. cbn [ema_values ema snd] in *.
  rewrite length_rev, length_map in Hm.
  split; [lia |]. apply length_pos_some. lia.
Qed.

End IndicatorBounds.

(** X1: the ATR helper of the momentum/pullback scorer (the breakout
    scorer carries the same one) returns null and no values when there are
    fewer than period + 1 candles, and otherwise a value and a history of
    length - period + 1 values; the helper of the mean-reversion scorer,
    which sums the seed with slice/reduce, computes the same. *)
Theorem atr_null_iff_short (data : list Candle) (period : nat) :
  (atr (Trend.calculateATR data period) = None
   <-> (List.length data < period + 1)%nat)
  /\ ((List.length data < period + 1)%nat ->
      atr_values (Trend.calculateATR data period) = [])
  /\ ((period + 1 <= List.length data)%nat ->
      List.length (atr_values (Trend.calculateATR data period))
      = (List.length data - period + 1)%nat)
  /\ MeanReversion.calculateATR data period = Trend.calculateATR data period.
Proof.
  assert (Hshort : (List.length data < period + 1)%nat ->
                   Trend.calculateATR data period = {| atr := None; atr_values := [] |}).
  { intros H. unfold Trend.calculateATR.
    destruct (Nat.ltb_spec (List.length data) (period + 1)); [reflexivity | lia]. }
  split; [| split; [| split]].
  - split.
    + intros H. destruct (Nat.lt_ge_cases (List.length data) (period + 1)) as [L | L];
        [exact L |].
      destruct (trend_ATR_values data period L) as [_ [a Ha]]. congruence.
    + intros H. rewrite (Hshort H). reflexivity.
  - intros H. rewrite (Hshort H). reflexivity.
  - intros H. apply (trend_ATR_values data period H).
  - apply reversion_ATR_is_trend_ATR.
Qed.

(** X2: the EMA helper returns null exactly when there are fewer
    candles than the period, and otherwise keeps length - period + 1
    values. *)
Theorem ema_null_iff_short (data : list Candle) (period : nat) :
  (ema (Trend.calculateEMA data period) = None <-> (List.length data < period)%nat)
  /\ ((period <= List.length data)%nat ->
      List.length (ema_values (Trend.calculateEMA data period))
      = (List.length data - period + 1)%nat).
Proof.
  split.
  - split.
    + intros H. destruct (Nat.lt_ge_cases (List.length data) period) as [L | L]; [exact L |].
      destruct (trend_EMA_values data period L) as [_ [a Ha]]. congruence.
    + intros H. unfold Trend.calculateEMA.
      destruct (Nat.ltb_spec (List.length data) period); [reflexivity | lia].
  - intros H. apply (trend_EMA_values data period H).
Qed.

(** X3: the EMA of the "standard helpers" (structure and liquidity
    scorers), which is called on the reversed candle array, is the EMA the
    momentum/pullback scorer computes on the array as it comes. *)
Theorem structure_EMA_is_trend_EMA (data : list Candle) (period : nat) :
  ema (Structure.calculateEMA (rev data) period) = ema (Trend.calculateEMA data period).
Proof.
  unfold Structure.calculateEMA, Trend.calculateEMA.
  rewrite length_rev.
  destruct (Nat.ltb (List.length data) period); [reflexivity |].
  cbv zeta. rewrite <- map_rev, length_map.
  set (d := rev data).
  assert (Hsum :
    JS.for_loop 0 period (fun i sum => (sum + nth i (map close d) nan)%float) 0%float
    = JS.for_loop 0 period (fun i ema => (ema + close (at_ d i))%float) 0%float).
  { unfold JS.for_loop. apply fold_left_ext_in. intros s i _. rewrite nth_close. reflexivity. }
  rewrite Hsum.
  set (first := (JS.for_loop 0 period _ 0 / JS.of_nat period)%float).
  unfold JS.for_loop.
  pose proof (fold_left_rel
                (fun (st : float * list float) (e : float) =>
                   fst st = e /\ JS.last_value (snd st) = Some e)
                (fun acc i =>
                   let '(prevEma, emaValues) := acc in
                   ((nth i (map close d) nan * (2 / JS.of_nat (period + 1))
                     + prevEma * (1 - 2 / JS.of_nat (period + 1)))%float,
                    emaValues
                      ++ [(nth i (map close d) nan * (2 / JS.of_nat (period + 1))
                           + prevEma * (1 - 2 / JS.of_nat (period + 1)))%float]))
                (fun ema i =>
                   (close (at_ d i) * (2 / JS.of_nat (period + 1))
                    + ema * (1 - 2 / JS.of_nat (period + 1)))%float)
                (seq period (List.length d - period))
                (first, [first]) first) as H.
  destruct (fold_left _ _ (first, [first])) as [prev vals].
  cbn [ema fst snd] in *.
  destruct H as [_ H].
  - split; reflexivity.
  - intros [p vs] e i _ [Hp _]. cbn [fst snd] in *. subst e.
    rewrite nth_close. split; [reflexivity | apply last_value_snoc].
  - replace (List.length data) with (List.length d) by apply length_rev.
    symmetry. exact H.
Qed.

Section OscillatorBounds.

Open Scope float_scope.

Ltac rsi_values_length :=
  let Hm := fresh "Hm" in
  let Hl := fresh "Hl" in
  rewrite length_rev, length_map;
  match goal with
  | |- context [Nat.ltb (List.length ?data) (?period + 1)] =>
      destruct (Nat.ltb_spec (List.length data) (period + 1)); [lia |]
  end;
  cbv zeta;
  destruct (JS.for_loop 1 _ _ _) as [? ?];
  unfold JS.for_loop;
  match goal with
  | |- context [fold_left ?f ?l ?init] =>
      pose proof (fold_left_measure
                    (fun st : float * float * list float => List.length (snd st))
                    f l init) as Hm
  end;
  destruct (fold_left _ _ _) as [[? ?] vals];
  cbn [rsi rsi_values snd] in *;
  match goal with
  | |- List.length vals = ?n /\ _ =>
      assert (Hl : List.length vals = n);
      [ rewrite Hm;
        [ rewrite length_seq; cbn [List.length]; rewrite ?length_rev, ?length_map; lia
        | intros [[? ?] ?] ?; cbn [snd]; rewrite length_app; simpl; lia ]
      | split; [exact Hl | apply length_pos_some; lia] ]
  end.

Lemma trend_RSI_values (data : list Candle) (period : nat) :
  (period + 1 <= List.length data)%nat ->
  List.length (rsi_values (Trend.calculateRSI data period)) = (List.length data - period)%nat
  /\ exists r, rsi (Trend.calculateRSI data period) = Some r.
Proof. intros Hn. unfold Trend.calculateRSI. rsi_values_length. Qed.

Lemma reversion_RSI_values (data : list Candle) (period : nat) :
  (period + 1 <= List.length data)%nat ->
  List.length (rsi_values (MeanReversion.calculateRSI data period))
  = (List.length data - period)%nat
  /\ exists r, rsi (MeanReversion.calculateRSI data period) = Some r.
Proof. intros Hn. unfold MeanReversion.calculateRSI. rsi_values_length. Qed.

Lemma breakout_RSI_values (data : list Candle) (period : nat) :
  (period + 1 <= List.length data)%nat ->
  List.length (rsi_values (Breakout.calculateRSI data period))
  = (List.length data - period)%nat
  /\ exists r, rsi (Breakout.calculateRSI data period) = Some r.
Proof. intros Hn. unfold Breakout.calculateRSI. rsi_values_length. Qed.

Lemma RSI_short (data : list Candle) (period : nat) :
  (List.length data < period + 1)%nat ->
  Trend.calculateRSI data period = {| rsi := Some 50; rsi_values := [] |}
  /\ MeanReversion.calculateRSI data period = {| rsi := Some 50; rsi_values := [] |}
  /\ Breakout.calculateRSI data period = {| rsi := Some 50; rsi_values := [] |}.
Proof.
  intros H.
  unfold Trend.calculateRSI, MeanReversion.calculateRSI, Breakout.calculateRSI.
  destruct (Nat.ltb_spec (List.length data) (period + 1)); [| lia].
  repeat split.
Qed.

Lemma stochRSI_lengths (data : list Candle) (rp sp ks ds : nat) :
  (1 <= sp)%nat -> (1 <= ks)%nat -> (1 <= ds)%nat ->
  let r := MeanReversion.calculateStochasticRSI data rp sp ks ds in
  (k r = None <-> (List.length data < rp + sp + ks - 1)%nat)
  /\ (d r = None <-> (List.length data < rp + sp + ks + ds - 2)%nat).
Proof.
  intros Hsp Hks Hds. cbv zeta.
  unfold MeanReversion.calculateStochasticRSI. cbv zeta.
  assert (HL : List.length (rsi_values (MeanReversion.calculateRSI data rp))
               = (List.length data - rp)%nat).
  { destruct (Nat.lt_ge_cases (List.length data) (rp + 1)) as [L | L].
    - destruct (RSI_short data rp L) as [_ [-> _]]. cbn. lia.
    - apply (reversion_RSI_values data rp L). }
  set (rsiValues := rsi_values (MeanReversion.calculateRSI data rp)) in *.
  destruct (Nat.ltb_spec (List.length rsiValues) sp) as [L1 | L1].
  { cbn [k d]. split; split; intros; try reflexivity; lia. }
  match goal with
  | |- context [JS.for_loop (sp - 1) (List.length rsiValues) ?f []] =>
      pose proof (for_loop_append_length (sp - 1) (List.length rsiValues)
                    (fun i (_ : list float) =>
                       let window := JS.slice (i + 1 - sp) (i + 1) rsiValues in
                       let currentRSI := nth i rsiValues nan in
                       let minRSI := JS.Math_min_list window in
                       let maxRSI := JS.Math_max_list window in
                       if 0 <? maxRSI - minRSI
                       then 100 * (currentRSI - minRSI) / (maxRSI - minRSI)
                       else 0) []) as HF;
      set (fastKValues := JS.for_loop (sp - 1) (List.length rsiValues) f []) in *
  end.
  cbv zeta in HF.
  change (JS.for_loop (sp - 1) (List.length rsiValues) _ []) with fastKValues in HF.
  cbn [List.length] in HF.
  destruct (Nat.ltb_spec (List.length fastKValues) ks) as [L2 | L2].
  { cbn [k d]. split; split; intros; try reflexivity; lia. }
  match goal with
  | |- context [JS.for_loop (ks - 1) (List.length fastKValues) ?f []] =>
      pose proof (for_loop_append_length (ks - 1) (List.length fastKValues)
                    (fun i (_ : list float) =>
                       JS.sum (JS.slice (i + 1 - ks) (i + 1) fastKValues) / JS.of_nat ks)
                    []) as HK;
      set (slowKValues := JS.for_loop (ks - 1) (List.length fastKValues) f []) in *
  end.
  change (JS.for_loop (ks - 1) (List.length fastKValues) _ []) with slowKValues in HK.
  cbn [List.length] in HK.
  assert (HkSome : exists x, JS.last_value slowKValues = Some x).
  { apply length_pos_some. lia. }
  destruct HkSome as [x Hx].
  destruct (Nat.ltb_spec (List.length slowKValues) ds) as [L3 | L3].
  { cbn [k d]. rewrite Hx. split; split; intros; try reflexivity; try discriminate; lia. }
  match goal with
  | |- context [JS.for_loop (ds - 1) (List.length slowKValues) ?f []] =>
      pose proof (for_loop_append_length (ds - 1) (List.length slowKValues)
                    (fun i (_ : list float) =>
                       JS.sum (JS.slice (i + 1 - ds) (i + 1) slowKValues) / JS.of_nat ds)
                    []) as HD;
      set (slowDValues := JS.for_loop (ds - 1) (List.length slowKValues) f []) in *
  end.
  change (JS.for_loop (ds - 1) (List.length slowKValues) _ []) with slowDValues in HD.
  cbn [List.length] in HD.
  assert (HdSome : exists y, JS.last_value slowDValues = Some y).
  { apply length_pos_some. lia. }
  destruct HdSome as [y Hy].
  cbn [k d]. rewrite Hx, Hy.
  split; split; intros; try discriminate; lia.
Qed.

Lemma BB_some (data : list Candle) (period : nat) (stdDev : float) :
  (1 <= period)%nat -> (period <= List.length data)%nat ->
  exists u m l,
    MeanReversion.calculateBollingerBands data period stdDev
    = {| upper := Some u; middle := Some m; lower := Some l |}.
Proof.
  intros Hp Hn. unfold MeanReversion.calculateBollingerBands.
  destruct (Nat.ltb_spec (List.length data) period); [lia |].
  cbv zeta. unfold JS.for_loop.
  match goal with
  | |- context [fold_left ?f ?l ?init] =>
      pose proof (fold_left_measure
                    (fun st : list float * list float => List.length (fst st))
                    f l init) as Hm
  end.
  destruct (fold_left _ _ _) as [smaValues stdDevValues].
  cbn [fst List.length] in Hm.
  rewrite length_seq, length_rev, length_map in Hm.
  rewrite Hm.
  - destruct (Nat.eqb_spec (0 + (List.length data - (period - 1))) 0); [lia |].
    do 3 eexists. reflexivity.
  - intros [a b] i. cbn [fst]. rewrite length_app. simpl. lia.
Qed.

Lemma ADX_some (data : list Candle) (period : nat) :
  (period * 2 <= List.length data)%nat ->
  exists a, adx (MeanReversion.calculateADX data period) = Some a.
Proof.
  intros Hn. unfold MeanReversion.calculateADX.
  destruct (Nat.ltb_spec (List.length data) (period * 2)); [lia |].
  cbv zeta.
  destruct (JS.for_loop 1 _ _ _) as [[trValues plusDM] minusDM].
  destruct (JS.for_loop period _ _ _) as [[smoothedTRs smoothedPlusDMs] smoothedMinusDMs].
  destruct (JS.for_loop 0 _ _ _) as [[plusDIs minusDIs] dxValues].
  cbn [adx].
  apply length_pos_some.
  rewrite for_loop_append_length. cbn [List.length]. lia.
Qed.

End OscillatorBounds.

(** X4: with fewer than period + 1 candles the RSI helpers of the
    momentum/pullback, mean-reversion and breakout scorers answer the
    neutral 50 with no history, not null; with more they return
    length - period values. *)
Theorem rsi_is_50_when_short (data : list Candle) (period : nat) :
  ((List.length data < period + 1)%nat ->
   Trend.calculateRSI data period = {| rsi := Some 50%float; rsi_values := [] |}
   /\ MeanReversion.calculateRSI data period = {| rsi := Some 50%float; rsi_values := [] |}
   /\ Breakout.calculateRSI data period = {| rsi := Some 50%float; rsi_values := [] |})
  /\ ((period + 1 <= List.length data)%nat ->
      List.length (rsi_values (Trend.calculateRSI data period))
      = (List.length data - period)%nat
      /\ List.length (rsi_values (MeanReversion.calculateRSI data period))
         = (List.length data - period)%nat
      /\ List.length (rsi_values (Breakout.calculateRSI data period))
         = (List.length data - period)%nat).
Proof.
  split; [apply RSI_short |].
  intros H. repeat split.
  - apply (trend_RSI_values data period H).
  - apply (reversion_RSI_values data period H).
  - apply (breakout_RSI_values data period H).
Qed.

(** X5: [calculateStochasticRSI] returns k = null exactly when there
    are fewer than rsiPeriod + stochPeriod + kSmooth - 1 candles, and
    d = null exactly when there are fewer than
    rsiPeriod + stochPeriod + kSmooth + dSmooth - 2 (30 and 32 for the
    scorer's 14, 14, 3, 3). *)
Theorem stochRSI_thresholds (data : list Candle) (rsiPeriod stochPeriod kSmooth dSmooth : nat) :
  (1 <= stochPeriod)%nat -> (1 <= kSmooth)%nat -> (1 <= dSmooth)%nat ->
  let r := MeanReversion.calculateStochasticRSI data rsiPeriod stochPeriod kSmooth dSmooth in
  (k r = None <-> (List.length data < rsiPeriod + stochPeriod + kSmooth - 1)%nat)
  /\ (d r = None
      <-> (List.length data < rsiPeriod + stochPeriod + kSmooth + dSmooth - 2)%nat).
Proof. apply stochRSI_lengths. Qed.

Lemma stochRSI_thresholds_witness :
  List.length Sample.oversold_15m = 50%nat
  /\ k (MeanReversion.calculateStochasticRSI Sample.oversold_15m 14 14 3 3) <> None
  /\ k (MeanReversion.calculateStochasticRSI (firstn 29 Sample.oversold_15m) 14 14 3 3) = None
  /\ d (MeanReversion.calculateStochasticRSI (firstn 31 Sample.oversold_15m) 14 14 3 3) = None.
Proof.
  split; [vm_compute; reflexivity |].
  split; [| split].
  - destruct (stochRSI_thresholds Sample.oversold_15m 14 14 3 3) as [Hk _]; try lia.
    intros E. apply Hk in E. vm_compute in E. lia.
  - destruct (stochRSI_thresholds (firstn 29 Sample.oversold_15m) 14 14 3 3) as [Hk _];
      try lia.
    apply Hk. vm_compute. lia.
  - destruct (stochRSI_thresholds (firstn 31 Sample.oversold_15m) 14 14 3 3) as [_ Hd];
      try lia.
    apply Hd. vm_compute. lia.
Defined.

(** X6: past the candle-count and pivot gate of the mean-reversion
    scorer none of its five indicators is null, so the answer 'Indicator
    calculation failed, not enough data.' is given exactly when one of them
    is 0 or NaN. *)
Theorem reversion_indicators_never_missing (cd : CandleData) (sr : SrData) :
  Spec.reversionCandles cd sr = true ->
  exists a kk u a1 a15,
    adx (MeanReversion.calculateADX (data_4h cd) 14) = Some a
    /\ k (MeanReversion.calculateStochasticRSI (data_15m cd) 14 14 3 3) = Some kk
    /\ upper (MeanReversion.calculateBollingerBands (data_15m cd) 20 2) = Some u
    /\ atr (MeanReversion.calculateATR (data_1h cd) 14) = Some a1
    /\ atr (MeanReversion.calculateATR (data_15m cd) 14) = Some a15
    /\ (MeanReversion.Scorer_Mean_Reversion cd sr
        = MeanReversion.flat (cd_symbol cd)
            [Lit "Indicator calculation failed, not enough data."] sr
        <-> JS.truthy a && JS.truthy kk && JS.truthy u && JS.truthy a1 && JS.truthy a15
            = false).
Proof.
  intros Hc.
  destruct (reversion_candles_gate cd sr Hc) as [pv [Hp Hl]].
  apply orb_false_elim in Hl. destruct Hl as [Hl H1h].
  apply orb_false_elim in Hl. destruct Hl as [H4h H15].
  apply Nat.ltb_ge in H4h, H15, H1h.
  destruct (ADX_some (data_4h cd) 14) as [a Ha]; [simpl; lia |].
  destruct (stochRSI_lengths (data_15m cd) 14 14 3 3) as [[Hk _] _]; try lia.
  destruct (k (MeanReversion.calculateStochasticRSI (data_15m cd) 14 14 3 3)) as [kk |] eqn:Ek;
    [| specialize (Hk eq_refl); simpl in Hk; lia].
  destruct (BB_some (data_15m cd) 20 2) as [u [m [l Hbb]]]; [lia | lia |].
  destruct (trend_ATR_values (data_1h cd) 14) as [_ [a1 Ha1]]; [simpl; lia |].
  destruct (trend_ATR_values (data_15m cd) 14) as [_ [a15 Ha15]]; [simpl; lia |].
  exists a, kk, u, a1, a15.
  rewrite !reversion_ATR_is_trend_ATR, Hbb.
  repeat (split; [first [assumption | reflexivity] |]).
  unfold MeanReversion.Scorer_Mean_Reversion. cbv zeta.
  rewrite Hp.
  replace (Nat.ltb (List.length (data_4h cd)) 50) with false
    by (symmetry; apply Nat.ltb_ge; assumption).
  replace (Nat.ltb (List.length (data_15m cd)) 50) with false
    by (symmetry; apply Nat.ltb_ge; assumption).
  replace (Nat.ltb (List.length (data_1h cd)) 30) with false
    by (symmetry; apply Nat.ltb_ge; assumption).
  cbn [orb].
  unfold MeanReversion.ADX_PERIOD, MeanReversion.STOCH_RSI_PERIOD,
    MeanReversion.STOCH_K_SMOOTH, MeanReversion.STOCH_D_SMOOTH,
    MeanReversion.BB_PERIOD, MeanReversion.BB_STD_DEV.
  rewrite !reversion_ATR_is_trend_ATR, Ha, Ek, Hbb, Ha1, Ha15.
  cbn [JS.truthyO upper lower middle JS.num].
  destruct (JS.truthy a); [| split; reflexivity].
  destruct (JS.truthy kk); [| split; reflexivity].
  destruct (JS.truthy u); [| split; reflexivity].
  destruct (JS.truthy a1); [| split; reflexivity].
  destruct (JS.truthy a15); [| split; reflexivity].
  cbn [negb orb andb].
  split; [| discriminate].
  destruct (_ <? _)%float; [intros E; discriminate E |].
  destruct (MeanReversion.entry _ _ _ _ _ _ _ _) as [[sg c] r].
  destruct (String.eqb sg "flat"); [intros E; discriminate E |].
  destruct (MeanReversion.srBonus _ _ _ _ _ _ _) as [c' r'].
  destruct (_ <? _)%float.
  - intros E. exfalso.
    apply (f_equal reason) in E. cbn [reason MeanReversion.flat] in E.
    revert E. apply snoc_not_singleton. discriminate.
  - intros E. apply (f_equal signalType) in E.
    cbn [signalType MeanReversion.flat] in E. discriminate E.
Qed.

Lemma reversion_indicators_never_missing_witness :
  exists kk,
    k (MeanReversion.calculateStochasticRSI (data_15m Sample.selloff_bundle) 14 14 3 3) = Some kk
    /\ JS.truthy kk = false
    /\ MeanReversion.Scorer_Mean_Reversion Sample.selloff_bundle Sample.far_levels
       = MeanReversion.flat "EUR/USD"
           [Lit "Indicator calculation failed, not enough data."] Sample.far_levels.
Proof.
  destruct (reversion_indicators_never_missing Sample.selloff_bundle Sample.far_levels)
    as [a [kk [u [a1 [a15 [Ha [Hk [Hu [H1 [H15 Hiff]]]]]]]]]]; [vm_compute; reflexivity |].
  exists kk. split; [exact Hk |].
  assert (Hkk : JS.truthy kk = false).
  { vm_compute in Hk. injection Hk as <-. vm_compute. reflexivity. }
  split; [exact Hkk |].
  apply Hiff. rewrite Hkk, andb_false_r. reflexivity.
Defined.

(* ================================================================== *)
(** ** What the scorers trade on *)
(* ================================================================== *)

Section Floors.

Open Scope float_scope.

Lemma ltb_asym (x y : float) : (x <? y) = true -> (y <? x) = false.
Proof.
  rewrite !FloatAxioms.ltb_spec. unfold SFltb.
  rewrite (SFcompare_antisym (Prim2SF x) (Prim2SF y)).
  destruct (SFcompare (Prim2SF x) (Prim2SF y)) as [[ | | ] |]; cbn; congruence.
Qed.

(** [Math.max(floor, x)] never comes out below a floor that is a number
    other than -0. *)
Lemma Math_max_floor (floor x : float) :
  JS.isNaN floor = false -> JS.is_neg_zero floor = false ->
  (JS.Math_max floor x <? floor) = false.
Proof.
  intros Hn Hz. unfold JS.Math_max. rewrite Hn. cbn [orb].
  assert (Hirr : (floor <? floor) = false).
  { rewrite FloatAxioms.ltb_spec. unfold SFltb.
    apply isNaN_false in Hn. rewrite SFcompare_refl by exact Hn. reflexivity. }
  destruct (JS.isNaN x) eqn:Ex.
  - rewrite FloatAxioms.ltb_spec. reflexivity.
  - destruct (floor <? x) eqn:E1; [apply ltb_asym; exact E1 |].
    destruct (x <? floor) eqn:E2; [exact Hirr |].
    rewrite Hz. exact Hirr.
Qed.

Lemma floor20 (x : float) : (JS.Math_max 20 x <? 20) = false.
Proof. apply Math_max_floor; reflexivity. Qed.

End Floors.

Section TrendTrades.

Open Scope float_scope.

Lemma trend_entry_direction (bias : string) (p e r15 r4 : float) :
  let '(sig, es, _, _, _) := Trend.entry bias p e r15 r4 in
  (sig = "buy" -> bias = "long") /\ (sig = "sell" -> bias = "short")
  /\ (es = false -> sig = "flat").
Proof.
  unfold Trend.entry. cbv zeta.
  destruct (String.eqb_spec bias "long") as [-> | Hl].
  - case_ifs; repeat split; intros; try discriminate; reflexivity.
  - destruct (String.eqb_spec bias "short") as [-> | Hs].
    + case_ifs; repeat split; intros; try discriminate; reflexivity.
    + repeat split; intros; try discriminate; reflexivity.
Qed.

Lemma trend_stop_floor (cd : CandleData) (sr : SrData) :
  signal (Trend.Scorer_Trend cd sr) <> "flat" ->
  exists sl, recommendedSLPips (Trend.Scorer_Trend cd sr) = Some sl /\ (sl <? 20) = false.
Proof.
  unfold Trend.Scorer_Trend. cbv zeta.
  assert (Hflat : forall symbol reason (P : Prop),
             signal (Trend.flat symbol reason sr) <> "flat" -> P)
    by (intros symbol reason P H; exfalso; apply H; reflexivity).
  destruct (_ || _ || _); [apply Hflat |].
  destruct (_ || _ || _ || _ || _ || _); [apply Hflat |].
  destruct (_ <? _); [apply Hflat |].
  destruct (_ && _); [| destruct (_ && _); [| apply Hflat]].
  all: destruct (Trend.entry _ _ _ _ _) as [[[[sig es] ty] rs] base];
       destruct (negb es); [apply Hflat |];
       destruct (Trend.srContext _ _ _ _ _ _ _) as [base' reason'];
       destruct (JS.Math_min _ _ <? _); [apply Hflat |];
       unfold Trend.targets; cbv zeta; cbn [recommendedSLPips];
       intros _; eexists; split; [reflexivity | apply floor20].
Qed.

Lemma trend_traded_indicators (cd : CandleData) (sr : SrData) :
  signal (Trend.Scorer_Trend cd sr) <> "flat" ->
  exists o, indicators (Trend.Scorer_Trend cd sr) = Some o
            /\ get o "rsi_4h" <> JUndefined
            /\ get o "daily_price_above_ema_200" = JUndefined.
Proof.
  unfold Trend.Scorer_Trend. cbv zeta.
  assert (Hflat : forall symbol reason (P : Prop),
             signal (Trend.flat symbol reason sr) <> "flat" -> P)
    by (intros symbol reason P H; exfalso; apply H; reflexivity).
  destruct (_ || _ || _); [apply Hflat |].
  destruct (_ || _ || _ || _ || _ || _); [apply Hflat |].
  destruct (_ <? _); [apply Hflat |].
  destruct (_ && _); [| destruct (_ && _); [| apply Hflat]].
  all: destruct (Trend.entry _ _ _ _ _) as [[[[sig es] ty] rs] base];
       destruct (negb es); [apply Hflat |];
       destruct (Trend.srContext _ _ _ _ _ _ _) as [base' reason'];
       destruct (JS.Math_min _ _ <? _); [apply Hflat |];
       destruct (Trend.targets _ _ _ _ _ _ _) as [sl tp];
       intros _; eexists; split; [reflexivity |]; split; [discriminate | reflexivity].
Qed.

End TrendTrades.

(** X7: the momentum/pullback scorer only trades with the 4-hour bias:
    a buy needs the 4-hour close above the 50-EMA and the 4-hour RSI above
    52, a sell the close below the EMA and the RSI below 48. *)
Theorem trend_trades_with_the_bias (cd : CandleData) (sr : SrData) :
  let out := Trend.Scorer_Trend cd sr in
  let price_4h := close (at_ (data_4h cd) 0) in
  let ema_4h := JS.num (ema (Trend.calculateEMA (data_4h cd) 50)) in
  let rsi_4h := JS.num (rsi (Trend.calculateRSI (data_4h cd) 14)) in
  (signal out = "buy" -> (ema_4h <? price_4h)%float = true /\ (52 <? rsi_4h)%float = true)
  /\ (signal out = "sell" ->
      (price_4h <? ema_4h)%float = true /\ (rsi_4h <? 48)%float = true).
Proof.
  cbv zeta. unfold Trend.Scorer_Trend. cbv zeta.
  destruct (_ || _ || _); [split; intros E; discriminate E |].
  destruct (_ || _ || _ || _ || _ || _); [split; intros E; discriminate E |].
  destruct (_ <? _)%float; [split; intros E; discriminate E |].
  destruct (_ <? close _)%float eqn:Eup; cbn [andb].
  - destruct (52 <? _)%float eqn:Er.
    + match goal with
      | |- context [Trend.entry ?a ?b ?c ?d ?e] =>
          pose proof (trend_entry_direction a b c d e) as C;
          destruct (Trend.entry a b c d e) as [[[[sig es] ty] rs] base]
      end.
      destruct C as [Hb [Hs Hf]].
      destruct es; cbn [negb]; [| split; intros E; discriminate E].
      destruct (Trend.srContext _ _ _ _ _ _ _) as [base' reason'].
      destruct (JS.Math_min _ _ <? _)%float; [split; intros E; discriminate E |].
      destruct (Trend.targets _ _ _ _ _ _ _) as [sl tp]. cbn [signal].
      split; [intros _; split; reflexivity |].
      intros E. apply Hs in E. discriminate E.
    + destruct (close _ <? _)%float eqn:Edn; cbn [andb];
        [| split; intros E; discriminate E].
      pose proof (ltb_asym _ _ Eup) as Hc. rewrite Hc in Edn. discriminate Edn.
  - destruct (close _ <? _)%float eqn:Edn; cbn [andb]; [| split; intros E; discriminate E].
    destruct (_ <? 48)%float eqn:Er; [| split; intros E; discriminate E].
    match goal with
    | |- context [Trend.entry ?a ?b ?c ?d ?e] =>
        pose proof (trend_entry_direction a b c d e) as C;
        destruct (Trend.entry a b c d e) as [[[[sig es] ty] rs] base]
    end.
    destruct C as [Hb [Hs Hf]].
    destruct es; cbn [negb]; [| split; intros E; discriminate E].
    destruct (Trend.srContext _ _ _ _ _ _ _) as [base' reason'].
    destruct (JS.Math_min _ _ <? _)%float; [split; intros E; discriminate E |].
    destruct (Trend.targets _ _ _ _ _ _ _) as [sl tp]. cbn [signal].
    split; [| intros _; split; reflexivity].
    intros E. apply Hb in E. discriminate E.
Qed.

(** On charts that climb the scorer buys, with confidence
    0.5 + 0.15 + 0.15 + 0.10. *)
Example trend_buys_on_the_climb :
  signal (Trend.Scorer_Trend Sample.trend_bundle Sample.far_levels) = "buy"
  /\ confidence (Trend.Scorer_Trend Sample.trend_bundle Sample.far_levels)
     = Some (0.5 + 0.15 + 0.15 + 0.10)%float.
Proof. split; vm_compute; reflexivity. Qed.

Section OtherStops.

Open Scope float_scope.

Lemma reversion_stop_floor (cd : CandleData) (sr : SrData) :
  signal (MeanReversion.Scorer_Mean_Reversion cd sr) <> "flat" ->
  exists sl, recommendedSLPips (MeanReversion.Scorer_Mean_Reversion cd sr) = Some sl
             /\ (sl <? 20) = false.
Proof.
  unfold MeanReversion.Scorer_Mean_Reversion. cbv zeta.
  assert (Hflat : forall symbol reason (P : Prop),
             signal (MeanReversion.flat symbol reason sr) <> "flat" -> P)
    by (intros symbol reason P H; exfalso; apply H; reflexivity).
  destruct (pivots sr); [| apply Hflat].
  destruct (_ || _ || _); [apply Hflat |].
  destruct (_ || _ || _ || _ || _); [apply Hflat |].
  destruct (_ <? _); [apply Hflat |].
  destruct (MeanReversion.entry _ _ _ _ _ _ _ _) as [[sg c] r].
  destruct (String.eqb sg "flat"); [apply Hflat |].
  destruct (MeanReversion.srBonus _ _ _ _ _ _ _) as [c' r'].
  destruct (JS.Math_min _ _ <? _); [apply Hflat |].
  cbn [recommendedSLPips]. intros _. eexists. split; [reflexivity | apply floor20].
Qed.

Lemma breakout_entry_gates (bias : string) (hl : bool) (pc lp r pdh pdl z : float) :
  let '(sig, conf, _) := Breakout.entry bias hl pc lp r pdh pdl z in
  (sig = "flat" \/ ((sig = "buy" \/ sig = "sell") /\ conf = 0.85 /\ hl = true)).
Proof.
  unfold Breakout.entry. cbv zeta.
  destruct hl; rewrite ?andb_false_r, ?andb_true_r; case_ifs;
    first [left; reflexivity | right; repeat split; auto].
Qed.

Lemma breakout_trade_shape (cd : CandleData) (sr : SrData) (s : Signal) :
  Breakout.Scorer_Breakout cd sr = inr s -> signal s <> "flat" ->
  confidence s = Some 0.85
  /\ signalType s = Some "break-and-retest"
  /\ JS.truthyO (recommendedTPPrice s) = true
  /\ recommendedTPPips s = None
  /\ (exists sl, recommendedSLPips s = Some sl /\ (sl <? 20) = false)
  /\ (exists pv, pivots sr = Some pv)
  /\ Spec.inSession (data_15m cd) = true
  /\ (exists o, indicators s = Some o
                /\ get o "rsi_4h" <> JUndefined
                /\ get o "daily_price_above_ema_200" = JUndefined).
Proof.
  unfold Breakout.Scorer_Breakout. cbv zeta.
  assert (Hflat : forall symbol reason (P : Prop),
             @inr string Signal (Breakout.flat symbol reason sr) = inr s ->
             signal s <> "flat" -> P).
  { intros symbol reason P E H. injection E as <-. exfalso. apply H. reflexivity. }
  destruct (_ || _ || _ || _ || _); [apply Hflat |].
  destruct (_ || _ || _ || _ || _); [apply Hflat |].
  destruct (_ <? _); [apply Hflat |].
  match goal with
  | |- context [Breakout.entry ?a ?b ?c ?d ?e ?f ?g ?h] =>
      pose proof (breakout_entry_gates a b c d e f g h) as C;
      destruct (Breakout.entry a b c d e f g h) as [[sig conf] rs]
  end.
  destruct C as [-> | [Hsig [-> Hs]]]; [apply Hflat |].
  destruct (String.eqb sig "flat"); [apply Hflat |].
  destruct (pivots sr) as [pv |]; [| discriminate].
  match goal with
  | |- context [let '(_, _) := ?p in _] => destruct p as [slp tpp]
  end.
  destruct (JS.truthyO tpp) eqn:Etp; cbn [negb]; [| apply Hflat].
  intros E _. injection E as <-. cbn.
  repeat split; try reflexivity.
  - exact Etp.
  - eexists. split; [reflexivity | apply floor20].
  - exists pv. reflexivity.
  - unfold Spec.inSession. unfold Breakout.isHighLiquidity in Hs. exact Hs.
  - eexists. split; [reflexivity |]. split; [discriminate | reflexivity].
Qed.


End OtherStops.

(** X8: a signal that the momentum/pullback, the mean-reversion or the
    break-and-retest scorer trades never recommends a stop-loss below 20
    pips. *)
Theorem stop_loss_floor (cd : CandleData) (sr : SrData) :
  (signal (Trend.Scorer_Trend cd sr) <> "flat" ->
   exists sl, recommendedSLPips (Trend.Scorer_Trend cd sr) = Some sl
              /\ (sl <? 20)%float = false)
  /\ (signal (MeanReversion.Scorer_Mean_Reversion cd sr) <> "flat" ->
      exists sl, recommendedSLPips (MeanReversion.Scorer_Mean_Reversion cd sr) = Some sl
                 /\ (sl <? 20)%float = false)
  /\ (forall s, Breakout.Scorer_Breakout cd sr = inr s -> signal s <> "flat" ->
        exists sl, recommendedSLPips s = Some sl /\ (sl <? 20)%float = false).
Proof.
  split; [apply trend_stop_floor |]. split; [apply reversion_stop_floor |].
  intros s E H. apply (breakout_trade_shape cd sr s E H).
Qed.


(** The retest that gives a buy at 08:00 UTC, run without a pivot
    object: the node throws. *)
Example breakout_throws_without_pivots :
  Breakout.Scorer_Breakout (Sample.retest_at 1700035200) Sample.bare_levels
  = inl "Cannot read properties of undefined (reading 'R1')".
Proof. vm_compute. reflexivity. Qed.

(* ================================================================== *)
(** ** The scorers that normalize their output *)
(* ================================================================== *)

Section Objects.

Lemma get_set_same (o : object) (key : string) (v : jsval) : get (set o key v) key = v.
Proof.
  induction o as [| [k w] o IH]; simpl.
  - rewrite String.eqb_refl. reflexivity.
  - destruct (String.eqb key k) eqn:E; simpl; rewrite E; [reflexivity | exact IH].
Qed.

Lemma get_set_other (o : object) (key key' : string) (v : jsval) :
  key' <> key -> get (set o key v) key' = get o key'.
Proof.
  intros H. induction o as [| [k w] o IH]; simpl.
  - destruct (String.eqb_spec key' key); [contradiction | reflexivity].
  - destruct (String.eqb_spec key k) as [-> | Hk]; simpl.
    + destruct (String.eqb_spec key' k); [contradiction | reflexivity].
    + destruct (String.eqb key' k); [reflexivity | exact IH].
Qed.

End Objects.

Section Normalize.

Open Scope float_scope.

Lemma or_else_number (o : option float) (d : float) :
  JS.isNaN d = false -> JS.isNaN (JS.or_else o d) = false.
Proof.
  intros Hd. unfold JS.or_else. destruct o as [x |]; [| exact Hd].
  destruct (JS.truthy x) eqn:E; [| exact Hd].
  unfold JS.truthy in E. apply andb_prop in E. destruct E as [E _].
  unfold JS.isNaN. rewrite E. reflexivity.
Qed.

Lemma clamp_unit (x : float) :
  JS.isNaN x = false -> Spec.in_unit (JS.Math_max 0 (JS.Math_min 1 x)).
Proof.
  intros Hx.
  assert (Hm : JS.isNaN (JS.Math_min 1 x) = false /\ (JS.Math_min 1 x <=? 1) = true).
  { unfold JS.Math_min. rewrite Hx.
    replace (JS.isNaN 1) with false by reflexivity. cbn [orb].
    destruct (1 <? x) eqn:E1; [split; reflexivity |].
    assert (Hle : (x <=? 1) = true) by (apply not_ltb_leb; [reflexivity | exact Hx | exact E1]).
    destruct (x <? 1); [split; assumption |].
    replace (JS.is_neg_zero 1) with false by reflexivity. split; assumption. }
  destruct Hm as [Hn Hle]. set (m := JS.Math_min 1 x) in *.
  unfold JS.Math_max. rewrite Hn.
  replace (JS.isNaN 0) with false by reflexivity. cbn [orb].
  destruct (0 <? m) eqn:E1.
  - split; [apply ltb_leb; exact E1 | exact Hle].
  - destruct (m <? 0); [split; reflexivity |].
    replace (JS.is_neg_zero 0) with false by reflexivity. split; reflexivity.
Qed.

Lemma normalize_keeps_bias (ty : string) (out : Signal) (pipSize : float)
    (o : object) (b : bool) :
  indicators out = Some o -> get o "daily_price_above_ema_200" = JBool b ->
  exists o', indicators (Structure.normalizeOutputFor ty out pipSize) = Some o'
             /\ get o' "daily_price_above_ema_200" = JBool b.
Proof.
  intros Ho Hb. unfold Structure.normalizeOutputFor. cbv zeta. cbn [indicators].
  rewrite Ho. eexists. split; [reflexivity |].
  set (o1 := if _ && _ then _ else o).
  assert (H1 : get o1 "daily_price_above_ema_200" = JBool b).
  { subst o1. destruct (_ && _); [| exact Hb].
    rewrite get_set_other by discriminate. exact Hb. }
  rewrite H1. cbn [nullish].
  destruct (nullish (get o1 "atr_4h_norm")); [| exact H1].
  rewrite get_set_other by discriminate. exact H1.
Qed.

End Normalize.

(** X10: whatever record [normalizeOutput] is given, the one it
    returns has a confidence in [0,1] (a missing, zero or NaN confidence
    becomes 0), an indicators object in which daily_price_above_ema_200 and
    atr_4h_norm are defined (null when they were missing), and the symbol,
    direction, price and reason it was given. *)
Theorem normalizeOutput_normal_form (defaultType : string) (out : Signal) (pipSize : float) :
  let n := Structure.normalizeOutputFor defaultType out pipSize in
  (exists c, confidence n = Some c /\ Spec.in_unit c)
  /\ (exists o, indicators n = Some o
                /\ get o "daily_price_above_ema_200" <> JUndefined
                /\ get o "atr_4h_norm" <> JUndefined)
  /\ symbol n = symbol out /\ signal n = signal out /\ price n = price out
  /\ reason n = reason out.
Proof.
  cbv zeta. unfold Structure.normalizeOutputFor. cbv zeta.
  cbn [confidence signalType indicators symbol signal price reason].
  split; [| split; [| repeat split]].
  - eexists. split; [reflexivity |]. apply clamp_unit, or_else_number. reflexivity.
  - eexists. split; [reflexivity |].
    match goal with
    | |- context [if nullish (get ?o "atr_4h_norm") then _ else _] => set (o2 := o)
    end.
    assert (H2 : get o2 "daily_price_above_ema_200" <> JUndefined).
    { subst o2.
      match goal with
      | |- context [if nullish (get ?o "daily_price_above_ema_200") then _ else _] =>
          destruct (get o "daily_price_above_ema_200") eqn:E; cbn [nullish];
          rewrite ?get_set_same, ?E; discriminate
      end. }
    destruct (get o2 "atr_4h_norm") eqn:E; cbn [nullish];
      rewrite ?get_set_same, ?get_set_other, ?E by discriminate;
      split; first [exact H2 | discriminate].
Qed.

(* ================================================================== *)
(** ** Fair value gaps and the liquidity scorer *)
(* ================================================================== *)

Section Gaps.

Open Scope float_scope.

Lemma findFVGs_gaps (data : list Candle) :
  (forall g, In g (fst (Liquidity.findFVGs data)) -> bullish_gap data g)
  /\ (forall g, In g (snd (Liquidity.findFVGs data)) -> bearish_gap data g).
Proof.
  unfold Liquidity.findFVGs, JS.for_loop. rewrite Nat.sub_0_r.
  apply (fold_left_inv
           (fun st : list Liquidity.FVG * list Liquidity.FVG =>
              (forall g, In g (fst st) -> bullish_gap data g)
              /\ (forall g, In g (snd st) -> bearish_gap data g))).
  - split; intros g [].
  - intros [bu be] i Hi [Hbu Hbe]. cbn [fst snd] in *.
    apply in_seq in Hi.
    destruct (high (at_ data (i + 2)) <? low (at_ data i)) eqn:E1;
      destruct (high (at_ data i) <? low (at_ data (i + 2))) eqn:E2;
      cbn [fst snd]; split; intros g Hg;
      rewrite ?in_snoc in Hg;
      try (destruct Hg as [Hg | ->]); auto;
      exists i; cbn; repeat split; try assumption; lia.
Qed.

Lemma liquidity_entry_gates (bias : string) (bullish bearish : list Liquidity.FVG)
    (last_price a pip tp : float) :
  let '(sig, conf, _, _) := Liquidity.entry bias bullish bearish last_price a pip tp in
  sig = "flat"
  \/ (sig = "buy" /\ conf = 0.60 /\ bias = "Up"
      /\ exists g, In g bullish /\ (Liquidity.top g <? last_price) = true
                   /\ (last_price - Liquidity.top g <? a * 1.0) = true)
  \/ (sig = "sell" /\ conf = 0.60 /\ bias = "Down"
      /\ exists g, In g bearish /\ (last_price <? Liquidity.bottom g) = true
                   /\ (Liquidity.bottom g - last_price <? a * 1.0) = true).
Proof.
  unfold Liquidity.entry.
  destruct (String.eqb_spec bias "Up") as [-> | Hu]; cbn [andb].
  - destruct (Nat.ltb 0 (List.length bullish)).
    + destruct (JS.sort_by _ _) as [| g rest] eqn:Es; [left; reflexivity |].
      assert (Hin : In g (JS.sort_by (fun a b => Liquidity.top b - Liquidity.top a)
                            (filter (fun fvg => Liquidity.top fvg <? last_price) bullish)))
        by (rewrite Es; left; reflexivity).
      apply sort_by_In, filter_In in Hin. destruct Hin as [Hin Ht].
      destruct (0 <? _) eqn:E0; cbn [andb]; [| left; reflexivity].
      destruct (_ <? a * 1.0) eqn:E1; [| left; reflexivity].
      right. left. repeat split. exists g. repeat split; assumption.
    + cbn. left. reflexivity.
  - destruct (String.eqb_spec bias "Down") as [-> | Hd]; cbn [andb]; [| left; reflexivity].
    destruct (Nat.ltb 0 (List.length bearish)); [| left; reflexivity].
    destruct (JS.sort_by _ _) as [| g rest] eqn:Es; [left; reflexivity |].
    assert (Hin : In g (JS.sort_by (fun a b => Liquidity.bottom a - Liquidity.bottom b)
                          (filter (fun fvg => last_price <? Liquidity.bottom fvg) bearish)))
      by (rewrite Es; left; reflexivity).
    apply sort_by_In, filter_In in Hin. destruct Hin as [Hin Ht].
    destruct (0 <? _) eqn:E0; cbn [andb]; [| left; reflexivity].
    destruct (_ <? a * 1.0) eqn:E1; [| left; reflexivity].
    right. right. repeat split. exists g. repeat split; assumption.
Qed.

End Gaps.

(** X11: every gap [findFVGs] reports lies between the high of the
    oldest and the low of the newest candle of a window of three (bullish),
    or between the high of the newest and the low of the oldest (bearish),
    with its bottom strictly below its top; fewer than three candles give
    no gap. *)
Theorem findFVGs_reports_gaps (data : list Candle) :
  (forall g, In g (fst (Liquidity.findFVGs data)) -> bullish_gap data g)
  /\ (forall g, In g (snd (Liquidity.findFVGs data)) -> bearish_gap data g)
  /\ ((List.length data < 3)%nat -> Liquidity.findFVGs data = ([], [])).
Proof.
  split; [apply findFVGs_gaps |]. split; [apply findFVGs_gaps |].
  intros H. unfold Liquidity.findFVGs, JS.for_loop.
  replace (List.length data - 2 - 0)%nat with 0%nat by lia. reflexivity.
Qed.

(** X12: the liquidity scorer only trades with the daily bias and only
    on a pullback towards a gap it has found: a buy has confidence 0.6,
    reports the daily close above the 200-EMA, and comes with a bullish gap
    whose top lies below the one-hour close by less than the one-hour ATR;
    a sell is the mirror image. *)
Theorem liquidity_trades_into_a_gap (cd : CandleData) (sr : SrData) :
  let out := Liquidity.Scorer_Liquidity cd sr in
  let last_price := close (at_ (data_1h cd) 0) in
  let reach := (JS.num (atr (Liquidity.calculateATR (rev (data_1h cd)) 14)) * 1.0)%float in
  (signal out = "buy" ->
   confidence out = Some 0.6%float
   /\ (exists o, indicators out = Some o
                 /\ get o "daily_price_above_ema_200" = JBool true)
   /\ exists g, bullish_gap (data_1h cd) g
                /\ (Liquidity.top g <? last_price)%float = true
                /\ (last_price - Liquidity.top g <? reach)%float = true)
  /\ (signal out = "sell" ->
      confidence out = Some 0.6%float
      /\ (exists o, indicators out = Some o
                    /\ get o "daily_price_above_ema_200" = JBool false)
      /\ exists g, bearish_gap (data_1h cd) g
                   /\ (last_price <? Liquidity.bottom g)%float = true
                   /\ (Liquidity.bottom g - last_price <? reach)%float = true).
Proof.
  cbv zeta. unfold Liquidity.Scorer_Liquidity. cbv zeta.
  destruct (_ || _ || _); [split; intros E; discriminate E |].
  destruct (negb _); [split; intros E; discriminate E |].
  pose proof (findFVGs_gaps (data_1h cd)) as [Hbu Hbe].
  destruct (Liquidity.findFVGs (data_1h cd)) as [bullish bearish]. cbn [fst snd] in *.
  match goal with
  | |- context [Liquidity.entry ?a ?b ?c ?d ?e ?f ?g] =>
      pose proof (liquidity_entry_gates a b c d e f g) as C;
      destruct (Liquidity.entry a b c d e f g) as [[[sig conf] rs] tp]
  end.
  destruct C as [-> | [[-> [-> [Hbias [g [Hin [Ht Hd]]]]]] | [-> [-> [Hbias [g [Hin [Ht Hd]]]]]]]].
  - split; intros E; discriminate E.
  - split; [intros _ | intros E; discriminate E].
    split; [vm_compute; reflexivity |].
    split.
    + eapply normalize_keeps_bias; [reflexivity |].
      destruct (JS.truthyO _ && _) eqn:Eb; [reflexivity | discriminate Hbias].
    + exists g. repeat split; [apply Hbu; exact Hin | exact Ht | exact Hd].
  - split; [intros E; discriminate E | intros _].
    split; [vm_compute; reflexivity |].
    split.
    + eapply normalize_keeps_bias; [reflexivity |].
      destruct (JS.truthyO _ && _) eqn:Eb; [discriminate Hbias | reflexivity].
    + exists g. repeat split; [apply Hbe; exact Hin | exact Ht | exact Hd].
Qed.

(** A one-hour chart that rises in steps leaves a gap under every bar:
    the scorer buys. *)
Example liquidity_buys_the_pullback :
  signal (Liquidity.Scorer_Liquidity Sample.structure_break Sample.structure_levels) = "buy"
  /\ List.length (fst (Liquidity.findFVGs (data_1h Sample.structure_break))) = 48%nat.
Proof. split; vm_compute; reflexivity. Qed.

(* ================================================================== *)
(** ** The structure scorer and the VWAP scorer *)
(* ================================================================== *)

Section StructureTrades.

Open Scope float_scope.

Lemma structure_entry_gates (bias : string) (prev last pdh pdl r : float) :
  let '(sig, conf, _) := Structure.entry bias prev last pdh pdl r in
  sig = "flat"
  \/ (sig = "buy" /\ (prev <? pdh) = true /\ (pdh <? last) = true /\ (55 <? r) = true
      /\ ((bias = "Up" /\ conf = 0.70) \/ (bias = "Down" /\ conf = 0.65)))
  \/ (sig = "sell" /\ (pdl <? prev) = true /\ (last <? pdl) = true /\ (r <? 45) = true
      /\ ((bias = "Down" /\ conf = 0.70) \/ (bias = "Up" /\ conf = 0.65))).
Proof.
  unfold Structure.entry.
  destruct (String.eqb_spec bias "Up") as [-> | Hu].
  - destruct (prev <? pdh) eqn:E1; cbn [andb].
    + destruct (pdh <? last) eqn:E2; cbn [andb].
      * destruct (55 <? r) eqn:E3; [right; left; repeat split; left; split; reflexivity |].
        destruct (pdl <? prev) eqn:E4; cbn [andb]; [| left; reflexivity].
        destruct (last <? pdl) eqn:E5; cbn [andb]; [| left; reflexivity].
        destruct (r <? 45) eqn:E6; [| left; reflexivity].
        right; right; repeat split; right; split; reflexivity.
      * destruct (pdl <? prev) eqn:E4; cbn [andb]; [| left; reflexivity].
        destruct (last <? pdl) eqn:E5; cbn [andb]; [| left; reflexivity].
        destruct (r <? 45) eqn:E6; [| left; reflexivity].
        right; right; repeat split; right; split; reflexivity.
    + destruct (pdl <? prev) eqn:E4; cbn [andb]; [| left; reflexivity].
      destruct (last <? pdl) eqn:E5; cbn [andb]; [| left; reflexivity].
      destruct (r <? 45) eqn:E6; [| left; reflexivity].
      right; right; repeat split; right; split; reflexivity.
  - destruct (String.eqb_spec bias "Down") as [-> | Hd]; [| left; reflexivity].
    destruct (pdl <? prev) eqn:E4; cbn [andb].
    + destruct (last <? pdl) eqn:E5; cbn [andb].
      * destruct (r <? 45) eqn:E6; [right; right; repeat split; left; split; reflexivity |].
        destruct (prev <? pdh) eqn:E1; cbn [andb]; [| left; reflexivity].
        destruct (pdh <? last) eqn:E2; cbn [andb]; [| left; reflexivity].
        destruct (55 <? r) eqn:E3; [| left; reflexivity].
        right; left; repeat split; right; split; reflexivity.
      * destruct (prev <? pdh) eqn:E1; cbn [andb]; [| left; reflexivity].
        destruct (pdh <? last) eqn:E2; cbn [andb]; [| left; reflexivity].
        destruct (55 <? r) eqn:E3; [| left; reflexivity].
        right; left; repeat split; right; split; reflexivity.
    + destruct (prev <? pdh) eqn:E1; cbn [andb]; [| left; reflexivity].
      destruct (pdh <? last) eqn:E2; cbn [andb]; [| left; reflexivity].
      destruct (55 <? r) eqn:E3; [| left; reflexivity].
      right; left; repeat split; right; split; reflexivity.
Qed.

End StructureTrades.

(** X13: the structure scorer buys only when the previous one-hour
    close is below the previous day's high, the current one above it and
    the one-hour RSI above 55, with confidence 0.7 when the daily close is
    above the 200-EMA (break of structure) and 0.65 when it is not (change
    of character); a sell is the mirror image on the previous day's low. *)
Theorem structure_trades_on_a_break (cd : CandleData) (sr : SrData) :
  let out := Structure.Scorer_Structure cd sr in
  let last := close (at_ (data_1h cd) 0) in
  let prev := close (at_ (data_1h cd) 1) in
  let rsi_1h := JS.num (rsi (Structure.calculateRSI (rev (data_1h cd)) 14)) in
  (signal out = "buy" ->
   (prev <? JS.num (pdh sr))%float = true /\ (JS.num (pdh sr) <? last)%float = true
   /\ (55 <? rsi_1h)%float = true
   /\ exists o b, indicators out = Some o
        /\ get o "daily_price_above_ema_200" = JBool b
        /\ confidence out = Some (if b then 0.7 else 0.65)%float)
  /\ (signal out = "sell" ->
      (JS.num (pdl sr) <? prev)%float = true /\ (last <? JS.num (pdl sr))%float = true
      /\ (rsi_1h <? 45)%float = true
      /\ exists o b, indicators out = Some o
           /\ get o "daily_price_above_ema_200" = JBool b
           /\ confidence out = Some (if b then 0.65 else 0.7)%float).
Proof.
  cbv zeta. unfold Structure.Scorer_Structure. cbv zeta.
  destruct (_ || _ || _); [split; intros E; discriminate E |].
  destruct (negb (JS.truthyO (pdh sr)) || _); [split; intros E; discriminate E |].
  destruct (negb (JS.truthyO (atr _)) || _); [split; intros E; discriminate E |].
  match goal with
  | |- context [Structure.entry ?a ?b ?c ?d ?e ?f] =>
      pose proof (structure_entry_gates a b c d e f) as C;
      destruct (Structure.entry a b c d e f) as [[sig conf] rs]
  end.
  unfold Structure.normalizeOutput.
  destruct C as [-> | [[-> [H1 [H2 [H3 Hc]]]] | [-> [H1 [H2 [H3 Hc]]]]]].
  - split; intros E; discriminate E.
  - split; [intros _ | intros E; discriminate E].
    repeat (split; [assumption |]).
    destruct (JS.truthyO _ && _) eqn:Eb;
      match goal with
      | |- context [Structure.normalizeOutputFor ?ty ?f ?p] =>
          destruct (normalize_keeps_bias ty f p _ _ eq_refl eq_refl) as [o [Ho Hg]]
      end.
    + exists o, true. split; [exact Ho |]. split; [exact Hg |].
      destruct Hc as [[_ ->] | [Hb _]]; [vm_compute; reflexivity | discriminate Hb].
    + exists o, false. split; [exact Ho |]. split; [exact Hg |].
      destruct Hc as [[Hb _] | [_ ->]]; [discriminate Hb | vm_compute; reflexivity].
  - split; [intros E; discriminate E | intros _].
    repeat (split; [assumption |]).
    destruct (JS.truthyO _ && _) eqn:Eb;
      match goal with
      | |- context [Structure.normalizeOutputFor ?ty ?f ?p] =>
          destruct (normalize_keeps_bias ty f p _ _ eq_refl eq_refl) as [o [Ho Hg]]
      end.
    + exists o, true. split; [exact Ho |]. split; [exact Hg |].
      destruct Hc as [[Hb _] | [_ ->]]; [discriminate Hb | vm_compute; reflexivity].
    + exists o, false. split; [exact Ho |]. split; [exact Hg |].
      destruct Hc as [[_ ->] | [Hb _]]; [vm_compute; reflexivity | discriminate Hb].
Qed.

(** X14: when the newest 15-minute or the newest one-hour candle
    carries no volume (or volume 0), the VWAP scorer returns a flat signal
    with confidence 0, for want of candles or with the veto on missing
    volume, whatever its standard helpers compute; [calculateVWAP] is null
    on such an array. *)
Theorem vwap_flat_without_volume
    (calculateRSI : list Candle -> nat -> RsiResult)
    (calculateATR : list Candle -> nat -> AtrResult)
    (calculateEMA : list Candle -> nat -> EmaResult)
    (computeAtr4hNorm : option float -> option (list float) -> option float)
    (cd : CandleData) (sr : SrData) :
  JS.truthyO (volume (at_ (data_15m cd) 0)) = false
  \/ JS.truthyO (volume (at_ (data_1h cd) 0)) = false ->
  let out := VWAP.Scorer_VWAP calculateRSI calculateATR calculateEMA computeAtr4hNorm cd sr in
  signal out = "flat" /\ confidence out = Some 0%float
  /\ (reason out = [Lit "Not enough candle data"]
      \/ reason out = [Lit "VETO: Candle data is missing `volume` or `typical` properties."])
  /\ VWAP.calculateVWAP
       (if JS.truthyO (volume (at_ (data_15m cd) 0)) then data_1h cd else data_15m cd)
     = None.
Proof.
  intros Hv. cbv zeta. unfold VWAP.Scorer_VWAP. cbv zeta.
  assert (Hvwap : VWAP.calculateVWAP
                    (if JS.truthyO (volume (at_ (data_15m cd) 0))
                     then data_1h cd else data_15m cd) = None).
  { destruct (JS.truthyO (volume (at_ (data_15m cd) 0))) eqn:E15.
    - destruct Hv as [Hv | Hv]; [discriminate Hv |].
      unfold VWAP.calculateVWAP. destruct (data_1h cd) as [| c0 l]; [reflexivity |].
      unfold at_ in Hv. cbn [nth] in Hv. rewrite Hv. cbn [negb]. rewrite orb_true_r.
      reflexivity.
    - unfold VWAP.calculateVWAP. destruct (data_15m cd) as [| c0 l]; [reflexivity |].
      unfold at_ in E15. cbn [nth] in E15. rewrite E15. cbn [negb]. rewrite orb_true_r.
      reflexivity. }
  destruct (_ || _ || _ || _).
  - repeat split; first [reflexivity | left; reflexivity | exact Hvwap].
  - assert (Hg : (negb (JS.truthyO (volume (at_ (data_15m cd) 0)))
                  || negb (JS.truthyO (typical (at_ (data_15m cd) 0)))
                  || negb (JS.truthyO (volume (at_ (data_1h cd) 0)))
                  || negb (JS.truthyO (typical (at_ (data_1h cd) 0)))) = true).
    { destruct Hv as [-> | ->]; cbn [negb orb]; rewrite ?orb_true_r; reflexivity. }
    rewrite Hg.
    repeat split; first [reflexivity | right; reflexivity | exact Hvwap].
Qed.

Lemma vwap_flat_without_volume_witness :
  signal (VWAP.Scorer_VWAP Structure.calculateRSI Structure.calculateATR
            Structure.calculateEMA Structure.computeAtr4hNorm
            Sample.pipeline_bundle Sample.far_levels) = "flat"
  /\ reason (VWAP.Scorer_VWAP Structure.calculateRSI Structure.calculateATR
               Structure.calculateEMA Structure.computeAtr4hNorm
               Sample.pipeline_bundle Sample.far_levels)
     = [Lit "VETO: Candle data is missing `volume` or `typical` properties."].
Proof.
  destruct (vwap_flat_without_volume Structure.calculateRSI Structure.calculateATR
              Structure.calculateEMA Structure.computeAtr4hNorm
              Sample.pipeline_bundle Sample.far_levels) as [Hs _];
    [left; vm_compute; reflexivity |].
  split; [exact Hs | vm_compute; reflexivity].
Defined.

(* ================================================================== *)
(** ** The confluence node: grouping and one record per symbol *)
(* ================================================================== *)

Section Grouping.

Import Confluence.

Lemma lookup_push (s : string) (d : Signal) (g : Grouped) (k : string) :
  lookup (push_group s d g) k
  = if String.eqb k s
    then Some (match lookup g s with Some a => a ++ [d] | None => [d] end)
    else lookup g k.
Proof.
  induction g as [| [k' arr] g IH]; simpl.
  - destruct (String.eqb k s); reflexivity.
  - destruct (String.eqb_spec s k') as [-> | Hs]; simpl.
    + destruct (String.eqb k k'); reflexivity.
    + rewrite IH. destruct (String.eqb_spec k k') as [-> | Hk].
      * destruct (String.eqb_spec k' s); [congruence | reflexivity].
      * reflexivity.
Qed.

Lemma keys_push (s : string) (d : Signal) (g : Grouped) (k : string) :
  In k (map fst (push_group s d g)) <-> k = s \/ In k (map fst g).
Proof.
  induction g as [| [k' arr] g IH]; simpl.
  - intuition.
  - destruct (String.eqb_spec s k') as [-> | Hs]; simpl.
    + intuition.
    + rewrite IH. intuition.
Qed.

Lemma nodup_push (s : string) (d : Signal) (g : Grouped) :
  NoDup (map fst g) -> NoDup (map fst (push_group s d g)).
Proof.
  induction g as [| [k' arr] g IH]; simpl; intros H.
  - constructor; [intros [] | constructor].
  - inversion H as [| ? ? Hn Hd]; subst.
    destruct (String.eqb_spec s k') as [-> | Hs]; simpl.
    + constructor; assumption.
    + constructor; [| apply IH; assumption].
      rewrite keys_push. intros [E | E]; [congruence | contradiction].
Qed.

Lemma lookup_In (g : Grouped) (s : string) (arr : list Signal) :
  NoDup (map fst g) -> (In (s, arr) g <-> lookup g s = Some arr).
Proof.
  induction g as [| [k a] g IH]; simpl; intros H.
  - split; [intros [] | discriminate].
  - inversion H as [| ? ? Hn Hd]; subst.
    destruct (String.eqb_spec s k) as [-> | Hs].
    + split.
      * intros [E | E]; [injection E as ->; reflexivity |].
        exfalso. apply Hn. apply (in_map fst) in E. exact E.
      * intros E. injection E as ->. left. reflexivity.
    + rewrite <- (IH Hd). split.
      * intros [E | E]; [injection E as -> _; congruence | exact E].
      * intros E. right. exact E.
Qed.

Lemma ofSymbol_snoc (s : string) (l : list Signal) (d : Signal) :
  ofSymbol s (l ++ [d])
  = ofSymbol s l ++ (if String.eqb (symbol d) s then [d] else []).
Proof. unfold ofSymbol. rewrite filter_app. reflexivity. Qed.

Lemma push_filters (g : Grouped) (sofar : list Signal) (d : Signal) :
  grouped_as_filters g sofar ->
  grouped_as_filters (push_group (symbol d) d g) (sofar ++ [d]).
Proof.
  intros [Hn Hl]. split; [apply nodup_push; exact Hn |].
  intros s. rewrite lookup_push, ofSymbol_snoc.
  destruct (String.eqb_spec s (symbol d)) as [-> | Hs].
  - rewrite String.eqb_refl, Hl.
    destruct (ofSymbol (symbol d) sofar); reflexivity.
  - destruct (String.eqb_spec (symbol d) s); [congruence |].
    rewrite app_nil_r. apply Hl.
Qed.

Lemma kept_cons (it : Item) (rest : list Item) :
  kept (it :: rest)
  = match payload it with
    | Some d => if String.eqb (symbol d) "" then [] else [d]
    | None => []
    end ++ kept rest.
Proof. reflexivity. Qed.

Lemma groupBySymbol_filters (allItems : list Item) (g grouped : Grouped)
    (sofar : list Signal) :
  groupBySymbol allItems g = inr grouped ->
  grouped_as_filters g sofar ->
  grouped_as_filters grouped (sofar ++ kept allItems).
Proof.
  revert g sofar. induction allItems as [| it rest IH]; intros g sofar.
  - cbn [groupBySymbol]. intros E H. injection E as <-.
    unfold kept. cbn [flat_map]. rewrite app_nil_r. exact H.
  - cbn [groupBySymbol]. rewrite kept_cons.
    destruct (payload it) as [dd |]; [| apply IH].
    destruct (String.eqb (symbol dd) ""); [apply IH |].
    destruct (existsb _ inherited_keys); [discriminate |].
    intros E H. rewrite app_assoc.
    apply (IH _ _ E). apply push_filters. exact H.
Qed.

Lemma groupBySymbol_succeeds (allItems : list Item) (g : Grouped) :
  (forall d, In d (kept allItems) -> ~ In (symbol d) inherited_keys) ->
  exists grouped, groupBySymbol allItems g = inr grouped.
Proof.
  revert g. induction allItems as [| it rest IH]; intros g H.
  - eexists; reflexivity.
  - cbn [groupBySymbol]. rewrite kept_cons in H.
    destruct (payload it) as [dd |]; [| apply IH; exact H].
    destruct (String.eqb (symbol dd) "") eqn:E; [apply IH; exact H |].
    destruct (existsb (String.eqb (symbol dd)) inherited_keys) eqn:Ex.
    + exfalso. apply existsb_exists in Ex. destruct Ex as [k [Hk Ek]].
      apply String.eqb_eq in Ek. subst k.
      apply (H dd); [left; reflexivity | exact Hk].
    + apply IH. intros d Hd. apply H. right. exact Hd.
Qed.

Lemma groups_of (allItems : list Item) (grouped : Grouped) :
  groupBySymbol allItems [] = inr grouped ->
  NoDup (map fst grouped)
  /\ (forall s arr,
        In (s, arr) grouped <-> arr <> [] /\ arr = ofSymbol s (kept allItems)).
Proof.
  intros E.
  destruct (groupBySymbol_filters allItems [] grouped [] E) as [Hn Hl].
  { split; [constructor | intros s; reflexivity]. }
  cbn [app] in Hl. split; [exact Hn |].
  intros s arr. rewrite (lookup_In grouped s arr Hn), Hl.
  destruct (ofSymbol s (kept allItems)) as [| x f].
  - split; [discriminate | intros [H1 H2]; congruence].
  - split.
    + intros H. injection H as <-. split; [discriminate | reflexivity].
    + intros [_ ->]. reflexivity.
Qed.

Lemma processSymbol_nonempty (symbol : string) (arr : list Signal) (w : World) :
  arr <> [] ->
  exists out, fst (processSymbol symbol arr w) = inr (Some out) /\ out_symbol out = symbol.
Proof.
  intros Hne.
  destruct (processSymbol_cases symbol arr w)
    as [H | [[reason [regime H]] | [t [b [rest [_ [_ H]]]]]]].
  - exfalso. revert H. unfold processSymbol.
    destruct arr as [| x arr]; [congruence |]. cbn [List.length Nat.eqb].
    destruct (find hasRegimeData (x :: arr)); [| discriminate].
    cbv zeta.
    destruct (_ || _ || _); [discriminate |].
    destruct (_ && _); [discriminate |].
    destruct (select _ _) as [f c].
    destruct (Nat.eqb _ 0); [discriminate |].
    destruct (byConfidence f); discriminate.
  - eexists. split; [exact H | reflexivity].
  - eexists. split; [exact H | reflexivity].
Qed.

Lemma insert_index_perm {A : Type} (n : N) (x : A) (l : list (N * A)) :
  Permutation (insert_index n x l) ((n, x) :: l).
Proof.
  induction l as [| [m y] l IH]; simpl; [reflexivity |].
  destruct (n <? m)%N; [reflexivity |].
  rewrite IH. apply perm_swap.
Qed.

Lemma indexed_perm (g : Grouped) (acc : list (N * (string * list Signal))) :
  Permutation
    (map snd (fold_left (fun acc e => match array_index (fst e) with
                                      | Some n => insert_index n e acc
                                      | None => acc
                                      end) g acc))
    (map snd acc
       ++ filter (fun e => match array_index (fst e) with Some _ => true | None => false end) g).
Proof.
  revert acc. induction g as [| e g IH]; intros acc; simpl.
  - rewrite app_nil_r. reflexivity.
  - rewrite IH. destruct (array_index (fst e)) as [n |].
    + rewrite (Permutation_map snd (insert_index_perm n e acc)). simpl.
      apply Permutation_middle.
    + reflexivity.
Qed.

Lemma filter_split_perm {A : Type} (p : A -> bool) (l : list A) :
  Permutation (filter p l ++ filter (fun x => negb (p x)) l) l.
Proof.
  induction l as [| x l IH]; simpl; [reflexivity |].
  destruct (p x); simpl.
  - constructor. exact IH.
  - rewrite <- Permutation_middle. constructor. exact IH.
Qed.

Lemma Object_entries_perm (g : Grouped) : Permutation (Object_entries g) g.
Proof.
  unfold Object_entries. rewrite indexed_perm. cbn [map app].
  rewrite <- (filter_split_perm
                (fun e => match array_index (fst e) with Some _ => true | None => false end) g)
    at 3.
  apply Permutation_app_head.
  erewrite filter_ext; [reflexivity |].
  intros e. cbv beta. destruct (array_index (fst e)); reflexivity.
Qed.

Lemma processSymbols_one_each (entries : Grouped) (w : World) :
  (forall s arr, In (s, arr) entries -> arr <> []) ->
  map out_symbol (fst (processSymbols processSymbol entries [] w)) = map fst entries.
Proof.
  revert w. induction entries as [| [s arr] rest IH]; intros w H; [reflexivity |].
  cbn [processSymbols]. unfold bind at 1.
  destruct (processSymbol_nonempty s arr w) as [out [Ho Hs]];
    [apply (H s arr); left; reflexivity |].
  unfold guarded, bind.
  destruct (processSymbol s arr w) as [r w1]. cbn [fst] in Ho. subst r.
  cbn [ret]. rewrite processSymbols_results. cbn [fst app map].
  rewrite Hs, IH; [reflexivity |].
  intros s' arr' Hin. apply (H s' arr'). right. exact Hin.
Qed.

End Grouping.

(** X15: the grouping loop of the confluence node, when it completes,
    leaves one key per symbol, and under each key exactly the records of
    that symbol among the items that are there and name a symbol, in the
    order they came; there is no key without a record. *)
Theorem grouping_is_filtering (allItems : list Confluence.Item)
    (grouped : Confluence.Grouped) :
  Confluence.groupBySymbol allItems [] = inr grouped ->
  NoDup (map fst grouped)
  /\ (forall s arr,
        In (s, arr) grouped <-> arr <> [] /\ arr = ofSymbol s (kept allItems)).
Proof. apply groups_of. Qed.

Lemma grouping_is_filtering_witness :
  exists grouped,
    Confluence.groupBySymbol Sample.two_symbols [] = inr grouped
    /\ map fst grouped = ["EUR/USD"; "GBP/USD"]
    /\ In ("EUR/USD", Sample.scorer_outputs) grouped.
Proof.
  destruct (Confluence.groupBySymbol Sample.two_symbols []) as [msg | grouped] eqn:E;
    [vm_compute in E; discriminate E |].
  exists grouped. split; [reflexivity |].
  split; [vm_compute in E; injection E as <-; reflexivity |].
  apply (grouping_is_filtering Sample.two_symbols grouped E).
  split; [discriminate | vm_compute; reflexivity].
Defined.

(** X16: on a batch in which no symbol is the name of a property every
    JavaScript object inherits, the confluence node runs to the end and
    returns exactly one record for every symbol that occurs in the batch,
    and none for any other. *)
Theorem one_record_per_symbol (allItems : list Confluence.Item) (w : Confluence.World) :
  (forall d, In d (kept allItems) -> ~ In (symbol d) Confluence.inherited_keys) ->
  exists results,
    fst (Confluence.Confluence_Stateless allItems w) = inr results
    /\ NoDup (map Confluence.out_symbol results)
    /\ (forall s, In s (map Confluence.out_symbol results)
                  <-> exists d, In d (kept allItems) /\ symbol d = s).
Proof.
  intros Hk.
  destruct (groupBySymbol_succeeds allItems [] Hk) as [grouped Hg].
  destruct (groups_of allItems grouped Hg) as [Hn Hin].
  unfold Confluence.Confluence_Stateless. rewrite Hg.
  unfold Confluence.bind, Confluence.ret.
  pose proof (processSymbols_one_each (Confluence.Object_entries grouped) w) as Hone.
  destruct (Confluence.processSymbols Confluence.processSymbol
              (Confluence.Object_entries grouped) [] w) as [results w1].
  cbn [fst] in *. exists results. split; [reflexivity |].
  assert (Hsym : map Confluence.out_symbol results
                 = map fst (Confluence.Object_entries grouped)).
  { apply Hone. intros s arr Hi.
    apply (Permutation_in _ (Object_entries_perm grouped)) in Hi.
    apply Hin in Hi. tauto. }
  assert (Hperm : Permutation (map fst (Confluence.Object_entries grouped)) (map fst grouped))
    by (apply Permutation_map, Object_entries_perm).
  rewrite Hsym. split.
  - apply (Permutation_NoDup (Permutation_sym Hperm)). exact Hn.
  - intros s. split.
    + intros Hs. apply (Permutation_in _ Hperm) in Hs.
      apply in_map_iff in Hs. destruct Hs as [[s' arr] [<- Hi]]. cbn [fst].
      apply Hin in Hi. destruct Hi as [Hne ->].
      destruct (ofSymbol s' (kept allItems)) as [| d f] eqn:E; [congruence |].
      assert (Hd : In d (ofSymbol s' (kept allItems))) by (rewrite E; left; reflexivity).
      unfold ofSymbol in Hd. apply filter_In in Hd. destruct Hd as [Hd Hs].
      apply String.eqb_eq in Hs. exists d. split; assumption.
    + intros [d [Hd <-]].
      apply (Permutation_in _ (Permutation_sym Hperm)).
      apply in_map_iff. exists (symbol d, ofSymbol (symbol d) (kept allItems)).
      split; [reflexivity |]. apply Hin. split; [| reflexivity].
      assert (Hx : In d (ofSymbol (symbol d) (kept allItems))).
      { unfold ofSymbol. apply filter_In. split; [exact Hd | apply String.eqb_refl]. }
      intros E. rewrite E in Hx. destruct Hx.
Qed.

Lemma one_record_per_symbol_witness :
  exists results,
    fst (Confluence.Confluence_Stateless Sample.two_symbols []) = inr results
    /\ NoDup (map Confluence.out_symbol results)
    /\ In "GBP/USD" (map Confluence.out_symbol results).
Proof.
  destruct (one_record_per_symbol Sample.two_symbols []) as [results [E [Hn Hs]]].
  - intros d Hd.
    assert (Hsym : symbol d = "EUR/USD" \/ symbol d = "GBP/USD").
    { vm_compute in Hd.
      repeat (destruct Hd as [<- | Hd]; [auto |]). destruct Hd. }
    destruct Hsym as [-> | ->]; vm_compute; intuition discriminate.
  - exists results. split; [exact E |]. split; [exact Hn |].
    apply Hs. exists (Structure.bareFlat "GBP/USD" "Not enough candle data").
    split; [| reflexivity].
    unfold Sample.two_symbols, kept. rewrite flat_map_app. apply in_or_app. right.
    cbn. left. reflexivity.
Defined.

(* ================================================================== *)
(** ** The confluence node: regime and selection *)
(* ================================================================== *)

Section Selection.

Import Confluence.

Lemma existsb_false_In {A : Type} (p : A -> bool) (l : list A) (x : A) :
  existsb p l = false -> In x l -> p x = false.
Proof.
  intros H Hin. destruct (p x) eqn:E; [| reflexivity].
  assert (Ht : existsb p l = true) by (apply existsb_exists; exists x; split; assumption).
  congruence.
Qed.

Lemma isReversion_type (s : Signal) : isReversion s = true -> signalType s = Some "reversion".
Proof.
  unfold isReversion. destruct (signalType s) as [t |]; [| discriminate].
  intros H. apply String.eqb_eq in H. subst t. reflexivity.
Qed.

Lemma select_up (arr : list Signal) (b : Signal) :
  In b (fst (select "Up" arr)) -> signal b = "sell" ->
  signalType b = Some "reversion"
  /\ forall s, In s arr -> signal s = "buy" ->
               hasType TECHNICAL_SCORERS s = false /\ hasType DYNAMIC_SCORERS s = false.
Proof.
  unfold select. cbv zeta. cbn [String.eqb Ascii.eqb Bool.eqb andb].
  set (buys := filter (fun s => String.eqb (signal s) "buy") arr).
  set (sells := filter (fun s => String.eqb (signal s) "sell") arr).
  destruct (existsb (hasType TECHNICAL_SCORERS) buys) eqn:Et; cbn [orb fst].
  { intros Hin Hs. apply filter_In in Hin. destruct Hin as [_ Hb].
    apply String.eqb_eq in Hb. congruence. }
  destruct (existsb (hasType DYNAMIC_SCORERS) buys) eqn:Ed; cbn [fst].
  { intros Hin Hs. apply filter_In in Hin. destruct Hin as [_ Hb].
    apply String.eqb_eq in Hb. congruence. }
  destruct (existsb isReversion sells); cbn [fst]; [| intros []].
  intros Hin _. apply filter_In in Hin. destruct Hin as [_ Hr].
  split; [apply isReversion_type; exact Hr |].
  intros s Hs Hb.
  assert (Hin : In s buys).
  { apply filter_In. split; [exact Hs | apply String.eqb_eq; exact Hb]. }
  split; eapply existsb_false_In; eassumption.
Qed.

Lemma select_down (arr : list Signal) (b : Signal) :
  In b (fst (select "Down" arr)) -> signal b = "buy" ->
  signalType b = Some "reversion"
  /\ forall s, In s arr -> signal s = "sell" ->
               hasType TECHNICAL_SCORERS s = false /\ hasType DYNAMIC_SCORERS s = false.
Proof.
  unfold select. cbv zeta. cbn [String.eqb Ascii.eqb Bool.eqb andb].
  set (buys := filter (fun s => String.eqb (signal s) "buy") arr).
  set (sells := filter (fun s => String.eqb (signal s) "sell") arr).
  destruct (existsb (hasType TECHNICAL_SCORERS) sells) eqn:Et; cbn [orb fst].
  { intros Hin Hs. apply filter_In in Hin. destruct Hin as [_ Hb].
    apply String.eqb_eq in Hb. congruence. }
  destruct (existsb (hasType DYNAMIC_SCORERS) sells) eqn:Ed; cbn [fst].
  { intros Hin Hs. apply filter_In in Hin. destruct Hin as [_ Hb].
    apply String.eqb_eq in Hb. congruence. }
  destruct (existsb isReversion buys); cbn [fst]; [| intros []].
  intros Hin _. apply filter_In in Hin. destruct Hin as [_ Hr].
  split; [apply isReversion_type; exact Hr |].
  intros s Hs Hb.
  assert (Hin : In s sells).
  { apply filter_In. split; [exact Hs | apply String.eqb_eq; exact Hb]. }
  split; eapply existsb_false_In; eassumption.
Qed.

Lemma find_skips {A : Type} (p : A -> bool) (pre : list A) (x : A) (rest : list A) :
  (forall y, In y pre -> p y = false) -> p x = true ->
  find p (pre ++ x :: rest) = Some x.
Proof.
  intros Hpre Hx. induction pre as [| y pre IH]; simpl.
  - rewrite Hx. reflexivity.
  - rewrite (Hpre y (or_introl eq_refl)). apply IH. intros z Hz. apply Hpre. right. exact Hz.
Qed.

Lemma regime_source_without_daily (symbol : string) (pre rest : list Signal) (s : Signal)
    (o : object) :
  (forall y, In y pre -> hasRegimeData y = false) ->
  indicators s = Some o -> get o "rsi_4h" <> JUndefined ->
  get o "daily_price_above_ema_200" = JUndefined ->
  Spec.verdict symbol (pre ++ s :: rest) = inr (Some (missingRegimeData symbol)).
Proof.
  intros Hpre Ho Hr Hd. unfold Spec.verdict, processSymbol.
  replace (Nat.eqb (List.length (pre ++ s :: rest)) 0) with false
    by (rewrite length_app; simpl; symmetry; apply Nat.eqb_neq; lia).
  rewrite (find_skips hasRegimeData pre s rest Hpre).
  - rewrite Ho. cbv zeta. rewrite Hd. cbn [nullish orb].
    rewrite orb_true_r. reflexivity.
  - unfold hasRegimeData. rewrite Ho. destruct (get o "rsi_4h"); congruence.
Qed.

End Selection.

(** X17: the confluence node takes a trade against the regime only
    from a reversion signal: a sell in regime Up, or a buy in regime Down,
    has strategy type "reversion", and no technical or dynamic signal was
    there in the direction of the regime. *)
Theorem counter_trend_is_reversion (symbol : string) (arr : list Signal)
    (w : Confluence.World) (out : Confluence.Output) :
  fst (Confluence.processSymbol symbol arr w) = inr (Some out) ->
  (Confluence.regime out = Some "Up" -> Confluence.out_signal out = "sell" ->
   Confluence.strategyType out = Some "reversion"
   /\ forall s, In s arr -> signal s = "buy" ->
                Confluence.hasType Confluence.TECHNICAL_SCORERS s = false
                /\ Confluence.hasType Confluence.DYNAMIC_SCORERS s = false)
  /\ (Confluence.regime out = Some "Down" -> Confluence.out_signal out = "buy" ->
      Confluence.strategyType out = Some "reversion"
      /\ forall s, In s arr -> signal s = "sell" ->
                   Confluence.hasType Confluence.TECHNICAL_SCORERS s = false
                   /\ Confluence.hasType Confluence.DYNAMIC_SCORERS s = false).
Proof.
  intros H.
  destruct (processSymbol_cases symbol arr w)
    as [E | [[reason [rg E]] | [t [b [rest [Hne [Hs E]]]]]]];
    rewrite H in E.
  - discriminate E.
  - injection E as ->. split; intros _ Hf; discriminate Hf.
  - injection E as ->.
    assert (Hin : In b (fst (Confluence.select t arr))).
    { unfold Confluence.byConfidence in Hs. eapply sort_by_In. rewrite Hs. left. reflexivity. }
    cbn [Confluence.regime Confluence.out_signal Confluence.strategyType Confluence.rawSignal].
    split; intros Ht Hd; injection Ht as ->.
    + apply select_up; assumption.
    + apply select_down; assumption.
Qed.

Lemma counter_trend_is_reversion_witness :
  exists out,
    Spec.verdict "EUR/USD" Sample.rally_outputs = inr (Some out)
    /\ Confluence.regime out = Some "Up"
    /\ Confluence.out_signal out = "sell"
    /\ Confluence.strategyType out = Some "reversion".
Proof.
  destruct (Spec.verdict "EUR/USD" Sample.rally_outputs) as [msg | [out |]] eqn:E;
    try (vm_compute in E; discriminate E).
  exists out. split; [reflexivity |].
  assert (Hr : Confluence.regime out = Some "Up")
    by (vm_compute in E; injection E as <-; reflexivity).
  assert (Hs : Confluence.out_signal out = "sell")
    by (vm_compute in E; injection E as <-; reflexivity).
  split; [exact Hr |]. split; [exact Hs |].
  destruct (counter_trend_is_reversion "EUR/USD" Sample.rally_outputs [] out E) as [Hup _].
  apply (Hup Hr Hs).
Defined.

(** X18: the regime is read from the first signal of the symbol whose
    indicators carry rsi_4h.  A signal that the momentum/pullback or the
    break-and-retest scorer trades carries rsi_4h but neither
    daily_price_above_ema_200 nor atr_4h_norm: when it comes before every
    other signal with rsi_4h, the node vetoes the symbol for missing
    indicator data, whatever else is in the batch. *)
Theorem traded_trend_signal_first_vetoes (symbol : string) (cd : CandleData) (sr : SrData)
    (pre rest : list Signal) :
  (forall y, In y pre -> Confluence.hasRegimeData y = false) ->
  (signal (Trend.Scorer_Trend cd sr) <> "flat" ->
   Spec.verdict symbol (pre ++ Trend.Scorer_Trend cd sr :: rest)
   = inr (Some (missingRegimeData symbol)))
  /\ (forall s, Breakout.Scorer_Breakout cd sr = inr s -> signal s <> "flat" ->
        Spec.verdict symbol (pre ++ s :: rest) = inr (Some (missingRegimeData symbol))).
Proof.
  intros Hpre. split.
  - intros H. destruct (trend_traded_indicators cd sr H) as [o [Ho [Hr Hd]]].
    apply (regime_source_without_daily symbol pre rest _ o Hpre Ho Hr Hd).
  - intros s E H.
    destruct (breakout_trade_shape cd sr s E H) as [_ [_ [_ [_ [_ [_ [_ [o [Ho [Hr Hd]]]]]]]]]].
    apply (regime_source_without_daily symbol pre rest _ o Hpre Ho Hr Hd).
Qed.

Lemma traded_trend_signal_first_vetoes_witness :
  signal (Trend.Scorer_Trend Sample.trend_bundle Sample.far_levels) = "buy"
  /\ Spec.verdict "EUR/USD"
       [MeanReversion.Scorer_Mean_Reversion Sample.trend_bundle Sample.far_levels;
        Trend.Scorer_Trend Sample.trend_bundle Sample.far_levels;
        Liquidity.Scorer_Liquidity Sample.trend_bundle Sample.far_levels]
     = inr (Some (missingRegimeData "EUR/USD")).
Proof.
  split; [vm_compute; reflexivity |].
  destruct (traded_trend_signal_first_vetoes "EUR/USD" Sample.trend_bundle Sample.far_levels
              [MeanReversion.Scorer_Mean_Reversion Sample.trend_bundle Sample.far_levels]
              [Liquidity.Scorer_Liquidity Sample.trend_bundle Sample.far_levels])
    as [H _].
  - intros y [<- | []]. vm_compute. reflexivity.
  - apply H. vm_compute. discriminate.
Defined.

(** The same three signals with the liquidity scorer's first: the node
    reads the regime from it and passes the buy on. *)
Example regime_source_depends_on_order :
  exists out,
    Spec.verdict "EUR/USD"
      [Liquidity.Scorer_Liquidity Sample.trend_bundle Sample.far_levels;
       MeanReversion.Scorer_Mean_Reversion Sample.trend_bundle Sample.far_levels;
       Trend.Scorer_Trend Sample.trend_bundle Sample.far_levels]
    = inr (Some out)
    /\ Confluence.out_signal out = "buy" /\ Confluence.regime out = Some "Up".
Proof. eexists. split; [vm_compute; reflexivity | split; reflexivity]. Qed.

(* ================================================================== *)
(** ** The combiner *)
(* ================================================================== *)

Section Combiner.

Open Scope float_scope.

Lemma parses_fields (c : Candle) :
  parses c = true ->
  JS.isNaN (high c) = false /\ JS.isNaN (low c) = false /\ JS.isNaN (close c) = false.
Proof.
  unfold parses. intros H.
  apply andb_prop in H. destruct H as [H Hc].
  apply andb_prop in H. destruct H as [Hh Hl].
  apply negb_true_iff in Hh, Hl, Hc. auto.
Qed.

Lemma combiner_ATR_is_trend_ATR (data : list Candle) (period : nat) :
  forallb parses data = true ->
  MTF.calculateATR data period = Trend.calculateATR data period.
Proof.
  intros Hp. rewrite forallb_forall in Hp.
  assert (Hc : forall i, (i < List.length data)%nat ->
                 JS.isNaN (high (at_ (rev data) i)) = false
                 /\ JS.isNaN (low (at_ (rev data) i)) = false
                 /\ JS.isNaN (close (at_ (rev data) i)) = false).
  { intros i Hi. apply parses_fields, Hp. apply in_rev, at_In.
    rewrite length_rev. exact Hi. }
  unfold MTF.calculateATR, Trend.calculateATR.
  destruct (Nat.ltb_spec (List.length data) (period + 1)) as [L | L]; [reflexivity |].
  destruct (Hc 0%nat) as [Hh [Hl _]]; [lia |].
  rewrite Hh, Hl. cbn [orb]. cbv zeta.
  assert (Htr :
    JS.for_loop 1 (List.length (rev data))
      (fun i trValues =>
         if JS.isNaN (high (at_ (rev data) i)) || JS.isNaN (low (at_ (rev data) i))
            || JS.isNaN (close (at_ (rev data) (i - 1)))
         then trValues
         else trValues
                ++ [JS.Math_max3 (high (at_ (rev data) i) - low (at_ (rev data) i))
                      (JS.Math_abs (high (at_ (rev data) i) - close (at_ (rev data) (i - 1))))
                      (JS.Math_abs (low (at_ (rev data) i) - close (at_ (rev data) (i - 1))))])
      [high (at_ (rev data) 0) - low (at_ (rev data) 0)]
    = JS.for_loop 1 (List.length (rev data))
        (fun i trValues =>
           trValues
             ++ [JS.Math_max3 (high (at_ (rev data) i) - low (at_ (rev data) i))
                   (JS.Math_abs (high (at_ (rev data) i) - close (at_ (rev data) (i - 1))))
                   (JS.Math_abs (low (at_ (rev data) i) - close (at_ (rev data) (i - 1))))])
        [high (at_ (rev data) 0) - low (at_ (rev data) 0)]).
  { unfold JS.for_loop. apply fold_left_ext_in. intros s i Hi.
    apply in_seq in Hi. rewrite length_rev in Hi.
    destruct (Hc i) as [H1 [H2 _]]; [lia |].
    destruct (Hc (i - 1)%nat) as [_ [_ H3]]; [lia |].
    rewrite H1, H2, H3. reflexivity. }
  rewrite Htr.
  rewrite trend_TR_length, length_rev.
  destruct (Nat.ltb_spec (1 + (List.length data - 1)) period); [lia | reflexivity].
Qed.

Lemma slice_last_length {A : Type} (n : nat) (xs : list A) :
  List.length (MTF.slice_last n xs) = Nat.min n (List.length xs).
Proof. unfold MTF.slice_last. rewrite length_skipn. lia. Qed.

Lemma hist_length (items : list MTF.Item) (c : MTF.Combined) :
  MTF.MTF_Combiner items = inr c ->
  MTF.hist_atr_4h c
  = MTF.slice_last 90
      (atr_values (MTF.calculateATR (MTF.s_values (MTF.getData (nth 3 items None) "4h")) 14)).
Proof.
  unfold MTF.MTF_Combiner. destruct (Nat.ltb _ 5); [discriminate |].
  cbv zeta. intros E. injection E as <-. reflexivity.
Qed.

End Combiner.

(** X19: on candles whose high, low and close all parse, the ATR of
    the combiner, which skips the candles it cannot parse, is the ATR the
    scorers compute: value and history. *)
Theorem combiner_ATR_agrees (data : list Candle) (period : nat) :
  forallb parses data = true ->
  MTF.calculateATR data period = Trend.calculateATR data period
  /\ MTF.calculateATR data period = MeanReversion.calculateATR data period.
Proof.
  intros H. rewrite reversion_ATR_is_trend_ATR.
  split; apply combiner_ATR_is_trend_ATR; exact H.
Qed.

Lemma combiner_ATR_agrees_witness :
  forallb parses Sample.flat_4h = true
  /\ atr (MTF.calculateATR Sample.flat_4h 14) = atr (Trend.calculateATR Sample.flat_4h 14)
  /\ exists a, atr (MTF.calculateATR Sample.flat_4h 14) = Some a.
Proof.
  split; [vm_compute; reflexivity |].
  destruct (combiner_ATR_agrees Sample.flat_4h 14) as [H _]; [vm_compute; reflexivity |].
  split; [rewrite H; reflexivity |].
  eexists. vm_compute. reflexivity.
Defined.

(** X20: the history of the 4-hour ATR the combiner hands on never has
    more than 90 values.  When every 4-hour candle parses it has none for
    fewer than 15 candles and min(90, n - 13) for n of them; so the scorers
    can rank the current ATR in it (twenty values are needed) exactly when
    there are at least 33 4-hour candles. *)
Theorem hist_atr_4h_window (items : list MTF.Item) (c : MTF.Combined) :
  MTF.MTF_Combiner items = inr c ->
  let series := MTF.s_values (MTF.getData (nth 3 items None) "4h") in
  let n := List.length series in
  (List.length (MTF.hist_atr_4h c) <= 90)%nat
  /\ (forallb parses series = true ->
      List.length (MTF.hist_atr_4h c)
      = (if Nat.ltb n 15 then 0 else Nat.min 90 (n - 13))%nat
      /\ forall a,
          Structure.computeAtr4hNorm (Some a) (hist_atr_4h (MTF.candleData c)) = None
          <-> (n < 33)%nat).
Proof.
  intros E. cbv zeta. rewrite (hist_length items c E).
  split; [rewrite slice_last_length; lia |].
  intros Hp. rewrite (combiner_ATR_is_trend_ATR _ 14 Hp).
  set (series := MTF.s_values (MTF.getData (nth 3 items None) "4h")) in *.
  assert (Hlen : List.length (MTF.slice_last 90 (atr_values (Trend.calculateATR series 14)))
                 = (if Nat.ltb (List.length series) 15 then 0
                    else Nat.min 90 (List.length series - 13))%nat).
  { rewrite slice_last_length.
    destruct (Nat.ltb_spec (List.length series) 15) as [L | L].
    - unfold Trend.calculateATR.
      destruct (Nat.ltb_spec (List.length series) (14 + 1)); [reflexivity | lia].
    - destruct (trend_ATR_values series 14) as [Hv _]; [simpl; lia |].
      rewrite Hv. lia. }
  split; [exact Hlen |].
  intros a. unfold MTF.candleData. cbn [hist_atr_4h].
  rewrite (hist_length items c E). fold series.
  rewrite (combiner_ATR_is_trend_ATR series 14 Hp).
  unfold Structure.computeAtr4hNorm.
  rewrite Hlen.
  destruct (Nat.ltb_spec (List.length series) 15) as [L | L].
  - cbn [Nat.ltb Nat.leb]. split; [intros _; lia | reflexivity].
  - destruct (Nat.ltb_spec (Nat.min 90 (List.length series - 13)) 20) as [L2 | L2].
    + split; [intros _; lia | reflexivity].
    + split; [discriminate | intros; lia].
Qed.

Lemma hist_atr_4h_window_witness :
  exists c,
    MTF.MTF_Combiner Sample.feeds = inr c
    /\ List.length (MTF.hist_atr_4h c) = 47%nat
    /\ Structure.computeAtr4hNorm (Some 1%float) (hist_atr_4h (MTF.candleData c)) <> None.
Proof.
  destruct (MTF.MTF_Combiner Sample.feeds) as [msg | c] eqn:E;
    [vm_compute in E; discriminate E |].
  exists c. split; [reflexivity |].
  destruct (hist_atr_4h_window Sample.feeds c E) as [_ H].
  destruct H as [Hl Hn]; [vm_compute; reflexivity |].
  split.
  - rewrite Hl. vm_compute. reflexivity.
  - intros Hnone. apply Hn in Hnone. vm_compute in Hnone. lia.
Defined.

(** X21: [addTypicalPrice] keeps the number of candles and, in every
    candle, time, open, high, low, close and volume; it sets typical to
    (high + low + close) / 3 where the three parse and leaves the candle as
    it is where they do not; applied twice it gives what it gives once. *)
Theorem addTypicalPrice_adds_only_typical (candles : list Candle) :
  List.length (MTF.addTypicalPrice candles) = List.length candles
  /\ MTF.addTypicalPrice (MTF.addTypicalPrice candles) = MTF.addTypicalPrice candles
  /\ forall c, In c candles ->
       exists c', In c' (MTF.addTypicalPrice candles)
         /\ time c' = time c /\ open c' = open c /\ high c' = high c /\ low c' = low c
         /\ close c' = close c /\ volume c' = volume c
         /\ typical c' = (if parses c then Some ((high c + low c + close c) / 3)%float
                          else typical c).
Proof.
  unfold MTF.addTypicalPrice. split; [apply length_map |]. split.
  - rewrite map_map. apply map_ext. intros c. cbv zeta.
    destruct (JS.isNaN (high c) || JS.isNaN (low c) || JS.isNaN (close c)) eqn:E.
    + rewrite E. reflexivity.
    + cbn [high low close]. rewrite E. reflexivity.
  - intros c Hc. eexists. split; [apply in_map; exact Hc |].
    cbv zeta. unfold parses.
    destruct (JS.isNaN (high c)); cbn [orb negb andb]; [repeat split |].
    destruct (JS.isNaN (low c)); cbn [orb negb andb]; [repeat split |].
    destruct (JS.isNaN (close c)); cbn [orb negb andb]; repeat split.
Qed.

(** X22: the combiner throws exactly when it is given fewer than five
    items.  Otherwise it returns a bundle whatever the items are: the
    symbol is never empty ('UNKNOWN' at worst), the pip size in meta is a
    number other than 0 - the one of the 15-minute series, or 0.01 for a
    symbol with JPY in it and 0.0001 for any other - so that none of the
    scorers' own pip-size defaults is used on it; a missing 15-minute item
    gives an empty 15-minute array. *)
Theorem combiner_always_delivers (items : list MTF.Item) :
  (MTF.MTF_Combiner items
   = inl "MTF Combiner (v3.1) expects 5 inputs (5m, 15m, 1h, 4h, 1D)."
   <-> (List.length items < 5)%nat)
  /\ forall c, MTF.MTF_Combiner items = inr c ->
       MTF.symbol c <> ""
       /\ JS.truthyO (MTF.sm_pip_size (MTF.meta c)) = true
       /\ (forall d, JS.or_else (pip_size (cd_meta (MTF.candleData c))) d
                     = JS.num (MTF.sm_pip_size (MTF.meta c)))
       /\ (JS.truthyO (MTF.sm_pip_size (MTF.s_meta (MTF.getData (nth 1 items None) "15m")))
           = false ->
           MTF.sm_pip_size (MTF.meta c)
           = Some (if JS.includes (MTF.symbol c) "JPY" then 0.01 else 0.0001)%float)
       /\ (nth 1 items None = None -> MTF.data_15m c = []).
Proof.
  unfold MTF.MTF_Combiner.
  destruct (Nat.ltb_spec (List.length items) 5) as [L | L].
  - split; [split; [intros _; exact L | reflexivity] | intros c E; discriminate E].
  - split; [split; [discriminate | lia] |].
    cbv zeta. intros c E. injection E as <-.
    cbn [MTF.symbol MTF.meta MTF.candleData cd_meta pip_size MTF.data_15m].
    set (m15 := MTF.s_meta (MTF.getData (nth 1 items None) "15m")).
    split; [| split; [| split; [| split]]].
    + unfold MTF.or_string.
      destruct (MTF.sm_symbol m15) as [s |].
      * destruct (String.eqb_spec s ""); [| assumption].
        destruct (MTF.sm_symbol (MTF.s_meta (MTF.getData (nth 2 items None) "1h"))) as [s2 |];
          [destruct (String.eqb_spec s2 ""); [discriminate | assumption] | discriminate].
      * destruct (MTF.sm_symbol (MTF.s_meta (MTF.getData (nth 2 items None) "1h"))) as [s2 |];
          [destruct (String.eqb_spec s2 ""); [discriminate | assumption] | discriminate].
    + destruct (JS.truthyO (MTF.sm_pip_size m15)) eqn:Ep; cbn [negb]; [exact Ep |].
      cbn [MTF.sm_pip_size]. destruct (JS.includes _ "JPY"); reflexivity.
    + intros d.
      destruct (JS.truthyO (MTF.sm_pip_size m15)) eqn:Ep; cbn [negb].
      * destruct (MTF.sm_pip_size m15) as [x |]; [| discriminate Ep].
        cbn [JS.truthyO] in Ep. cbn [JS.or_else JS.num]. rewrite Ep. reflexivity.
      * cbn [MTF.sm_pip_size JS.or_else JS.num].
        destruct (JS.includes _ "JPY"); reflexivity.
    + intros Ep. rewrite Ep. cbn [negb MTF.sm_pip_size]. reflexivity.
    + intros Hn. rewrite Hn. reflexivity.
Qed.

(** Gold without a pip size from the feed: the combiner writes 0.0001,
    and the confluence node, which on its own would take 0.01 for XAU,
    prices the stop with it. *)
Example combiner_pip_size_for_gold :
  exists c,
    MTF.MTF_Combiner Sample.feeds = inr c
    /\ MTF.symbol c = "XAU/USD"
    /\ MTF.sm_pip_size (MTF.meta c) = Some 0.0001%float
    /\ MTF.data_5m c = []
    /\ signal (MeanReversion.Scorer_Mean_Reversion (MTF.candleData c) Sample.far_levels)
       = "buy".
Proof. eexists. split; [vm_compute; reflexivity |]. repeat split. Qed.
